(** * Chedraui shopping list: cart normaliser, text parser, unit table,
      reconciliation mapper and session client

    A shallow embedding of [const.py], [api.py], [coordinator.py] and
    [todo.py] of the [chedraui_shopping_list] integration, with the
    properties of its specification stated and proved over it, and
    further properties read off the code.

    Layout: the Python builtins the code relies on ([PyStr], [PyFloat],
    [PyFloatRepr], [PyVal], [Exn]); the modules of the integration
    ([Const], [Regex], [Normalizer], [Api], [Client], [Coordinator],
    [Todo]); the vocabulary of the properties ([Spec]); the
    properties, among them that the text [repr] prints for a float
    reads back as that float. *)

From Stdlib Require Import ZArith QArith Qpower SpecFloat Ascii String.
From Stdlib Require Import DecimalString DecimalN Lia Lqa.
From stdpp Require Import gmap strings list.

Local Open Scope string_scope.

(** ** Python [str] on text of code points below 256

    A character is a code point in the range U+0000..U+00FF, and every
    property below that speaks of a text speaks of a text of such
    characters.  The predicates follow the Unicode properties CPython
    consults.

    What lies outside is not covered.  Two characters of the range have
    their capital above it (U+00B5 and U+00FF), so [upper] is that of
    CPython only on a text without them; [lower] stays inside the range
    on every text.  Above the range there are letters whose case
    images are ASCII letters: U+017F upper-cases to S, U+0131 to I,
    U+212A lower-cases to k, and [re.IGNORECASE] lets the ASCII classes
    of the patterns match them.  A property of alias resolution proved
    here therefore says nothing of a text holding one of them. *)
Module PyStr.

Definition code (c : ascii) : nat := nat_of_ascii c.

Definition between (lo hi : nat) (c : ascii) : bool :=
  (lo <=? code c)%nat && (code c <=? hi)%nat.

Definition is_code (n : nat) (c : ascii) : bool := (code c =? n)%nat.

(** [\d] of [re] on a [str] pattern: Unicode category Nd. *)
Definition is_decimal (c : ascii) : bool := between 48 57 c.

(** [str.isdigit]: the decimal digits and the superscripts 2, 3, 1. *)
Definition is_digit (c : ascii) : bool :=
  is_decimal c || is_code 178 c || is_code 179 c || is_code 185 c.

(** [str.isspace], [\s] and the set removed by [str.strip()]. *)
Definition is_space (c : ascii) : bool :=
  between 9 13 c || between 28 32 c || is_code 133 c || is_code 160 c.

Definition is_ascii_upper (c : ascii) : bool := between 65 90 c.
Definition is_ascii_lower (c : ascii) : bool := between 97 122 c.
Definition is_ascii_letter (c : ascii) : bool :=
  is_ascii_upper c || is_ascii_lower c.

(** [str.isalpha] *)
Definition is_alpha (c : ascii) : bool :=
  is_ascii_letter c || is_code 170 c || is_code 181 c || is_code 186 c
  || between 192 214 c || between 216 246 c || between 248 255 c.

(** [\w]: [str.isalnum] or the underscore. *)
Definition is_word (c : ascii) : bool :=
  is_alpha c || is_digit c || between 188 190 c || is_code 95 c.

Definition shift_up (c : ascii) : ascii := ascii_of_nat (code c + 32).
Definition shift_down (c : ascii) : ascii := ascii_of_nat (code c - 32).

Definition lower_char (c : ascii) : ascii :=
  if is_ascii_upper c || (between 192 222 c && negb (is_code 215 c))
  then shift_up c else c.

(** The upper-case images of U+00B5 and U+00FF (U+039C and U+0178)
    lie above U+00FF; the embedding leaves these two characters
    unchanged, which is not what CPython does: [Spec.upper_in_range]
    names the texts on which [upper] is that of CPython.  U+00DF maps
    to the two letters SS, which [upper] below handles. *)
Definition upper_char (c : ascii) : ascii :=
  if is_ascii_lower c || (between 224 254 c && negb (is_code 247 c))
  then shift_down c else c.

Fixpoint map_chars (f : ascii -> ascii) (s : string) : string :=
  match s with
  | EmptyString => EmptyString
  | String c s' => String (f c) (map_chars f s')
  end.

(** [str.lower()] *)
Definition lower (s : string) : string := map_chars lower_char s.

(** [str.upper()] *)
Fixpoint upper (s : string) : string :=
  match s with
  | EmptyString => EmptyString
  | String c s' =>
      if is_code 223 c then String "S" (String "S" (upper s'))
      else String (upper_char c) (upper s')
  end.

(** Longest prefix whose characters satisfy [p], and the rest. *)
Fixpoint span (p : ascii -> bool) (s : string) : string * string :=
  match s with
  | EmptyString => (EmptyString, EmptyString)
  | String c s' =>
      if p c then let '(a, b) := span p s' in (String c a, b)
      else (EmptyString, s)
  end.

Fixpoint forallb (p : ascii -> bool) (s : string) : bool :=
  match s with
  | EmptyString => true
  | String c s' => p c && forallb p s'
  end.

Definition is_empty (s : string) : bool :=
  match s with EmptyString => true | _ => false end.

Fixpoint rstrip_by (p : ascii -> bool) (s : string) : string :=
  match s with
  | EmptyString => EmptyString
  | String c s' =>
      let r := rstrip_by p s' in
      if is_empty r && p c then EmptyString else String c r
  end.

Definition strip_by (p : ascii -> bool) (s : string) : string :=
  rstrip_by p (snd (span p s)).

(** [str.strip()] *)
Definition strip (s : string) : string := strip_by is_space s.

(** [str.isdigit()] *)
Definition isdigit (s : string) : bool := negb (is_empty s) && forallb is_digit s.

(** [str.replace(",", ".")] *)
Definition comma_to_dot (s : string) : string :=
  map_chars (fun c => if is_code 44 c then "."%char else c) s.

Fixpoint repeat_char (c : ascii) (n : nat) : string :=
  match n with O => EmptyString | S n' => String c (repeat_char c n') end.

(** [a <= b] on [str]: lexicographic on code points. *)
Definition leb (a b : string) : bool := String.leb a b.

Fixpoint insert_sorted (x : string) (l : list string) : list string :=
  match l with
  | [] => [x]
  | y :: l' => if leb x y then x :: l else y :: insert_sorted x l'
  end.

(** [sorted(l)] for a list of distinct [str]. *)
Definition sorted (l : list string) : list string :=
  List.fold_right insert_sorted [] l.

End PyStr.

(** ** Python [float]: IEEE 754 binary64

    Values are [spec_float] of the Standard Library at precision 53 and
    maximal exponent 1024.  Conversions from decimal text are correctly
    rounded (round half to even), as CPython's are. *)
Module PyFloat.

Local Open Scope Z_scope.

Definition float : Type := spec_float.

Definition prec : Z := 53.
Definition emax : Z := 1024.

(** The binary64 value nearest to [n / d]; [n >= 0] and [d > 0]. *)
Definition of_ratio (neg : bool) (n d : Z) : float :=
  match n, d with
  | Zpos pn, Zpos pd =>
      SFdiv prec emax (S754_finite neg pn 0) (S754_finite false pd 0)
  | _, _ => S754_zero neg
  end.

(** The binary64 value nearest to [n * 10 ^ e]. *)
Definition of_decimal (neg : bool) (n e : Z) : float :=
  if 0 <=? e then of_ratio neg (n * 10 ^ e) 1 else of_ratio neg n (10 ^ (- e)).

Definition is_zero (f : float) : bool :=
  match f with S754_zero _ => true | _ => false end.

Definition is_infinite (f : float) : bool :=
  match f with S754_infinity _ => true | _ => false end.

(** [bool(f)]: every float but the two zeros is true, NaN included. *)
Definition truthy (f : float) : bool := negb (is_zero f).

(** [float(n)] for an [int]: [None] stands for [OverflowError]. *)
Definition of_int (z : Z) : option float :=
  let f := of_ratio (z <? 0) (Z.abs z) 1 in
  if is_infinite f then None else Some f.

(** *** [float(s)] for a [str] *)

(** Whitespace [float] strips: the ASCII blanks, and U+0085 and U+00A0
    which CPython first turns into a blank. *)
Definition is_float_space (c : ascii) : bool :=
  PyStr.between 9 13 c || PyStr.is_code 32 c || PyStr.is_code 133 c || PyStr.is_code 160 c.

(** Underscores are legal only between two digits and are dropped;
    [prev] is the previous character. [None] is a misplaced one. *)
Fixpoint drop_underscores (prev : option ascii) (s : string) : option string :=
  match s with
  | EmptyString =>
      match prev with
      | Some c => if PyStr.is_code 95 c then None else Some EmptyString
      | None => Some EmptyString
      end
  | String c s' =>
      let prev_digit := match prev with Some p => PyStr.is_decimal p | None => false end in
      let prev_under := match prev with Some p => PyStr.is_code 95 p | None => false end in
      if PyStr.is_code 95 c then
        if prev_digit then drop_underscores (Some c) s' else None
      else if prev_under && negb (PyStr.is_decimal c) then None
      else option_map (String c) (drop_underscores (Some c) s')
  end.

Definition digit_value (c : ascii) : Z := Z.of_nat (PyStr.code c) - 48.

(** Value of a run of decimal digits, most significant first. *)
Fixpoint digits_value (acc : Z) (s : string) : Z :=
  match s with
  | EmptyString => acc
  | String c s' => digits_value (10 * acc + digit_value c) s'
  end.

Definition split_sign (s : string) : bool * string :=
  match s with
  | String "-" s' => (true, s')
  | String "+" s' => (false, s')
  | _ => (false, s)
  end.

(** The exponent part: empty, or [e], an optional sign and digits. *)
Definition parse_exponent (s : string) : option Z :=
  match s with
  | EmptyString => Some 0
  | String c s' =>
      if PyStr.is_code 101 c || PyStr.is_code 69 c then
        let '(neg, ds) := split_sign s' in
        if negb (PyStr.is_empty ds) && PyStr.forallb PyStr.is_decimal ds
        then Some (if neg then - digits_value 0 ds else digits_value 0 ds)
        else None
      else None
  end.

Definition parse_unsigned (neg : bool) (s : string) : option float :=
  let l := PyStr.lower s in
  if (String.eqb l "inf" || String.eqb l "infinity")%bool then Some (S754_infinity neg)
  else if String.eqb l "nan" then Some S754_nan
  else
    let '(ip, r1) := PyStr.span PyStr.is_decimal s in
    let '(fp, r2) :=
      match r1 with
      | String "." r => PyStr.span PyStr.is_decimal r
      | _ => (EmptyString, r1)
      end in
    if PyStr.is_empty ip && PyStr.is_empty fp then None
    else
      match parse_exponent r2 with
      | Some e =>
          Some (of_decimal neg (digits_value 0 (ip +:+ fp))
                               (e - Z.of_nat (String.length fp)))
      | None => None
      end.

(** [float(s)]; [None] stands for [ValueError]. *)
Definition of_str (s : string) : option float :=
  match drop_underscores None (PyStr.strip_by is_float_space s) with
  | Some t => let '(neg, u) := split_sign t in parse_unsigned neg u
  | None => None
  end.

End PyFloat.

(** ** [repr] of a float: the shortest digits that read back

    CPython prints the shortest decimal digit string that [float] reads
    back to the same value, the nearest to the value when several have
    that length, in positional notation when the decimal point falls
    within [-3 .. 16] and in exponent notation otherwise. *)
Module PyFloatRepr.

Import PyFloat.
Local Open Scope Z_scope.

(** [m * 2 ^ e] as a fraction. *)
Definition ratio_of (m : positive) (e : Z) : Z * Z :=
  if 0 <=? e then (Zpos m * 2 ^ e, 1) else (Zpos m, 2 ^ (- e)).

(** [num / den < 10 ^ k] *)
Definition below_pow10 (num den k : Z) : bool :=
  if 0 <=? k then num <? den * 10 ^ k else num * 10 ^ (- k) <? den.

(** The least [k' >= k] with [num / den < 10 ^ k']. *)
Fixpoint find_decpt (fuel : nat) (num den k : Z) : Z :=
  match fuel with
  | O => k
  | S fuel' =>
      if below_pow10 num den k then k else find_decpt fuel' num den (k + 1)
  end.

(** Every positive binary64 value lies in [10^-324, 10^309). *)
Definition decpt_of (num den : Z) : Z := find_decpt 640 num den (-323).

(** [num / den * 10 ^ s], as quotient, remainder and divisor. *)
Definition scaled (num den s : Z) : Z * Z * Z :=
  let '(n, d) := if 0 <=? s then (num * 10 ^ s, den) else (num, den * 10 ^ (- s)) in
  (n / d, n mod d, d).

Definition nearest (lo rem d : Z) : Z :=
  if 2 * rem <? d then lo
  else if d <? 2 * rem then lo + 1
  else if Z.even lo then lo else lo + 1.

(** The [n]-digit candidate that reads back as [x], if there is one. *)
Definition candidate (x : float) (num den decpt n : Z) : option Z :=
  let s := n - decpt in
  let '(lo, rem, d) := scaled num den s in
  let ok c := SFeqb (of_decimal false c (- s)) x in
  match ok lo, ok (lo + 1) with
  | true, true => Some (nearest lo rem d)
  | true, false => Some lo
  | false, true => Some (lo + 1)
  | false, false => None
  end.

(** Digits and length tried first; seventeen digits always suffice. *)
Fixpoint shortest (fuel : nat) (x : float) (num den decpt n : Z) : Z * Z :=
  match fuel with
  | O => let '(lo, rem, d) := scaled num den (n - decpt) in (nearest lo rem d, n)
  | S fuel' =>
      match candidate x num den decpt n with
      | Some c => (c, n)
      | None => shortest fuel' x num den decpt (n + 1)
      end
  end.

Definition decimal_of_Z (z : Z) : string :=
  NilZero.string_of_uint (N.to_uint (Z.to_N z)).

Definition is_char_0 (c : ascii) : bool := PyStr.is_code 48 c.

Fixpoint take (n : nat) (s : string) : string :=
  match n, s with
  | S n', String c s' => String c (take n' s')
  | _, _ => EmptyString
  end.

Fixpoint drop (n : nat) (s : string) : string :=
  match n, s with
  | S n', String _ s' => drop n' s'
  | _, _ => s
  end.

Definition exponent_text (e : Z) : string :=
  let a := decimal_of_Z (Z.abs e) in
  (if e <? 0 then "-" else "+")
  +:+ (if (String.length a <? 2)%nat then "0" +:+ a else a).

(** Lay out the significant digits [ds] with the point after [decpt]
    of them. *)
Definition layout (ds : string) (decpt : Z) : string :=
  let len := Z.of_nat (String.length ds) in
  if (decpt <=? -4) || (16 <? decpt) then
    take 1 ds +:+ (if 1 <? len then "." +:+ drop 1 ds else "")
    +:+ "e" +:+ exponent_text (decpt - 1)
  else if decpt <=? 0 then
    "0." +:+ PyStr.repeat_char "0" (Z.to_nat (- decpt)) +:+ ds
  else if len <=? decpt then
    ds +:+ PyStr.repeat_char "0" (Z.to_nat (decpt - len)) +:+ ".0"
  else
    take (Z.to_nat decpt) ds +:+ "." +:+ drop (Z.to_nat decpt) ds.

Definition repr_finite (x : float) (m : positive) (e : Z) : string :=
  let '(num, den) := ratio_of m e in
  let decpt := decpt_of num den in
  let '(c, n) := shortest 16 x num den decpt 1 in
  let all := decimal_of_Z c in
  layout (PyStr.rstrip_by is_char_0 all)
         (decpt + (Z.of_nat (String.length all) - n)).

(** [repr(x)], which is also [str(x)] and the text an f-string
    inserts for [{x}]. *)
Definition repr (x : float) : string :=
  match x with
  | S754_nan => "nan"
  | S754_infinity s => if s then "-inf" else "inf"
  | S754_zero s => if s then "-0.0" else "0.0"
  | S754_finite s m e =>
      (if s then "-" else "") +:+ repr_finite (S754_finite false m e) m e
  end.

End PyFloatRepr.

(** ** JSON-like Python values

    What [json.loads] produces and what the dictionaries of the
    integration hold.  A [dict] is the list of its items in insertion
    order; its keys are distinct, and a lookup takes the first binding. *)
Module PyVal.

Import PyFloat.

#[warning="-register-all"] Inductive py_value : Type :=
| PyNone
| PyBool (b : bool)
| PyInt (z : Z)
| PyFloat (f : float)
| PyStr (s : string)
| PyList (l : list py_value)
| PyDict (d : list (string * py_value)).

Definition py_dict : Type := list (string * py_value).

(** [bool(v)] *)
Definition truthy (v : py_value) : bool :=
  match v with
  | PyNone => false
  | PyBool b => b
  | PyInt z => negb (z =? 0)%Z
  | PyFloat f => PyFloat.truthy f
  | PyStr s => negb (PyStr.is_empty s)
  | PyList l => match l with [] => false | _ => true end
  | PyDict d => match d with [] => false | _ => true end
  end.

(** [a or b] *)
Definition py_or (a b : py_value) : py_value := if truthy a then a else b.

(** [d[k]] when [k in d] *)
Fixpoint dict_lookup (k : string) (d : py_dict) : option py_value :=
  match d with
  | [] => None
  | (k', v) :: d' => if String.eqb k k' then Some v else dict_lookup k d'
  end.

(** [k in d] *)
Definition dict_mem (k : string) (d : py_dict) : bool :=
  match dict_lookup k d with Some _ => true | None => false end.

(** [d.get(k)] *)
Definition dict_get (k : string) (d : py_dict) : py_value :=
  match dict_lookup k d with Some v => v | None => PyNone end.

(** [d.get(k, dflt)] *)
Definition dict_get_default (k : string) (dflt : py_value) (d : py_dict) : py_value :=
  match dict_lookup k d with Some v => v | None => dflt end.

(** *** [repr] and [str] *)

Definition hex_digit (n : nat) : ascii :=
  if (n <? 10)%nat then ascii_of_nat (48 + n) else ascii_of_nat (87 + n).

Definition backslash : ascii := ascii_of_nat 92.

(** A backslash followed by [c]. *)
Definition escaped (c : ascii) : string := String backslash (String c EmptyString).

Definition hex_escape (c : ascii) : string :=
  String backslash (String "x" (String (hex_digit (PyStr.code c / 16))
                                 (String (hex_digit (PyStr.code c mod 16)) EmptyString))).

(** Characters [repr] prints as they are. *)
Definition is_printable (c : ascii) : bool :=
  PyStr.between 32 126 c
  || (PyStr.between 161 255 c && negb (PyStr.is_code 173 c)).

Fixpoint contains (c : ascii) (s : string) : bool :=
  match s with
  | EmptyString => false
  | String c' s' => Ascii.eqb c c' || contains c s'
  end.

Definition apostrophe : ascii := ascii_of_nat 39.
Definition double_quote : ascii := ascii_of_nat 34.

Fixpoint escape (quote : ascii) (s : string) : string :=
  match s with
  | EmptyString => EmptyString
  | String c s' =>
      (if Ascii.eqb c quote || PyStr.is_code 92 c then escaped c
       else if PyStr.is_code 9 c then escaped "t"
       else if PyStr.is_code 10 c then escaped "n"
       else if PyStr.is_code 13 c then escaped "r"
       else if is_printable c then String c EmptyString
       else hex_escape c)
      +:+ escape quote s'
  end.

(** [repr(s)] for a [str]: single quotes unless the text holds an
    apostrophe and no double quote. *)
Definition repr_str (s : string) : string :=
  let quote :=
    if contains apostrophe s && negb (contains double_quote s)
    then double_quote else apostrophe in
  String quote (escape quote s) +:+ String quote EmptyString.

Definition repr_int (z : Z) : string := NilZero.string_of_int (Z.to_int z).

Fixpoint join (sep : string) (l : list string) : string :=
  match l with
  | [] => EmptyString
  | [x] => x
  | x :: l' => x +:+ sep +:+ join sep l'
  end.

(** [repr(v)] *)
Fixpoint repr (v : py_value) : string :=
  match v with
  | PyNone => "None"
  | PyBool b => if b then "True" else "False"
  | PyInt z => repr_int z
  | PyFloat f => PyFloatRepr.repr f
  | PyStr s => repr_str s
  | PyList l => "[" +:+ join ", " (List.map repr l) +:+ "]"
  | PyDict d =>
      "{" +:+ join ", " (List.map (fun kv => repr_str (fst kv) +:+ ": " +:+ repr (snd kv)) d)
      +:+ "}"
  end.

(** [str(v)] *)
Definition py_str (v : py_value) : string :=
  match v with
  | PyStr s => s
  | _ => repr v
  end.

(** What a [for] loop over [v] visits; [None] stands for the
    [TypeError] of a value that is not iterable. *)
Fixpoint chars_of (s : string) : list py_value :=
  match s with
  | EmptyString => []
  | String c s' => PyStr (String c EmptyString) :: chars_of s'
  end.

Definition py_iter (v : py_value) : option (list py_value) :=
  match v with
  | PyList l => Some l
  | PyStr s => Some (chars_of s)
  | PyDict d => Some (List.map (fun kv => PyStr (fst kv)) d)
  | PyNone | PyBool _ | PyInt _ | PyFloat _ => None
  end.

End PyVal.

(** ** [const.py]: the unit table *)
Module Const.

Definition ATTR_QUANTITY : string := "quantity".
Definition ATTR_UNIT : string := "unit".
Definition ATTR_WEIGHT : string := "weight".
Definition ATTR_MEASUREMENT_TYPE : string := "measurement_type".

Definition PIECE_UNIT : string := "EA".
Definition WEIGHT_UNIT_KG : string := "KGM".
Definition WEIGHT_UNIT_G : string := "GRM".
Definition WEIGHT_UNIT_LB : string := "LBR".
Definition VOLUME_UNIT_L : string := "LTR".
Definition VOLUME_UNIT_ML : string := "MLT".

Definition MEASUREMENT_TYPE_PIECE : string := "piece".
Definition MEASUREMENT_TYPE_WEIGHT : string := "weight".
Definition MEASUREMENT_TYPE_VOLUME : string := "volume".

(** The items of [UNIT_ALIASES], in the order of the source. *)
Definition UNIT_ALIASES_items : list (string * string) :=
  [ ("pieza", PIECE_UNIT); ("piezas", PIECE_UNIT); ("pz", PIECE_UNIT);
    ("pieza(s)", PIECE_UNIT); ("piece", PIECE_UNIT); ("pieces", PIECE_UNIT);
    ("ea", PIECE_UNIT); ("unit", PIECE_UNIT); ("units", PIECE_UNIT);
    ("unidad", PIECE_UNIT); ("unidades", PIECE_UNIT);
    ("kg", WEIGHT_UNIT_KG); ("kilogram", WEIGHT_UNIT_KG);
    ("kilograms", WEIGHT_UNIT_KG); ("kilogramo", WEIGHT_UNIT_KG);
    ("kilogramos", WEIGHT_UNIT_KG); ("kilo", WEIGHT_UNIT_KG);
    ("kilos", WEIGHT_UNIT_KG);
    ("g", WEIGHT_UNIT_G); ("gr", WEIGHT_UNIT_G); ("gram", WEIGHT_UNIT_G);
    ("grams", WEIGHT_UNIT_G); ("gramo", WEIGHT_UNIT_G); ("gramos", WEIGHT_UNIT_G);
    ("lb", WEIGHT_UNIT_LB); ("lbs", WEIGHT_UNIT_LB); ("pound", WEIGHT_UNIT_LB);
    ("pounds", WEIGHT_UNIT_LB);
    ("l", VOLUME_UNIT_L); ("lt", VOLUME_UNIT_L); ("liter", VOLUME_UNIT_L);
    ("liters", VOLUME_UNIT_L); ("litro", VOLUME_UNIT_L); ("litros", VOLUME_UNIT_L);
    ("ml", VOLUME_UNIT_ML); ("mililitro", VOLUME_UNIT_ML);
    ("mililitros", VOLUME_UNIT_ML) ].

Definition UNIT_ALIASES : gmap string string := list_to_map UNIT_ALIASES_items.

Definition UNIT_TO_MEASUREMENT_TYPE_items : list (string * string) :=
  [ (PIECE_UNIT, MEASUREMENT_TYPE_PIECE);
    (WEIGHT_UNIT_KG, MEASUREMENT_TYPE_WEIGHT);
    (WEIGHT_UNIT_G, MEASUREMENT_TYPE_WEIGHT);
    (WEIGHT_UNIT_LB, MEASUREMENT_TYPE_WEIGHT);
    (VOLUME_UNIT_L, MEASUREMENT_TYPE_VOLUME);
    (VOLUME_UNIT_ML, MEASUREMENT_TYPE_VOLUME) ].

Definition UNIT_TO_MEASUREMENT_TYPE : gmap string string :=
  list_to_map UNIT_TO_MEASUREMENT_TYPE_items.

(** The six canonical unit codes. *)
Definition canonical_units : list string :=
  [PIECE_UNIT; WEIGHT_UNIT_KG; WEIGHT_UNIT_G; WEIGHT_UNIT_LB; VOLUME_UNIT_L; VOLUME_UNIT_ML].

End Const.

(** ** The two regular expressions

    [re.search] returns the leftmost match; at a given start the
    pattern is tried greedily with backtracking.  In both patterns the
    character classes that follow one another are disjoint (digits,
    the separators [.] and [,], white space, letters, [:] and [=],
    word characters after white space), so giving back characters of a
    greedy run never turns a failed attempt into a match: the match at
    a start position, when there is one, is the greedy one computed
    here. *)
Module Regex.

Import PyStr.

(** [[a-zA-Záéíóúñ]] under [re.IGNORECASE]: the ASCII letters and the
    six accented letters in both cases. *)
Definition is_unit_letter (c : ascii) : bool :=
  is_ascii_letter c
  || is_code 225 c || is_code 233 c || is_code 237 c
  || is_code 243 c || is_code 250 c || is_code 241 c
  || is_code 193 c || is_code 201 c || is_code 205 c
  || is_code 211 c || is_code 218 c || is_code 209 c.

(** [[\.,]] *)
Definition is_separator (c : ascii) : bool := is_code 46 c || is_code 44 c.

(** [(?P<value>\d+(?:[\.,]\d+)?)\s*(?P<unit>[a-zA-Záéíóúñ]+)] anchored
    at the start of [s]: the groups [value] and [unit]. *)
Definition match_number_unit (s : string) : option (string * string) :=
  let '(int_part, r1) := span is_decimal s in
  if is_empty int_part then None
  else
    let '(value, r2) :=
      match r1 with
      | String c r =>
          let '(frac, r') := span is_decimal r in
          if is_separator c && negb (is_empty frac)
          then (int_part +:+ String c frac, r')
          else (int_part, r1)
      | EmptyString => (int_part, r1)
      end in
    let '(_, r3) := span is_space r2 in
    let '(unit, _) := span is_unit_letter r3 in
    if is_empty unit then None else Some (value, unit).

(** [pattern.search(s)]: the anchored match is tried at every start
    position, from left to right. *)
Fixpoint search {A : Type} (match_at : string -> option A) (s : string) : option A :=
  match match_at s with
  | Some r => Some r
  | None =>
      match s with
      | EmptyString => None
      | String _ s' => search match_at s'
      end
  end.

(** [_DESCRIPTION_REGEX.search(s)] and [_UNIT_IN_TEXT_REGEX.search(s)]:
    the two patterns are the same but for the name of the first
    group. *)
Definition search_number_unit (s : string) : option (string * string) :=
  search match_number_unit s.

(** [s] starts with [lit], letter case ignored; the rest of [s]. *)
Fixpoint strip_literal_nocase (lit s : string) : option string :=
  match lit, s with
  | EmptyString, _ => Some s
  | String a lit', String b s' =>
      if Ascii.eqb (lower_char a) (lower_char b)
      then strip_literal_nocase lit' s' else None
  | String _ _, EmptyString => None
  end.

(** [product_id\s*[:=]\s*(?P<product_id>\w+)] anchored at the start
    of [s]: the group [product_id]. *)
Definition match_product_id (s : string) : option string :=
  match strip_literal_nocase "product_id" s with
  | None => None
  | Some r1 =>
      let '(_, r2) := span is_space r1 in
      match r2 with
      | String c r3 =>
          if is_code 58 c || is_code 61 c then
            let '(_, r4) := span is_space r3 in
            let '(word, _) := span is_word r4 in
            if is_empty word then None else Some word
          else None
      | EmptyString => None
      end
  end.

(** [_PRODUCT_ID_REGEX.search(s)] *)
Definition search_product_id (s : string) : option string :=
  search match_product_id s.

End Regex.

(** ** Exceptions and results *)
Module Exn.

Inductive exn : Type :=
| ChedrauiAuthError
| ChedrauiRequestError (status : option Z)
| ValueError
| AttributeError
| TypeError
| OverflowError
| TimeoutError.

(** The outcome of a call: a value or a raised exception. *)
Inductive res (A : Type) : Type :=
| Ok (a : A)
| Raise (e : exn).
Arguments Ok {A} a.
Arguments Raise {A} e.

Definition bind {A B} (m : res A) (k : A -> res B) : res B :=
  match m with
  | Ok a => k a
  | Raise e => Raise e
  end.

Definition is_ok {A} (m : res A) : bool :=
  match m with Ok _ => true | Raise _ => false end.

(** Run [f] over a list from left to right; the first exception ends
    the loop. [f] may also skip an element ([continue]). *)
Fixpoint collect {A B} (f : A -> res (option B)) (l : list A) : res (list B) :=
  match l with
  | [] => Ok []
  | x :: l' =>
      bind (f x) (fun o =>
      bind (collect f l') (fun rest =>
      Ok (match o with Some y => y :: rest | None => rest end)))
  end.

End Exn.

Declare Scope res_scope.
Delimit Scope res_scope with res.
Notation "x <~ m ;; k" := (Exn.bind m (fun x => k))
  (at level 100, m at next level, right associativity) : res_scope.

(** ** [api.py]: records and the remote record normaliser *)
Module CartItem.
Record t : Type := mk {
  item_id : string;
  product_id : string;
  name : string;
  quantity : PyFloat.float;
  unit : string;
  measurement_type : string;
  price : option PyFloat.float;
  original_payload : option PyVal.py_dict
}.
End CartItem.

Module ProductSummary.
Record t : Type := mk {
  product_id : string;
  sku : option string;
  name : string;
  price : option PyFloat.float;
  unit : option string;
  measurement_type : option string;
  category : option string;
  brand : PyVal.py_value
}.

(** An optional field as a Python value: [None] or the value. *)
Definition opt_value {A : Type} (inj : A -> PyVal.py_value) (o : option A)
  : PyVal.py_value :=
  match o with Some a => inj a | None => PyVal.PyNone end.

Definition to_dict (p : t) : PyVal.py_dict :=
  [ ("product_id", PyVal.PyStr (product_id p));
    ("sku", opt_value PyVal.PyStr (sku p));
    ("name", PyVal.PyStr (name p));
    ("price", opt_value PyVal.PyFloat (price p));
    ("unit", opt_value PyVal.PyStr (unit p));
    ("measurement_type", opt_value PyVal.PyStr (measurement_type p));
    ("category", opt_value PyVal.PyStr (category p));
    ("brand", brand p) ].
End ProductSummary.

Module Normalizer.

Import PyVal Const Exn.
Local Open Scope res_scope.

(** The float [1.0]. *)
Definition one : PyFloat.float := S754_finite false 4503599627370496 (-52).

(** [o or d] for an optional [str]: [None] and the empty text are
    false. *)
Definition str_or (o : option string) (d : string) : string :=
  match o with
  | Some s => if PyStr.is_empty s then d else s
  | None => d
  end.

(** [UNIT_ALIASES.get(text.lower(), text.upper())] *)
Definition alias_or_upper (text : string) : string :=
  default (PyStr.upper text) (UNIT_ALIASES !! PyStr.lower text).

(** [isinstance(value, str) and value] *)
Definition nonempty_str (v : py_value) : option string :=
  match v with
  | PyStr s => if PyStr.is_empty s then None else Some s
  | _ => None
  end.

(** The value of the first of [keys] that holds a non-empty [str]. *)
Fixpoint first_nonempty_str (keys : list string) (raw : py_dict) : option string :=
  match keys with
  | [] => None
  | key :: keys' =>
      match nonempty_str (dict_get key raw) with
      | Some s => Some s
      | None => first_nonempty_str keys' raw
      end
  end.

Definition _extract_name (raw : py_dict) : string :=
  default "Producto" (first_nonempty_str ["productName"; "name"; "description"] raw).

Definition _extract_unit (raw : py_dict) : string :=
  match first_nonempty_str ["uom"; "unitOfMeasure"; "unit"; "measure"] raw with
  | Some value => str_or (UNIT_ALIASES !! PyStr.lower value) (PyStr.upper value)
  | None =>
      let measurement := py_or (dict_get "measurementUnit" raw) (dict_get "measurement" raw) in
      match nonempty_str measurement with
      | Some m => str_or (UNIT_ALIASES !! PyStr.lower m) "EA"
      | None => "EA"
      end
  end.

(** [float(value)] for an [int] or a [float]; [bool] is an [int]. *)
Definition float_of_int (z : Z) : res PyFloat.float :=
  match PyFloat.of_int z with
  | Some f => Ok f
  | None => Raise OverflowError
  end.

Definition _extract_float (value : py_value) (dflt : option PyFloat.float)
  : res (option PyFloat.float) :=
  match value with
  | PyNone => Ok dflt
  | PyBool b => f <~ float_of_int (if b then 1 else 0) ;; Ok (Some f)
  | PyInt z => f <~ float_of_int z ;; Ok (Some f)
  | PyFloat f => Ok (Some f)
  | PyStr s =>
      match PyFloat.of_str (PyStr.comma_to_dot s) with
      | Some f => Ok (Some f)
      | None => Ok dflt
      end
  | PyList _ | PyDict _ => Ok dflt
  end.

(** [a or b or c or d] *)
Definition or4 (a b c d : py_value) : py_value := py_or (py_or (py_or a b) c) d.

(** The body of the loop of [_parse_cart_items] for one element:
    [None] is [continue].  Every use of [raw] is [raw.get], which a
    value other than a [dict] does not have. *)
Definition cart_item_of (raw : py_value) : res (option CartItem.t) :=
  match raw with
  | PyNone => Ok None
  | PyDict d =>
      let item_id :=
        py_str (or4 (dict_get "orderItemId" d) (dict_get "id" d)
                    (dict_get "itemId" d) (PyStr "")) in
      let product_id :=
        py_str (py_or (or4 (dict_get "productId" d) (dict_get "catEntryId" d)
                           (dict_get "catalogEntryId" d) (dict_get "productPartNumber" d))
                      (PyStr "")) in
      if PyStr.is_empty item_id then Ok None
      else
        let name := _extract_name d in
        quantity <~ _extract_float (dict_get "quantity" d) (Some one) ;;
        let unit := _extract_unit d in
        let measurement_type :=
          default MEASUREMENT_TYPE_PIECE (UNIT_TO_MEASUREMENT_TYPE !! unit) in
        price <~ _extract_float
                   (or4 (dict_get "price" d) (dict_get "offerPrice" d)
                        (dict_get "unitPrice" d) (dict_get "orderItemAmount" d))
                   None ;;
        Ok (Some (CartItem.mk item_id product_id name (default one quantity) unit
                              measurement_type price (Some d)))
  | PyBool _ | PyInt _ | PyFloat _ | PyStr _ | PyList _ => Raise AttributeError
  end.

(** [for raw in v]: the elements, or [TypeError]. *)
Definition iterate (v : py_value) : res (list py_value) :=
  match py_iter v with
  | Some l => Ok l
  | None => Raise TypeError
  end.

Definition _parse_cart_items (data : py_value) : res (list CartItem.t) :=
  if negb (truthy data) then Ok []
  else
    let order_items :=
      match data with
      | PyDict d =>
          py_or (py_or (dict_get "orderItem" d) (dict_get "orderItems" d)) (PyList [])
      | PyList _ => data
      | _ => PyList []
      end in
    raws <~ iterate order_items ;;
    collect cart_item_of raws.

Definition _extract_search_name (raw : py_dict) : string :=
  default "Producto"
    (first_nonempty_str ["name"; "productName"; "shortDescription"; "description"] raw).

Definition _extract_search_unit (raw : py_dict) : option string :=
  match first_nonempty_str ["uom"; "unitOfMeasure"; "unit"; "measure"] raw with
  | Some value => Some (str_or (UNIT_ALIASES !! PyStr.lower value) (PyStr.upper value))
  | None =>
      let unit_desc := py_or (dict_get "unitOfMeasureText" raw) (dict_get "measurement" raw) in
      let normalized :=
        match unit_desc with
        | PyStr s => str_or (UNIT_ALIASES !! PyStr.lower s) ""
        | _ => ""
        end in
      if negb (PyStr.is_empty normalized) then Some normalized
      else
        let quantity_desc := py_or (dict_get "measurement" raw) (dict_get "measure" raw) in
        match quantity_desc with
        | PyStr s =>
            match Regex.search_number_unit s with
            | Some (_, unit) => Some (alias_or_upper unit)
            | None => None
            end
        | _ => None
        end
  end.

Definition _infer_measurement_type_from_name (name : string) : option string :=
  match Regex.search_number_unit name with
  | None => None
  | Some (_, u) =>
      match UNIT_ALIASES !! PyStr.lower u with
      | Some unit =>
          if PyStr.is_empty unit then None else UNIT_TO_MEASUREMENT_TYPE !! unit
      | None => None
      end
  end.

(** The body of the loop of [_parse_search_results] for one element. *)
Definition product_of (raw : py_value) : res (option ProductSummary.t) :=
  match raw with
  | PyNone => Ok None
  | PyDict d =>
      let product_id :=
        py_str (py_or (or4 (dict_get "partNumber" d) (dict_get "uniqueID" d)
                           (dict_get "productId" d) (dict_get "id" d))
                      (PyStr "")) in
      if PyStr.is_empty product_id then Ok None
      else
        let sku :=
          py_str (py_or (py_or (dict_get "sku" d) (dict_get "partNumber" d))
                        (PyStr product_id)) in
        let name := _extract_search_name d in
        price <~ _extract_float
                   (or4 (dict_get "price" d) (dict_get "offerPrice" d)
                        (dict_get "bestPrice" d) (dict_get "unitPrice" d))
                   None ;;
        let unit := _extract_search_unit d in
        let measurement_type :=
          match unit with
          | Some u =>
              if PyStr.is_empty u then _infer_measurement_type_from_name name
              else UNIT_TO_MEASUREMENT_TYPE !! u
          | None => _infer_measurement_type_from_name name
          end in
        let brand := dict_get "brand" d in
        let categories := py_or (dict_get "category" d) (dict_get "categoryPath" d) in
        let category :=
          match categories with
          | PyList l =>
              match last l with
              | Some (PyStr s) => Some s
              | _ => None
              end
          | _ => None
          end in
        Ok (Some (ProductSummary.mk product_id (Some sku) name price unit
                                    measurement_type category brand))
  | PyBool _ | PyInt _ | PyFloat _ | PyStr _ | PyList _ => Raise AttributeError
  end.

Definition _parse_search_results (data : py_value) : res (list ProductSummary.t) :=
  if negb (truthy data) then Ok []
  else
    match data with
    | PyDict d =>
        let raw_items :=
          match dict_lookup "catalogEntryView" d with
          | Some v => v
          | None =>
              match dict_lookup "product" d with
              | Some (PyDict p) => dict_get_default "docs" (PyList []) p
              | _ => dict_get_default "items" (PyList []) d
              end
          end in
        raws <~ iterate raw_items ;;
        collect product_of raws
    | PyList l => collect product_of l
    | _ => Ok []
    end.

End Normalizer.

(** ** [api.py]: the session client

    The remote service is a script: the [n]-th request the client
    sends gets the [n]-th outcome.  The code is deterministic, so
    quantifying over all scripts covers every server. *)
Module Api.

Import PyVal Const Exn Normalizer.

Record request : Type := mk_request {
  method : string;
  path : string;
  params : list (string * string);
  json : option py_value;
  cookies_sent : gmap string string
}.

(** An HTTP response.  [decoded] is what [json.loads] makes of
    [text], [None] when the text is not JSON. *)
Record response : Type := mk_response {
  status : Z;
  cookies : list (string * option string);
  content_type : string;
  text : string;
  decoded : option py_value
}.

Inductive outcome : Type :=
| Answer (r : response)
| ClientError
| Timeout.

Record ChedrauiClient : Type := mk_client {
  _username : string;
  _password : string;
  _store_id : string;
  _cookies : gmap string string;
  _is_authenticated : bool
}.

(** The client, the remote service with the requests it has received
    (oldest first), and the cart snapshot of the coordinator. *)
Record world : Type := mk_world {
  client : ChedrauiClient;
  script : nat -> outcome;
  sent : list request;
  coordinator_data : option (list CartItem.t);
  last_update_success : bool
}.

(** A call that may change the world and may raise. *)
Definition M (A : Type) : Type := world -> res A * world.

Definition ret {A} (a : A) : M A := fun w => (Ok a, w).
Definition raise {A} (e : exn) : M A := fun w => (Raise e, w).
Definition mbind {A B} (m : M A) (k : A -> M B) : M B :=
  fun w =>
    match m w with
    | (Ok a, w') => k a w'
    | (Raise e, w') => (Raise e, w')
    end.
Definition lift {A} (r : res A) : M A := fun w => (r, w).

End Api.

Declare Scope call_scope.
Delimit Scope call_scope with call.
Notation "x <- m ;; k" := (Api.mbind m (fun x => k))
  (at level 100, m at next level, right associativity) : call_scope.
Notation "m ;;; k" := (Api.mbind m (fun _ => k))
  (at level 100, right associativity) : call_scope.

Module Client.

Import PyVal Const Exn Normalizer Api.
Local Open Scope call_scope.

Definition LOGIN_PATH (store_id : string) : string :=
  "/wcs/resources/store/" +:+ store_id +:+ "/loginidentity".
Definition CART_PATH (store_id : string) : string :=
  "/wcs/resources/store/" +:+ store_id +:+ "/cart".
Definition CART_ITEM_PATH (store_id item_id : string) : string :=
  "/wcs/resources/store/" +:+ store_id +:+ "/cart/@self/" +:+ item_id.
Definition CART_SELF_PATH (store_id : string) : string :=
  "/wcs/resources/store/" +:+ store_id +:+ "/cart/@self".
Definition SEARCH_PATH (store_id query : string) : string :=
  "/wcs/resources/store/" +:+ store_id +:+ "/productview/bySearchTerm/" +:+ query.

Definition set_client (c : ChedrauiClient) (w : world) : world :=
  mk_world c (script w) (sent w) (coordinator_data w) (last_update_success w).

Definition set_cookies (ck : gmap string string) (c : ChedrauiClient) : ChedrauiClient :=
  mk_client (_username c) (_password c) (_store_id c) ck (_is_authenticated c).

Definition set_authenticated (b : bool) (c : ChedrauiClient) : ChedrauiClient :=
  mk_client (_username c) (_password c) (_store_id c) (_cookies c) b.

(** [self._is_authenticated = b] *)
Definition mark_authenticated (b : bool) : M unit :=
  fun w => (Ok tt, set_client (set_authenticated b (client w)) w).

Definition get_client : M ChedrauiClient := fun w => (Ok (client w), w).

(** [await self._session.request(...)] under the timeout: a transport
    error becomes [ChedrauiRequestError], a timeout is not caught. *)
Definition send (m p : string) (ps : list (string * string)) (j : option py_value)
  : M response :=
  fun w =>
    let rq := mk_request m p ps j (_cookies (client w)) in
    let w' := mk_world (client w) (script w) (sent w ++ [rq])
                       (coordinator_data w) (last_update_success w) in
    match script w (length (sent w)) with
    | Answer r => (Ok r, w')
    | ClientError => (Raise (ChedrauiRequestError None), w')
    | Timeout => (Raise TimeoutError, w')
    end.

Definition merge_cookies (l : list (string * option string)) (ck : gmap string string)
  : gmap string string :=
  foldl (fun acc nv => match nv.2 with Some v => <[nv.1 := v]> acc | None => acc end) ck l.

Definition _update_cookies (r : response) : M unit :=
  fun w =>
    (Ok tt, set_client (set_cookies (merge_cookies (cookies r) (_cookies (client w)))
                                    (client w)) w).

Definition is_ascii_space (c : ascii) : bool :=
  PyStr.between 9 13 c || PyStr.is_code 32 c.

(** [await response.json()]: an empty body is [None]. *)
Definition response_json (r : response) : res py_value :=
  if PyStr.is_empty (PyStr.strip_by is_ascii_space (text r)) then Ok PyNone
  else match decoded r with
       | Some v => Ok v
       | None => Raise ValueError
       end.

(** The end of [_request], from the test [response.status >= 400] on.
    Inside [_request] the name [json] is the keyword parameter, [None]
    or the payload, not the module: [json.loads(text)] raises
    [AttributeError] whenever it is reached. *)
Definition conclude (r : response) : res py_value :=
  if (400 <=? status r)%Z then
    if (status r =? 401)%Z then Raise ChedrauiAuthError
    else Raise (ChedrauiRequestError (Some (status r)))
  else if String.eqb (content_type r) "application/json" then response_json r
  else if PyStr.is_empty (text r) then Ok PyNone
  else Raise AttributeError.

(** [_request(..., allow_reauth=False)]: no branch of it calls
    [_request] again. *)
Definition _request_once (m p : string) (ps : list (string * string))
                         (j : option py_value) : M py_value :=
  r <- send m p ps j ;;
  _update_cookies r ;;;
  lift (conclude r).

Definition async_login : M unit :=
  c <- get_client ;;
  let payload := PyDict [("logonId", PyStr (_username c));
                         ("logonPassword", PyStr (_password c))] in
  response <- _request_once "POST" (LOGIN_PATH (_store_id c)) [] (Some payload) ;;
  match response with
  | PyNone => raise ChedrauiAuthError
  | _ => mark_authenticated true
  end.

(** [_request]: its two recursive calls, the one inside [async_login]
    and the retry, both pass [allow_reauth=False] and are
    [_request_once]. *)
Definition _request (m p : string) (ps : list (string * string))
                    (j : option py_value) (allow_reauth : bool) : M py_value :=
  r <- send m p ps j ;;
  _update_cookies r ;;;
  if (status r =? 401)%Z && allow_reauth then
    mark_authenticated false ;;;
    async_login ;;;
    _request_once m p ps j
  else lift (conclude r).

Definition async_ensure_authenticated : M unit :=
  c <- get_client ;;
  if _is_authenticated c then ret tt else async_login.

Definition async_get_cart : M (list CartItem.t) :=
  async_ensure_authenticated ;;;
  c <- get_client ;;
  data <- _request "GET" (CART_SELF_PATH (_store_id c)) [] None true ;;
  lift (_parse_cart_items data).

Definition _default_unit_for_measurement (measurement_type : string) : option string :=
  let measurement_type := PyStr.lower measurement_type in
  if String.eqb measurement_type MEASUREMENT_TYPE_PIECE then Some "EA"
  else if String.eqb measurement_type MEASUREMENT_TYPE_WEIGHT then Some "KGM"
  else if String.eqb measurement_type MEASUREMENT_TYPE_VOLUME then Some "LTR"
  else None.

(** [if s:] for an optional [str] *)
Definition str_truthy (o : option string) : bool :=
  match o with
  | Some s => negb (PyStr.is_empty s)
  | None => false
  end.

Definition _normalize_unit (unit measurement_type : option string) : option string :=
  match unit, measurement_type with
  | None, None => None
  | _, _ =>
      let normalized_unit :=
        if str_truthy unit then Some (alias_or_upper (default "" unit))
        else if str_truthy measurement_type
             then _default_unit_for_measurement (default "" measurement_type)
             else None in
      match normalized_unit with
      | None => None
      | Some n =>
          match UNIT_TO_MEASUREMENT_TYPE !! n with
          | None => Some (default "EA" (UNIT_ALIASES !! "ea"))
          | Some _ => Some n
          end
      end
  end.

Definition optional_field (k : string) (o : option py_value) : py_dict :=
  match o with Some v => [(k, v)] | None => [] end.

(** The JSON body [async_add_to_cart] posts. *)
Definition add_payload (product_id : string) (quantity : PyFloat.float)
    (unit : option string) (weight : option PyFloat.float)
    (measurement_type : option string) : py_value :=
  let normalized_unit := _normalize_unit unit measurement_type in
  PyDict [("orderItem",
    PyList [PyDict ([("productId", PyStr product_id); ("quantity", PyFloat quantity)]
                    ++ (if str_truthy normalized_unit
                        then optional_field "uom" (PyStr <$> normalized_unit) else [])
                    ++ optional_field "weight" (PyFloat <$> weight))])].

Definition async_add_to_cart (product_id : string) (quantity : PyFloat.float)
    (unit : option string) (weight : option PyFloat.float)
    (measurement_type : option string) : M CartItem.t :=
  async_ensure_authenticated ;;;
  c <- get_client ;;
  data <- _request "POST" (CART_PATH (_store_id c)) []
            (Some (add_payload product_id quantity unit weight measurement_type)) true ;;
  items <- lift (_parse_cart_items data) ;;
  match last items with
  | None => raise (ChedrauiRequestError None)
  | Some item => ret item
  end.

(** The JSON body [async_update_cart_item] puts. *)
Definition update_payload (item_id : string) (quantity : option PyFloat.float)
    (unit : option string) (weight : option PyFloat.float)
    (measurement_type : option string) : py_value :=
  let normalized_unit := _normalize_unit unit measurement_type in
  PyDict [("orderItem",
    PyList [PyDict ([("orderItemId", PyStr item_id)]
                    ++ optional_field "quantity" (PyFloat <$> quantity)
                    ++ optional_field "uom" (PyStr <$> normalized_unit)
                    ++ optional_field "weight" (PyFloat <$> weight))])].

Definition is_none {A} (o : option A) : bool :=
  match o with None => true | Some _ => false end.

Definition async_update_cart_item (item_id : string) (quantity : option PyFloat.float)
    (unit : option string) (weight : option PyFloat.float)
    (measurement_type : option string) : M (list CartItem.t) :=
  async_ensure_authenticated ;;;
  if is_none quantity && is_none unit && is_none weight && is_none measurement_type
  then async_get_cart
  else
    c <- get_client ;;
    data <- _request "PUT" (CART_PATH (_store_id c)) []
              (Some (update_payload item_id quantity unit weight measurement_type)) true ;;
    lift (_parse_cart_items data).

Definition async_remove_from_cart (item_id : string) : M unit :=
  async_ensure_authenticated ;;;
  c <- get_client ;;
  _request "DELETE" (CART_ITEM_PATH (_store_id c) item_id) [] None true ;;;
  ret tt.

Definition async_search_products (query : string) (limit : Z)
  : M (list ProductSummary.t) :=
  async_ensure_authenticated ;;;
  c <- get_client ;;
  let params := [("pageSize", repr_int limit); ("responseFormat", "json");
                 ("pageNumber", "1"); ("searchType", "keyword")] in
  data <- _request "GET" (SEARCH_PATH (_store_id c) query) params None true ;;
  lift (_parse_search_results data).

(** [ChedrauiClient.__init__]: no cookie, not authenticated. *)
Definition __init__ (username password store_id : string) : ChedrauiClient :=
  mk_client username password store_id ∅ false.

(** The attribute [available_units] every client is built with. *)
Definition available_units : list string :=
  PyStr.sorted (List.map fst UNIT_TO_MEASUREMENT_TYPE_items).

(** The attribute [measurement_types] every client is built with. *)
Definition measurement_types : list string :=
  PyStr.sorted [MEASUREMENT_TYPE_PIECE; MEASUREMENT_TYPE_WEIGHT; MEASUREMENT_TYPE_VOLUME].

End Client.

(** ** [coordinator.py] *)
Module Coordinator.

Import Api.

Definition _async_update_data : M (list CartItem.t) := Client.async_get_cart.

End Coordinator.

(** ** [todo.py]: the text parser and the reconciliation mapper *)
Module ParsedText.
Record t : Type := mk {
  quantity : option PyFloat.float;
  unit : option string;
  measurement_type : option string;
  product_id : option string
}.
End ParsedText.

Inductive TodoItemStatus : Type := NEEDS_ACTION | COMPLETED.

(** Modelled from the spec: the checklist item of the host platform,
    whose class is not part of the repository.  Section 3 of the
    specification gives its fields: [uid], [summary], [description],
    the structured tags [extra] and [status]; each may be absent. *)
Module TodoItem.
Record t : Type := mk {
  summary : option string;
  uid : option string;
  status : option TodoItemStatus;
  description : option string;
  extra : option PyVal.py_dict
}.
End TodoItem.

Module Todo.

Import PyVal Const Exn Normalizer Api Client.

Definition _coerce_float (value : py_value) (dflt : option PyFloat.float)
  : res (option PyFloat.float) :=
  match value with
  | PyNone => Ok dflt
  | PyBool b => (f <~ float_of_int (if b then 1 else 0) ;; Ok (Some f))%res
  | PyInt z => (f <~ float_of_int z ;; Ok (Some f))%res
  | PyFloat f => Ok (Some f)
  | PyStr s =>
      match PyFloat.of_str (PyStr.comma_to_dot s) with
      | Some f => Ok (Some f)
      | None => Ok dflt
      end
  | PyList _ | PyDict _ => Ok dflt
  end.

Definition _normalize_str (value : py_value) : option string :=
  match value with
  | PyStr s => if PyStr.is_empty s then None else Some (PyStr.strip s)
  | _ => None
  end.

(** [ChedrauiShoppingListEntity._normalize_unit] *)
Definition _normalize_unit (unit : py_value) : option string :=
  match unit with
  | PyStr s => if PyStr.is_empty s then None else Some (alias_or_upper s)
  | _ => None
  end.

Definition _parse_text (text : string) : res ParsedText.t :=
  let product_id := Regex.search_product_id text in
  match Regex.search_number_unit text with
  | Some (quantity_text, unit_text) =>
      (quantity <~ _coerce_float (PyStr quantity_text) None ;;
       let unit := alias_or_upper unit_text in
       Ok (ParsedText.mk quantity (Some unit) (UNIT_TO_MEASUREMENT_TYPE !! unit)
                         product_id))%res
  | None => Ok (ParsedText.mk None None None product_id)
  end.

(** [a or b] where [a] is an optional float: [None] and zero are
    false. *)
Definition float_or {B} (inj : PyFloat.float -> B) (a : option PyFloat.float) (b : B) : B :=
  match a with
  | Some f => if PyFloat.truthy f then inj f else b
  | None => b
  end.

(** [a or b] where [a] is an optional [str]: [None] and the empty
    text are false. *)
Definition opt_str_or (a b : option string) : option string :=
  if str_truthy a then a else b.

(** [if item.extra:] and [if item.description:] *)
Definition nonempty_dict (o : option py_dict) : option py_dict :=
  match o with
  | Some (kv :: d) => Some (kv :: d)
  | _ => None
  end.

Definition nonempty_text (o : option string) : option string :=
  if str_truthy o then o else None.

(** Modelled from the spec: what the coordinator does when asked to
    refresh; the refresh scheduler is a collaborator outside the
    repository.  By section 5 the snapshot is read by
    [_async_update_data], that is [async_get_cart], and replaced as a
    whole; a failed read keeps the previous snapshot, is recorded in
    [last_update_success], and does not reach the caller. *)
Definition async_request_refresh : M unit :=
  fun w =>
    match async_get_cart w with
    | (Ok items, w') =>
        (Ok tt, mk_world (client w') (script w') (sent w') (Some items) true)
    | (Raise _, w') =>
        (Ok tt, mk_world (client w') (script w') (sent w') (coordinator_data w') false)
    end.

Definition _cart_item_to_todo (item : option CartItem.t) : TodoItem.t :=
  match item with
  | None => TodoItem.mk (Some "") None (Some NEEDS_ACTION) None None
  | Some item =>
      let description :=
        if negb (PyStr.is_empty (CartItem.unit item))
        then "Cantidad: " +:+ PyFloatRepr.repr (CartItem.quantity item)
             +:+ " " +:+ CartItem.unit item
        else "Cantidad: " +:+ PyFloatRepr.repr (CartItem.quantity item) in
      let extra :=
        [ ("product_id", PyStr (CartItem.product_id item));
          (ATTR_QUANTITY, PyFloat (CartItem.quantity item));
          (ATTR_UNIT, PyStr (CartItem.unit item));
          (ATTR_MEASUREMENT_TYPE, PyStr (CartItem.measurement_type item)) ] in
      TodoItem.mk (Some (CartItem.name item)) (Some (CartItem.item_id item))
                  (Some NEEDS_ACTION) (Some description) (Some extra)
  end.

Definition _resolve_product_id (summary : option string) : M (option string) :=
  match summary with
  | None => raise AttributeError
  | Some summary =>
      let summary := PyStr.strip summary in
      if PyStr.is_empty summary then ret None
      else if PyStr.isdigit summary then ret (Some summary)
      else
        (results <- async_search_products summary 1 ;;
         match results with
         | [] => ret None
         | top :: _ => ret (Some (ProductSummary.product_id top))
         end)%call
  end.

(** The fields [async_create_todo_item] settles before it resolves
    the product: product id, quantity, unit and measurement type,
    first from the tags, then overridden from the description. *)
Definition create_fields (item : TodoItem.t)
  : res (option string * PyFloat.float * option string * option string) :=
  (tags <~
     match nonempty_dict (TodoItem.extra item) with
     | Some extra =>
         let product_id := _normalize_str (dict_get "product_id" extra) in
         let unit := _normalize_unit (dict_get ATTR_UNIT extra) in
         let measurement_type := _normalize_str (dict_get ATTR_MEASUREMENT_TYPE extra) in
         extra_quantity <~ _coerce_float (dict_get ATTR_QUANTITY extra) None ;;
         Ok (product_id, default one extra_quantity, unit, measurement_type)
     | None => Ok (None, one, None, None)
     end ;;
   let '(product_id, quantity, unit, measurement_type) := tags in
   match nonempty_text (TodoItem.description item) with
   | Some description =>
       parsed <~ _parse_text description ;;
       Ok (opt_str_or (ParsedText.product_id parsed) product_id,
           float_or id (ParsedText.quantity parsed) quantity,
           opt_str_or (ParsedText.unit parsed) unit,
           opt_str_or (ParsedText.measurement_type parsed) measurement_type)
   | None => Ok (product_id, quantity, unit, measurement_type)
   end)%res.

Definition async_create_todo_item (item : TodoItem.t) : M TodoItem.t :=
  (fields <- lift (create_fields item) ;;
   let '(product_id, quantity, unit, measurement_type) := fields in
   product_id <-
     match product_id with
     | Some p => ret p
     | None =>
         resolved <- _resolve_product_id (TodoItem.summary item) ;;
         match resolved with
         | Some p => ret p
         | None => raise ValueError
         end
     end ;;
   created <- async_add_to_cart product_id quantity unit None measurement_type ;;
   async_request_refresh ;;;
   ret (_cart_item_to_todo (Some created)))%call.

(** The fields [async_update_todo_item] passes to the client:
    quantity, unit and measurement type, first from the tags, then
    overridden from the description. *)
Definition update_fields (item : TodoItem.t)
  : res (option PyFloat.float * option string * option string) :=
  (tags <~
     match nonempty_dict (TodoItem.extra item) with
     | Some extra =>
         quantity <~ _coerce_float (dict_get ATTR_QUANTITY extra) None ;;
         Ok (quantity,
             _normalize_unit (dict_get ATTR_UNIT extra),
             _normalize_str (dict_get ATTR_MEASUREMENT_TYPE extra))
     | None => Ok (None, None, None)
     end ;;
   let '(quantity, unit, measurement_type) := tags in
   match nonempty_text (TodoItem.description item) with
   | Some description =>
       parsed <~ _parse_text description ;;
       Ok (float_or Some (ParsedText.quantity parsed) quantity,
           opt_str_or (ParsedText.unit parsed) unit,
           opt_str_or (ParsedText.measurement_type parsed) measurement_type)
   | None => Ok (quantity, unit, measurement_type)
   end)%res.

(** [next((i for i in data or [] if i.item_id == uid), None)] *)
Definition find_item (uid : string) (data : option (list CartItem.t)) : option CartItem.t :=
  List.find (fun i => String.eqb (CartItem.item_id i) uid) (default [] data).

Definition status_is_completed (s : option TodoItemStatus) : bool :=
  match s with Some COMPLETED => true | _ => false end.

Definition async_update_todo_item (item : TodoItem.t) : M TodoItem.t :=
  match TodoItem.uid item with
  | None => raise ValueError
  | Some uid =>
      if status_is_completed (TodoItem.status item) then
        (async_remove_from_cart uid ;;;
         async_request_refresh ;;;
         ret item)%call
      else
        (fields <- lift (update_fields item) ;;
         let '(quantity, unit, measurement_type) := fields in
         async_update_cart_item uid quantity unit None measurement_type ;;;
         async_request_refresh ;;;
         fun w =>
           match find_item uid (coordinator_data w) with
           | Some refreshed => (Ok (_cart_item_to_todo (Some refreshed)), w)
           | None => (Ok item, w)
           end)%call
  end.

Definition async_delete_todo_item (uid : string) : M unit :=
  (async_remove_from_cart uid ;;; async_request_refresh)%call.

Definition async_get_items : M (list TodoItem.t) :=
  fun w =>
    (Ok (List.map (fun item => _cart_item_to_todo (Some item))
                  (default [] (coordinator_data w))), w).

End Todo.

(** ** Vocabulary of the properties *)
Module Spec.

Import PyVal Const Exn Normalizer Api Client.

(** Float constants of the scenarios. *)
Definition zero : PyFloat.float := S754_zero false.
(** [2.5], the float nearest to 5/2 *)
Definition two_and_a_half : PyFloat.float := Eval vm_compute in PyFloat.of_ratio false 5 2.
(** [3.0] *)
Definition three : PyFloat.float := Eval vm_compute in PyFloat.of_ratio false 3 1.
(** [1e16] *)
Definition ten_to_16 : PyFloat.float :=
  Eval vm_compute in PyFloat.of_ratio false (10 ^ 16) 1.
(** [0.1 + 0.2], which prints as [0.30000000000000004] *)
Definition three_tenths : PyFloat.float :=
  Eval vm_compute in PyFloat.of_ratio false 1351079888211149 4503599627370496.

(** The [uom] field of the single line of a cart payload. *)
Definition payload_uom (payload : py_value) : option py_value :=
  match payload with
  | PyDict d =>
      match dict_get "orderItem" d with
      | PyList [PyDict line] => dict_lookup "uom" line
      | _ => None
      end
  | _ => None
  end.

(** The quantity, unit and measurement type the Text Parser derives
    from the outcome of the number-and-word scan. *)
Definition quantity_fields (scan : option (string * string))
  : option PyFloat.float * option string * option string :=
  match scan with
  | None => (None, None, None)
  | Some (number, word) =>
      (PyFloat.of_str (PyStr.comma_to_dot number),
       Some (alias_or_upper word),
       UNIT_TO_MEASUREMENT_TYPE !! alias_or_upper word)
  end.

(** [r] is the match of [match_at] in [s] that starts leftmost. *)
Definition leftmost_match {A : Type} (match_at : string -> option A)
    (s : string) (r : A) : Prop :=
  exists before rest,
    s = before +:+ rest
    /\ match_at rest = Some r
    /\ forall before' rest',
         s = before' +:+ rest' ->
         (String.length before' < String.length before)%nat ->
         match_at rest' = None.

(** [match_at] matches at no position of [s]. *)
Definition no_match {A : Type} (match_at : string -> option A) (s : string) : Prop :=
  forall before rest, s = before +:+ rest -> match_at rest = None.

(** [a or b or ... or last]: the first true value of [vs], else
    [last]. *)
Definition first_truthy (vs : list py_value) (last : py_value) : py_value :=
  default last (List.find truthy vs).

(** The identity of a raw cart record: the first true value among
    its three identity keys. *)
Definition identity (d : py_dict) : option py_value :=
  List.find truthy [dict_get "orderItemId" d; dict_get "id" d; dict_get "itemId" d].

(** An [int] within the range of [float]; any other value. *)
Definition fits_float (v : py_value) : bool :=
  match v with
  | PyInt z => match PyFloat.of_int z with Some _ => true | None => false end
  | _ => true
  end.

Definition cart_price_value (d : py_dict) : py_value :=
  first_truthy [dict_get "price" d; dict_get "offerPrice" d; dict_get "unitPrice" d]
               (dict_get "orderItemAmount" d).

(** A raw cart record the normaliser can take: null, or a mapping
    whose quantity and price, when integers, fit a float. *)
Definition cart_record_ok (raw : py_value) : bool :=
  match raw with
  | PyNone => true
  | PyDict d => fits_float (dict_get "quantity" d) && fits_float (cart_price_value d)
  | _ => false
  end.

Definition search_price_value (d : py_dict) : py_value :=
  first_truthy [dict_get "price" d; dict_get "offerPrice" d; dict_get "bestPrice" d]
               (dict_get "unitPrice" d).

Definition search_record_ok (raw : py_value) : bool :=
  match raw with
  | PyNone => true
  | PyDict d => fits_float (search_price_value d)
  | _ => false
  end.

(** The records with an identity, in order, each with its identity. *)
Fixpoint identified (raws : list py_value) : list (py_dict * py_value) :=
  match raws with
  | [] => []
  | PyDict d :: rest =>
      match identity d with
      | Some v => (d, v) :: identified rest
      | None => identified rest
      end
  | _ :: rest => identified rest
  end.

(** [data] normalises to one cart item per identified record of
    [raws], in order, each carrying its record and the text of its
    identity. *)
Definition normalizes_to (data : py_value) (raws : list py_value) : Prop :=
  exists items,
    _parse_cart_items data = Ok items
    /\ List.map CartItem.original_payload items
       = List.map (fun r => Some (fst r)) (identified raws)
    /\ List.map CartItem.item_id items
       = List.map (fun r => py_str (snd r)) (identified raws).

(** The collection of records [_parse_cart_items] goes through. *)
Definition cart_records (data : py_value) : py_value :=
  match data with
  | PyDict d =>
      first_truthy [dict_get "orderItem" d; dict_get "orderItems" d] (PyList [])
  | PyList _ => data
  | _ => PyList []
  end.

(** The collection of records [_parse_search_results] goes through. *)
Definition search_records (data : py_value) : py_value :=
  match data with
  | PyDict d =>
      match dict_lookup "catalogEntryView" d with
      | Some v => v
      | None =>
          match dict_lookup "product" d with
          | Some (PyDict p) => dict_get_default "docs" (PyList []) p
          | _ => dict_get_default "items" (PyList []) d
          end
      end
  | PyList _ => data
  | _ => PyList []
  end.

(** [v] is a list whose elements all satisfy [ok]. *)
Definition list_of (ok : py_value -> bool) (v : py_value) : bool :=
  match v with
  | PyList raws => List.forallb ok raws
  | _ => false
  end.

(** The item with its description removed: what the tags alone say. *)
Definition without_description (item : TodoItem.t) : TodoItem.t :=
  TodoItem.mk (TodoItem.summary item) (TodoItem.uid item) (TodoItem.status item)
              None (TodoItem.extra item).

(** A parsed text field that is not null replaces the tag value. *)
Definition override {A : Type} (parsed tag : option A) : option A :=
  match parsed with
  | Some v => Some v
  | None => tag
  end.

(** A parsed quantity that is neither null nor zero replaces the tag
    value. *)
Definition override_quantity {B : Type} (inj : PyFloat.float -> B)
    (parsed : option PyFloat.float) (tag : B) : B :=
  match parsed with
  | Some q => if PyFloat.is_zero q then tag else inj q
  | None => tag
  end.

(** [r] does not start with a character of the class [p]. *)
Definition stops (p : ascii -> bool) (r : string) : Prop :=
  match r with
  | EmptyString => True
  | String c _ => p c = false
  end.

(** Digits, a period, digits: positional notation without sign or
    exponent. *)
Definition plain_decimal (s : string) : bool :=
  let '(int_part, r) := PyStr.span PyStr.is_decimal s in
  match r with
  | String c frac =>
      PyStr.is_code 46 c
      && negb (PyStr.is_empty int_part)
      && negb (PyStr.is_empty frac)
      && PyStr.forallb PyStr.is_decimal frac
  | EmptyString => false
  end.

(** A non-empty run of letters that alias resolution maps to itself,
    as every canonical code is. *)
Definition stable_unit (u : string) : bool :=
  negb (PyStr.is_empty u)
  && PyStr.forallb Regex.is_unit_letter u
  && String.eqb (alias_or_upper u) u.

(** The measurement type the normaliser derives from a unit. *)
Definition derived_measurement (u : string) : string :=
  default MEASUREMENT_TYPE_PIECE (UNIT_TO_MEASUREMENT_TYPE !! u).

(** To the checklist and back through the merge of the update. *)
Definition round_trip (item : CartItem.t)
  : res (option PyFloat.float * option string * option string) :=
  Todo.update_fields (Todo._cart_item_to_todo (Some item)).

(** *** The session client *)

(** The request of a call as a client holding the cookies of [c]
    sends it. *)
Definition call_request (c : ChedrauiClient) (m p : string)
    (ps : list (string * string)) (j : option py_value) : request :=
  mk_request m p ps j (_cookies c).

Definition login_request (c : ChedrauiClient) : request :=
  call_request c "POST" (LOGIN_PATH (_store_id c)) []
    (Some (PyDict [("logonId", PyStr (_username c));
                   ("logonPassword", PyStr (_password c))])).

(** What a call without re-login makes of the outcome of its
    request. *)
Definition answer_result (o : outcome) : res py_value :=
  match o with
  | Answer r => conclude r
  | ClientError => Raise (ChedrauiRequestError None)
  | Timeout => Raise TimeoutError
  end.

(** The world after one request and its outcome: the request is
    recorded and the cookies of an answer are merged. *)
Definition exchange (m p : string) (ps : list (string * string))
    (j : option py_value) (w : world) : world :=
  let c := client w in
  let c' :=
    match script w (length (sent w)) with
    | Answer r => set_cookies (merge_cookies (cookies r) (_cookies c)) c
    | _ => c
    end in
  mk_world c' (script w) (sent w ++ [call_request c m p ps j])
           (coordinator_data w) (last_update_success w).

Definition login_exchange (w : world) : world :=
  exchange "POST" (LOGIN_PATH (_store_id (client w))) []
    (Some (PyDict [("logonId", PyStr (_username (client w)));
                   ("logonPassword", PyStr (_password (client w)))])) w.

Definition with_authenticated (b : bool) (w : world) : world :=
  set_client (set_authenticated b (client w)) w.

(** A login succeeds when its answer concludes to a value other than
    [None]. *)
Definition login_succeeds (o : outcome) : bool :=
  match answer_result o with
  | Ok PyNone => false
  | Ok _ => true
  | Raise _ => false
  end.

(** The exception of a failed login. *)
Definition login_error (o : outcome) : exn :=
  match answer_result o with
  | Raise e => e
  | Ok _ => ChedrauiAuthError
  end.

(** A success answer carrying JSON that decodes to [v]. *)
Definition json_success (r : response) (v : py_value) : Prop :=
  (status r < 400)%Z
  /\ content_type r = "application/json"
  /\ PyStr.is_empty (PyStr.strip_by is_ascii_space (text r)) = false
  /\ decoded r = Some v.

(** [w'] is [w] after more requests, all of which satisfy [P]. *)
Definition sends (P : request -> Prop) (w w' : world) : Prop :=
  exists l, sent w' = (sent w ++ l)%list /\ Forall P l.

(** Whatever the world, the call [m] only sends requests that
    satisfy [P]. *)
Definition only_sends {A : Type} (P : request -> Prop) (m : M A) : Prop :=
  forall w, sends P w (snd (m w)).

(** [P] holds of every login request. *)
Definition allows_login (P : request -> Prop) : Prop :=
  forall user password store_id ck,
    P (mk_request "POST" (LOGIN_PATH store_id) []
         (Some (PyDict [("logonId", PyStr user); ("logonPassword", PyStr password)])) ck).

(** [P] holds of the request of a call, whatever cookies go with it. *)
Definition allows_call (P : request -> Prop) (m p : string)
    (ps : list (string * string)) (j : option py_value) : Prop :=
  forall ck, P (mk_request m p ps j ck).

(** The form of a login request. *)
Definition login_form (rq : request) : Prop :=
  method rq = "POST" /\ params rq = []
  /\ exists user password,
       json rq = Some (PyDict [("logonId", PyStr user); ("logonPassword", PyStr password)]).

(** The form of a product search for at most [limit] results. *)
Definition search_form (limit : string) (rq : request) : Prop :=
  method rq = "GET" /\ json rq = None
  /\ params rq = [("pageSize", limit); ("responseFormat", "json");
                  ("pageNumber", "1"); ("searchType", "keyword")].

(** A product search carries the search parameters. *)
Definition is_search_call (rq : request) : bool :=
  existsb (fun kv => String.eqb (fst kv) "searchType") (params rq).

(** A cart write carries a cart line. *)
Definition is_cart_write (rq : request) : bool :=
  match json rq with
  | Some (PyDict d) => dict_mem "orderItem" d
  | _ => false
  end.

(** The call [async_add_to_cart] makes before it looks at the
    decoded response. *)
Definition post_to_cart (product_id : string) (quantity : PyFloat.float)
    (unit : option string) (weight : option PyFloat.float)
    (measurement_type : option string) : M py_value :=
  (async_ensure_authenticated ;;;
   c <- get_client ;;
   _request "POST" (CART_PATH (_store_id c)) []
     (Some (add_payload product_id quantity unit weight measurement_type)) true)%call.

(** Add the product to the cart, refresh, and return the new item
    as a checklist item: the end of [async_create_todo_item]. *)
Definition add_and_refresh (product_id : string) (quantity : PyFloat.float)
    (unit measurement_type : option string) : M TodoItem.t :=
  (created <- async_add_to_cart product_id quantity unit None measurement_type ;;
   Todo.async_request_refresh ;;;
   ret (Todo._cart_item_to_todo (Some created)))%call.

(** A fresh world whose remote gives the listed answers in turn and
    answers [rest] ever after. *)
Definition scripted_world (authenticated : bool) (answers : list response)
    (rest : response) : world :=
  mk_world (mk_client "user" "secret" "10151" ∅ authenticated)
           (fun n => Answer (nth n answers rest)) [] None true.

(** A world whose remote answers every request alike. *)
Definition constant_world (authenticated : bool) (r : response) : world :=
  scripted_world authenticated [] r.

Definition unauthorized : response := mk_response 401 [] "text/html" "" None.

Definition server_error : response := mk_response 500 [] "text/html" "" None.

(** A success answer with a cart of one line. *)
Definition one_line_cart : response :=
  mk_response 200 [] "application/json" "{...}"
    (Some (PyDict [("orderItem",
                    PyList [PyDict [("orderItemId", PyStr "1");
                                    ("productId", PyStr "123")]])])).

(** A success answer with the JSON body [{}]. *)
Definition empty_object : response :=
  mk_response 200 [] "application/json" "{}" (Some (PyDict [])).

(** [s] is [a] in some letter case. *)
Definition same_ignoring_case (s a : string) : Prop := PyStr.lower s = PyStr.lower a.

(** *** Units *)

(** [s] with every U+00DF replaced by [ss]: what lower-casing makes
    of an upper-cased text. *)
Fixpoint sharp_s_expanded (s : string) : string :=
  match s with
  | EmptyString => EmptyString
  | String c s' =>
      if PyStr.is_code 223 c then String "s" (String "s" (sharp_s_expanded s'))
      else String c (sharp_s_expanded s')
  end.

(** Text whose upper-casing stays below U+0100: it holds neither
    U+00B5 nor U+00FF, the two characters of the range whose capital
    lies outside it. *)
Definition upper_in_range (s : string) : bool :=
  PyStr.forallb (fun c => negb (PyStr.is_code 181 c || PyStr.is_code 255 c)) s.

(** [s] holds two letters [s] in a row. *)
Fixpoint has_double_s (s : string) : bool :=
  match s with
  | String a (String b _ as s') =>
      (PyStr.is_code 115 a && PyStr.is_code 115 b) || has_double_s s'
  | _ => false
  end.

(** *** What the normalisers return *)

(** What holds of every cart item the normaliser returns. *)
Definition well_formed_item (i : CartItem.t) : Prop :=
  CartItem.item_id i <> ""
  /\ CartItem.name i <> ""
  /\ CartItem.unit i <> ""
  /\ CartItem.measurement_type i = derived_measurement (CartItem.unit i)
  /\ CartItem.measurement_type i ∈ Client.measurement_types.

(** The records of a cart payload, as the loop of
    [_parse_cart_items] meets them. *)
Definition records_of (data : py_value) : list py_value :=
  default [] (py_iter (cart_records data)).

(** The item [i] was read from one of the records [raws]: it
    carries that record as its payload and is what the loop of the
    normaliser makes of it. *)
Definition read_from (raws : list py_value) (i : CartItem.t) : Prop :=
  exists d,
    PyDict d ∈ raws
    /\ CartItem.original_payload i = Some d
    /\ cart_item_of (PyDict d) = Ok (Some i).

(** What holds of every product the normaliser returns. *)
Definition well_formed_product (p : ProductSummary.t) : Prop :=
  ProductSummary.product_id p <> ""
  /\ (exists s, ProductSummary.sku p = Some s /\ s <> "")
  /\ ProductSummary.name p <> ""
  /\ (forall u, ProductSummary.unit p = Some u ->
        u <> ""
        /\ ProductSummary.measurement_type p = UNIT_TO_MEASUREMENT_TYPE !! u)
  /\ (forall m, ProductSummary.measurement_type p = Some m ->
        m ∈ Client.measurement_types).

(** *** What the text parser returns *)

(** A float that is neither NaN nor negative. *)
Definition not_negative (f : PyFloat.float) : bool :=
  match f with
  | S754_nan => false
  | S754_zero s | S754_infinity s | S754_finite s _ _ => negb s
  end.

(** A decimal digit or the period. *)
Definition is_numeral (c : ascii) : bool := PyStr.is_decimal c || PyStr.is_code 46 c.

(** What holds of every reading of the text parser. *)
Definition well_formed_reading (p : ParsedText.t) : Prop :=
  (is_Some (ParsedText.quantity p) <-> is_Some (ParsedText.unit p))
  /\ (forall q, ParsedText.quantity p = Some q -> not_negative q = true)
  /\ (forall u, ParsedText.unit p = Some u ->
        u <> "" /\ ParsedText.measurement_type p = UNIT_TO_MEASUREMENT_TYPE !! u)
  /\ (ParsedText.unit p = None -> ParsedText.measurement_type p = None)
  /\ (forall pid, ParsedText.product_id p = Some pid ->
        pid <> "" /\ PyStr.forallb PyStr.is_word pid = true).

(** *** Calls of the client *)

(** An outcome that triggers no re-login: anything but an answer
    with status 401. *)
Definition no_relogin (o : outcome) : bool :=
  match o with
  | Answer r => negb (status r =? 401)%Z
  | ClientError | Timeout => true
  end.

(** [items[-1]], or the error of [async_add_to_cart] when there is
    no item. *)
Definition last_item (items : list CartItem.t) : res CartItem.t :=
  match last items with
  | Some item => Ok item
  | None => Raise (ChedrauiRequestError None)
  end.

(** The [uom] of the cart line a request carries. *)
Definition uom_sent (rq : request) : option py_value :=
  match json rq with
  | Some payload => payload_uom payload
  | None => None
  end.

(** If [rq] is a cart write, its method is [m] and its cart line
    carries the unit [o], or no unit when [o] is [None]. *)
Definition writes_unit (m : string) (o : option string) (rq : request) : Prop :=
  is_cart_write rq = true -> method rq = m /\ uom_sent rq = PyStr <$> o.

(** The parameters of a product search. *)
Definition search_params (limit : Z) : list (string * string) :=
  [("pageSize", repr_int limit); ("responseFormat", "json");
   ("pageNumber", "1"); ("searchType", "keyword")].

(** *** Rounding to binary64

    The vocabulary in which the division of [PyFloat.of_ratio] is
    read: rational values, the position of a value between two
    consecutive integers, and the exponent the format gives a
    value. *)

(** A float as Python holds it: the mantissa and the exponent of a
    finite one are those of the format. *)
Definition binary64 (q : PyFloat.float) : bool :=
  valid_binary PyFloat.prec PyFloat.emax q.

Definition pow2 (e : Z) : Q := (2 ^ e)%Q.
Definition pow10 (e : Z) : Q := (10 ^ e)%Q.

(** [n / d] *)
Definition ratio (n d : Z) : Q := (inject_Z n / inject_Z d)%Q.

(** [n * 10 ^ e] *)
Definition decimal_value (n e : Z) : Q := (inject_Z n * pow10 e)%Q.

(** [m * 2 ^ e], the value of the finite float of mantissa [m] and
    exponent [e]. *)
Definition value (m : positive) (e : Z) : Q := (inject_Z (Zpos m) * pow2 e)%Q.

(** [x] lies in [[m, m + 1)], at the place [l] says: on [m], below
    the middle, on the middle or above it. *)
Definition inbetween (x : Q) (m : Z) (l : location) : Prop :=
  match l with
  | loc_Exact => (x == inject_Z m)%Q
  | loc_Inexact Lt => (inject_Z m < x /\ x < inject_Z m + (1 # 2))%Q
  | loc_Inexact Eq => (x == inject_Z m + (1 # 2))%Q
  | loc_Inexact Gt => (inject_Z m + (1 # 2) < x /\ x < inject_Z m + 1)%Q
  end.

(** The same of the mantissa and the two bits of a shift record. *)
Definition at_record (x : Q) (mrs : shr_record) : Prop :=
  (0 <= shr_m mrs)%Z /\ inbetween x (shr_m mrs) (loc_of_shr_record mrs).

(** [e] is the exponent binary64 gives the positive value [x]: the
    least one for a value below the normal range, else the one that
    leaves 53 bits. *)
Definition canonical_exp (x : Q) (e : Z) : Prop :=
  (e = emin PyFloat.prec PyFloat.emax /\ (x < pow2 (e + PyFloat.prec))%Q)
  \/ ((emin PyFloat.prec PyFloat.emax < e)%Z
      /\ (pow2 (e + PyFloat.prec - 1) <= x)%Q /\ (x < pow2 (e + PyFloat.prec))%Q).

(** What [binary_round_aux] makes of a mantissa [m] at exponent [e]
    and place [l] once the exponent is the canonical one: the
    rounding to nearest even, and one more shift when the rounding
    carried into a 54th bit. *)
Definition rounded (neg : bool) (m : Z) (l : location) (e : Z) : PyFloat.float :=
  let '(mrs, e') :=
    shr_fexp PyFloat.prec PyFloat.emax (round_nearest_even m l) e loc_Exact in
  match shr_m mrs with
  | Z0 => S754_zero neg
  | Zpos p =>
      if (e' <=? PyFloat.emax - PyFloat.prec)%Z then S754_finite neg p e'
      else S754_infinity neg
  | Zneg _ => S754_nan
  end.

End Spec.

(** * Properties *)

Import PyVal Const Exn Normalizer Api Client.

(** Case analysis over the entries of a table given as a list. *)
Ltac table_cases H :=
  repeat (apply elem_of_cons in H as [H | H];
          [ apply pair_equal_spec in H as [-> ->] | ]);
  [ .. | apply elem_of_nil in H; contradiction ].

(** Facts on single characters, checked on all 256 of them. *)
Ltac each_char c := destruct c as [[] [] [] [] [] [] [] []]; vm_compute; congruence.

(** ** The unit table *)

Lemma aliases_lookup_items (k v : string) :
  UNIT_ALIASES !! k = Some v -> (k, v) ∈ UNIT_ALIASES_items.
Proof. apply elem_of_list_to_map_2. Qed.

Lemma measurement_lookup_items (k v : string) :
  UNIT_TO_MEASUREMENT_TYPE !! k = Some v -> (k, v) ∈ UNIT_TO_MEASUREMENT_TYPE_items.
Proof. apply elem_of_list_to_map_2. Qed.

Lemma alias_keys_lower (k v : string) :
  UNIT_ALIASES !! k = Some v -> PyStr.lower k = k.
Proof.
  intros H. apply aliases_lookup_items in H.
  unfold UNIT_ALIASES_items in H. table_cases H; reflexivity.
Qed.

Lemma alias_values_canonical (k v : string) :
  UNIT_ALIASES !! k = Some v -> v ∈ canonical_units.
Proof.
  intros H. apply aliases_lookup_items in H.
  unfold UNIT_ALIASES_items in H. table_cases H; unfold canonical_units; repeat constructor.
Qed.

Lemma canonical_units_cases (u : string) :
  u ∈ canonical_units ->
  u = "EA" \/ u = "KGM" \/ u = "GRM" \/ u = "LBR" \/ u = "LTR" \/ u = "MLT".
Proof.
  unfold canonical_units. intros H.
  repeat (apply elem_of_cons in H as [H | H]; [tauto |]).
  apply elem_of_nil in H. contradiction.
Qed.

Lemma canonical_has_measurement (u : string) :
  u ∈ canonical_units -> is_Some (UNIT_TO_MEASUREMENT_TYPE !! u).
Proof.
  intros H. apply canonical_units_cases in H.
  destruct H as [-> | [-> | [-> | [-> | [-> | ->]]]]]; vm_compute; eauto.
Qed.

Lemma measurement_keys_canonical (u m : string) :
  UNIT_TO_MEASUREMENT_TYPE !! u = Some m -> u ∈ canonical_units.
Proof.
  intros H. apply measurement_lookup_items in H.
  unfold UNIT_TO_MEASUREMENT_TYPE_items in H. table_cases H; unfold canonical_units; repeat constructor.
Qed.

Lemma measurement_values_nonempty (u m : string) :
  UNIT_TO_MEASUREMENT_TYPE !! u = Some m -> PyStr.is_empty m = false.
Proof.
  intros H. apply measurement_lookup_items in H.
  unfold UNIT_TO_MEASUREMENT_TYPE_items in H. table_cases H; reflexivity.
Qed.

Lemma alias_values_nonempty (k v : string) :
  UNIT_ALIASES !! k = Some v -> PyStr.is_empty v = false.
Proof.
  intros H. apply alias_values_canonical, canonical_units_cases in H.
  destruct H as [-> | [-> | [-> | [-> | [-> | ->]]]]]; reflexivity.
Qed.

Lemma alias_or_upper_hit (s u : string) :
  UNIT_ALIASES !! PyStr.lower s = Some u -> alias_or_upper s = u.
Proof. unfold alias_or_upper. intros ->. reflexivity. Qed.

Lemma alias_or_upper_miss (s : string) :
  UNIT_ALIASES !! PyStr.lower s = None -> alias_or_upper s = PyStr.upper s.
Proof. unfold alias_or_upper. intros ->. reflexivity. Qed.

Lemma is_empty_false (s : string) : s <> "" -> PyStr.is_empty s = false.
Proof. destruct s; [congruence | reflexivity]. Qed.

Lemma is_empty_true (s : string) : PyStr.is_empty s = true -> s = "".
Proof. destruct s; [reflexivity | discriminate]. Qed.

(** C9: alias resolution is a case-insensitive exact lookup in the alias
    table that returns the uppercased input on a miss; a known alias
    written in any letter case resolves to the canonical unit of the
    alias; each of the six canonical codes has a measurement category.
    The entity method performs this lookup on every non-empty text. *)
Theorem alias_resolution_case_insensitive :
  (forall s u, UNIT_ALIASES !! PyStr.lower s = Some u -> alias_or_upper s = u)
  /\ (forall s, UNIT_ALIASES !! PyStr.lower s = None -> alias_or_upper s = PyStr.upper s)
  /\ (forall a u s, UNIT_ALIASES !! a = Some u -> Spec.same_ignoring_case s a ->
        alias_or_upper s = u /\ Todo._normalize_unit (PyStr s) = Some u
        /\ u ∈ canonical_units)
  /\ (forall s, s <> "" -> Todo._normalize_unit (PyStr s) = Some (alias_or_upper s))
  /\ (forall u, u ∈ canonical_units -> is_Some (UNIT_TO_MEASUREMENT_TYPE !! u)).
Proof.
  split; [exact alias_or_upper_hit |].
  split; [exact alias_or_upper_miss |].
  split.
  - intros a u s Ha Hs. unfold Spec.same_ignoring_case in Hs.
    pose proof (alias_keys_lower _ _ Ha) as Hk.
    assert (Hlook : UNIT_ALIASES !! PyStr.lower s = Some u) by (rewrite Hs, Hk; exact Ha).
    assert (Hne : PyStr.is_empty s = false).
    { destruct s; [| reflexivity]. simpl in Hs. rewrite Hk in Hs. subst a.
      vm_compute in Ha. discriminate. }
    split; [apply alias_or_upper_hit, Hlook |].
    split; [| eapply alias_values_canonical, Ha].
    unfold Todo._normalize_unit. rewrite Hne.
    f_equal. apply alias_or_upper_hit, Hlook.
  - split.
    + intros s Hs. unfold Todo._normalize_unit. rewrite (is_empty_false _ Hs). reflexivity.
    + exact canonical_has_measurement.
Qed.

Lemma alias_resolution_case_insensitive_witness :
  alias_or_upper "KiLoS" = "KGM"
  /\ Todo._normalize_unit (PyStr "KiLoS") = Some "KGM"
  /\ "KGM" ∈ canonical_units.
Proof.
  destruct alias_resolution_case_insensitive as (_ & _ & H & _).
  apply (H "kilos" "KGM" "KiLoS"); reflexivity.
Defined.

(** ** The unit sent on the write path *)

Lemma _normalize_unit_unknown (u : string) (mt : option string) :
  u <> "" ->
  UNIT_TO_MEASUREMENT_TYPE !! alias_or_upper u = None ->
  Client._normalize_unit (Some u) mt = Some "EA".
Proof.
  intros Hu Hm. unfold Client._normalize_unit, str_truthy.
  cbn [default from_option id]. rewrite (is_empty_false _ Hu). cbn [negb]. rewrite Hm.
  destruct mt; reflexivity.
Qed.

Lemma _normalize_unit_known (u m : string) (mt : option string) :
  u <> "" ->
  UNIT_TO_MEASUREMENT_TYPE !! alias_or_upper u = Some m ->
  Client._normalize_unit (Some u) mt = Some (alias_or_upper u).
Proof.
  intros Hu Hm. unfold Client._normalize_unit, str_truthy.
  cbn [default from_option id]. rewrite (is_empty_false _ Hu). cbn [negb]. rewrite Hm.
  destruct mt; reflexivity.
Qed.

Lemma _normalize_unit_from_measurement (mt : string) :
  Client._normalize_unit None (Some mt) =
    if String.eqb (PyStr.lower mt) "piece" then Some "EA"
    else if String.eqb (PyStr.lower mt) "weight" then Some "KGM"
    else if String.eqb (PyStr.lower mt) "volume" then Some "LTR"
    else None.
Proof.
  unfold Client._normalize_unit, str_truthy, _default_unit_for_measurement.
  destruct mt as [| c mt']; [reflexivity |].
  cbn [default from_option id PyStr.is_empty negb].
  unfold MEASUREMENT_TYPE_PIECE, MEASUREMENT_TYPE_WEIGHT, MEASUREMENT_TYPE_VOLUME.
  destruct (String.eqb _ "piece"); [reflexivity |].
  destruct (String.eqb _ "weight"); [reflexivity |].
  destruct (String.eqb _ "volume"); reflexivity.
Qed.

(** ** The Text Parser *)

Lemma append_empty (s : string) : "" +:+ s = s.
Proof. reflexivity. Qed.

Lemma append_cons (c : ascii) (a b : string) : String c a +:+ b = String c (a +:+ b).
Proof. reflexivity. Qed.

Section LeftmostSearch.

Context {A : Type} (match_at : string -> option A).

Lemma search_here (s : string) (r : A) :
  match_at s = Some r -> Regex.search match_at s = Some r.
Proof. intros H. destruct s; simpl; rewrite H; reflexivity. Qed.

Lemma search_skip (c : ascii) (s : string) :
  match_at (String c s) = None ->
  Regex.search match_at (String c s) = Regex.search match_at s.
Proof. intros H. simpl. rewrite H. reflexivity. Qed.

(** A successful search returns the match that starts leftmost. *)
Lemma search_leftmost (s : string) (r : A) :
  Regex.search match_at s = Some r -> Spec.leftmost_match match_at s r.
Proof.
  induction s as [| c s IH]; intros H.
  - simpl in H. destruct (match_at "") eqn:E; [| discriminate].
    exists "", "". repeat split; [congruence |].
    intros b r' _ Hlen. simpl in Hlen. lia.
  - destruct (match_at (String c s)) eqn:E.
    + rewrite (search_here _ _ E) in H.
      exists "", (String c s). repeat split; [congruence |].
      intros b r' _ Hlen. simpl in Hlen. lia.
    + rewrite (search_skip _ _ E) in H.
      destruct (IH H) as (before & rest & -> & Hm & Hmin).
      exists (String c before), rest. repeat split; [exact Hm |].
      intros [| c' b'] rest' Heq Hlen.
      * rewrite append_empty in Heq. subst rest'. exact E.
      * rewrite append_cons in Heq. injection Heq as -> Heq.
        apply (Hmin b' rest' Heq). simpl in Hlen. lia.
Qed.

(** A failed search means no start position matches. *)
Lemma search_none (s : string) :
  Regex.search match_at s = None -> Spec.no_match match_at s.
Proof.
  induction s as [| c s IH]; intros H before rest Heq.
  - destruct before; [| discriminate]. rewrite append_empty in Heq. subst rest.
    simpl in H. destruct (match_at ""); [discriminate | reflexivity].
  - destruct (match_at (String c s)) eqn:E.
    + rewrite (search_here _ _ E) in H. discriminate.
    + rewrite (search_skip _ _ E) in H.
      destruct before as [| c' b'].
      * rewrite append_empty in Heq. subst rest. exact E.
      * rewrite append_cons in Heq. injection Heq as -> Heq. exact (IH H b' rest Heq).
Qed.

End LeftmostSearch.

Lemma _parse_text_fields (text : string) :
  exists p,
    Todo._parse_text text = Ok p
    /\ ParsedText.product_id p = Regex.search_product_id text
    /\ (ParsedText.quantity p, ParsedText.unit p, ParsedText.measurement_type p)
       = Spec.quantity_fields (Regex.search_number_unit text).
Proof.
  unfold Todo._parse_text, Spec.quantity_fields.
  destruct (Regex.search_number_unit text) as [[number word] |].
  - unfold Todo._coerce_float.
    destruct (PyFloat.of_str (PyStr.comma_to_dot number)); eexists; repeat split.
  - eexists; repeat split.
Qed.

(** C5: the Text Parser on the two scenario descriptions, with the comma
    as decimal separator, and in general: parsing always succeeds, the
    product id is decided by the tag scan alone and the quantity, unit
    and measurement type by the number-and-word scan alone, and each
    scan takes the match that starts leftmost. *)
Theorem parse_text_first_match_independent :
  Todo._parse_text "2.5 kg"
    = Ok (ParsedText.mk (Some Spec.two_and_a_half) (Some "KGM") (Some "weight") None)
  /\ Todo._parse_text "3 piezas product_id:998877"
     = Ok (ParsedText.mk (Some Spec.three) (Some "EA") (Some "piece") (Some "998877"))
  /\ Todo._parse_text "2,5 kg" = Todo._parse_text "2.5 kg"
  /\ (forall text, exists p,
        Todo._parse_text text = Ok p
        /\ ParsedText.product_id p = Regex.search_product_id text
        /\ (ParsedText.quantity p, ParsedText.unit p, ParsedText.measurement_type p)
           = Spec.quantity_fields (Regex.search_number_unit text))
  /\ (forall text r,
        Regex.search_number_unit text = Some r ->
        Spec.leftmost_match Regex.match_number_unit text r)
  /\ (forall text,
        Regex.search_number_unit text = None ->
        Spec.no_match Regex.match_number_unit text)
  /\ (forall text r,
        Regex.search_product_id text = Some r ->
        Spec.leftmost_match Regex.match_product_id text r)
  /\ (forall text,
        Regex.search_product_id text = None ->
        Spec.no_match Regex.match_product_id text).
Proof.
  split; [vm_compute; reflexivity |].
  split; [vm_compute; reflexivity |].
  split; [vm_compute; reflexivity |].
  split; [exact _parse_text_fields |].
  split; [intros text r; apply search_leftmost |].
  split; [intros text; apply search_none |].
  split; [intros text r; apply search_leftmost | intros text; apply search_none].
Qed.

Lemma parse_text_first_match_independent_witness :
  Spec.leftmost_match Regex.match_number_unit "1 kg y 2 lt" ("1", "kg").
Proof.
  destruct parse_text_first_match_independent as (_ & _ & _ & _ & H & _).
  apply H. vm_compute. reflexivity.
Defined.

(** ** Tags and description: the merge of create and update *)

Lemma match_number_unit_word (s value word : string) :
  Regex.match_number_unit s = Some (value, word) -> PyStr.is_empty word = false.
Proof.
  unfold Regex.match_number_unit.
  destruct (PyStr.span PyStr.is_decimal s) as [int_part r1].
  destruct (PyStr.is_empty int_part); [discriminate |].
  match goal with |- context [let '(_, _) := ?e in _] => destruct e as [v r2] end.
  destruct (PyStr.span PyStr.is_space r2) as [blank r3].
  destruct (PyStr.span Regex.is_unit_letter r3) as [unit rest].
  destruct (PyStr.is_empty unit) eqn:E; [discriminate |].
  intros H. injection H as _ <-. exact E.
Qed.

Lemma search_number_unit_word (s value word : string) :
  Regex.search_number_unit s = Some (value, word) -> PyStr.is_empty word = false.
Proof.
  intros H. apply search_leftmost in H as (before & rest & _ & Hm & _).
  exact (match_number_unit_word _ _ _ Hm).
Qed.

Lemma match_product_id_word (s word : string) :
  Regex.match_product_id s = Some word -> PyStr.is_empty word = false.
Proof.
  unfold Regex.match_product_id.
  destruct (Regex.strip_literal_nocase "product_id" s) as [r1 |]; [| discriminate].
  destruct (PyStr.span PyStr.is_space r1) as [blank r2].
  destruct r2 as [| c r3]; [discriminate |].
  destruct (PyStr.is_code 58 c || PyStr.is_code 61 c); [| discriminate].
  destruct (PyStr.span PyStr.is_space r3) as [blank' r4].
  destruct (PyStr.span PyStr.is_word r4) as [w rest].
  destruct (PyStr.is_empty w) eqn:E; [discriminate |].
  intros H. injection H as <-. exact E.
Qed.

Lemma search_product_id_word (s word : string) :
  Regex.search_product_id s = Some word -> PyStr.is_empty word = false.
Proof.
  intros H. apply search_leftmost in H as (before & rest & _ & Hm & _).
  exact (match_product_id_word _ _ Hm).
Qed.

Lemma upper_nonempty (s : string) :
  PyStr.is_empty s = false -> PyStr.is_empty (PyStr.upper s) = false.
Proof.
  destruct s as [| c s]; [discriminate |]. intros _. simpl.
  destruct (PyStr.is_code 223 c); reflexivity.
Qed.

Lemma alias_or_upper_nonempty (s : string) :
  PyStr.is_empty s = false -> PyStr.is_empty (alias_or_upper s) = false.
Proof.
  intros H. unfold alias_or_upper.
  destruct (UNIT_ALIASES !! PyStr.lower s) eqn:E.
  - exact (alias_values_nonempty _ _ E).
  - apply upper_nonempty, H.
Qed.

(** Every text field the parser fills is a non-empty text, so for these
    fields "not null" and "true" coincide. *)
Lemma _parse_text_truthy (text : string) (p : ParsedText.t) :
  Todo._parse_text text = Ok p ->
  (forall a, Todo.opt_str_or (ParsedText.unit p) a = Spec.override (ParsedText.unit p) a)
  /\ (forall a, Todo.opt_str_or (ParsedText.measurement_type p) a
                = Spec.override (ParsedText.measurement_type p) a)
  /\ (forall a, Todo.opt_str_or (ParsedText.product_id p) a
                = Spec.override (ParsedText.product_id p) a).
Proof.
  intros H.
  assert (Hpid : forall a, Todo.opt_str_or (Regex.search_product_id text) a
                           = Spec.override (Regex.search_product_id text) a).
  { intros a. unfold Todo.opt_str_or, str_truthy, Spec.override.
    destruct (Regex.search_product_id text) eqn:E; [| reflexivity].
    rewrite (search_product_id_word _ _ E). reflexivity. }
  destruct (_parse_text_fields text) as (p0 & Hp0 & Hid & Hq).
  rewrite H in Hp0. injection Hp0 as <-.
  rewrite Hid. split; [| split; [| exact Hpid]].
  - intros a. unfold Todo.opt_str_or, str_truthy, Spec.override.
    destruct (Regex.search_number_unit text) as [[number word] |] eqn:E;
      unfold Spec.quantity_fields in Hq;
      apply pair_equal_spec in Hq as [Hq _]; apply pair_equal_spec in Hq as [_ ->];
      [| reflexivity].
    rewrite (alias_or_upper_nonempty _ (search_number_unit_word _ _ _ E)). reflexivity.
  - intros a. unfold Todo.opt_str_or, str_truthy, Spec.override.
    destruct (Regex.search_number_unit text) as [[number word] |] eqn:E;
      unfold Spec.quantity_fields in Hq; apply pair_equal_spec in Hq as [_ ->];
      [| reflexivity].
    destruct (UNIT_TO_MEASUREMENT_TYPE !! alias_or_upper word) eqn:Em; [| reflexivity].
    rewrite (measurement_values_nonempty _ _ Em). reflexivity.
Qed.

Lemma float_or_override {B : Type} (inj : PyFloat.float -> B)
    (parsed : option PyFloat.float) (tag : B) :
  Todo.float_or inj parsed tag = Spec.override_quantity inj parsed tag.
Proof.
  unfold Todo.float_or, Spec.override_quantity, PyFloat.truthy.
  destruct parsed as [q |]; [| reflexivity]. destruct (PyFloat.is_zero q); reflexivity.
Qed.

Lemma _parse_text_total (text : string) : exists p, Todo._parse_text text = Ok p.
Proof. destruct (_parse_text_fields text) as (p & H & _). eauto. Qed.

Lemma nonempty_text_some (d : string) : d <> "" -> Todo.nonempty_text (Some d) = Some d.
Proof.
  intros H. unfold Todo.nonempty_text, str_truthy. rewrite (is_empty_false _ H). reflexivity.
Qed.

Lemma create_fields_tags_then_description (item : TodoItem.t) :
  Todo.create_fields item =
    Exn.bind (Todo.create_fields (Spec.without_description item))
      (fun '(product_id, quantity, unit, measurement_type) =>
         match Todo.nonempty_text (TodoItem.description item) with
         | Some description =>
             Exn.bind (Todo._parse_text description) (fun parsed =>
               Ok (Todo.opt_str_or (ParsedText.product_id parsed) product_id,
                   Todo.float_or id (ParsedText.quantity parsed) quantity,
                   Todo.opt_str_or (ParsedText.unit parsed) unit,
                   Todo.opt_str_or (ParsedText.measurement_type parsed) measurement_type))
         | None => Ok (product_id, quantity, unit, measurement_type)
         end).
Proof.
  unfold Todo.create_fields, Spec.without_description.
  cbn [TodoItem.extra TodoItem.description].
  destruct (Todo.nonempty_dict (TodoItem.extra item)) as [extra |].
  - destruct (Todo._coerce_float _ None) as [q | e]; [| reflexivity].
    cbn [Exn.bind Todo.nonempty_text str_truthy]. reflexivity.
  - reflexivity.
Qed.

Lemma update_fields_tags_then_description (item : TodoItem.t) :
  Todo.update_fields item =
    Exn.bind (Todo.update_fields (Spec.without_description item))
      (fun '(quantity, unit, measurement_type) =>
         match Todo.nonempty_text (TodoItem.description item) with
         | Some description =>
             Exn.bind (Todo._parse_text description) (fun parsed =>
               Ok (Todo.float_or Some (ParsedText.quantity parsed) quantity,
                   Todo.opt_str_or (ParsedText.unit parsed) unit,
                   Todo.opt_str_or (ParsedText.measurement_type parsed) measurement_type))
         | None => Ok (quantity, unit, measurement_type)
         end).
Proof.
  unfold Todo.update_fields, Spec.without_description.
  cbn [TodoItem.extra TodoItem.description].
  destruct (Todo.nonempty_dict (TodoItem.extra item)) as [extra |].
  - destruct (Todo._coerce_float _ None) as [q | e]; [| reflexivity].
    cbn [Exn.bind Todo.nonempty_text str_truthy]. reflexivity.
  - reflexivity.
Qed.

(** C2 as stated fails: the description [0 kg] parses to the quantity
    zero, which is not null, yet the quantity of the tags is kept, by
    the update and by the create merge alike. *)
Lemma zero_quantity_does_not_override :
  let item := TodoItem.mk (Some "Leche") (Some "1") (Some NEEDS_ACTION) (Some "0 kg")
                          (Some [("quantity", PyFloat Spec.three)]) in
  Todo._parse_text "0 kg"
    = Ok (ParsedText.mk (Some Spec.zero) (Some "KGM") (Some "weight") None)
  /\ Todo.update_fields item = Ok (Some Spec.three, Some "KGM", Some "weight")
  /\ Todo.create_fields item = Ok (None, Spec.three, Some "KGM", Some "weight").
Proof. vm_compute. repeat split. Qed.

(** C2 (amended): in the create and in the update merge a present,
    non-empty description is re-parsed; a parsed unit, measurement type
    or (on creation, the only merge with a product id) product id that
    is not null replaces the value of the tags, and so does a parsed
    quantity that is neither null nor zero; a null field, or a zero
    quantity, leaves the value of the tags. *)
Theorem description_overrides_tags (item : TodoItem.t) (d : string) :
  TodoItem.description item = Some d ->
  d <> "" ->
  exists parsed,
    Todo._parse_text d = Ok parsed
    /\ (forall product_id quantity unit measurement_type,
          Todo.create_fields (Spec.without_description item)
            = Ok (product_id, quantity, unit, measurement_type) ->
          Todo.create_fields item
            = Ok (Spec.override (ParsedText.product_id parsed) product_id,
                  Spec.override_quantity id (ParsedText.quantity parsed) quantity,
                  Spec.override (ParsedText.unit parsed) unit,
                  Spec.override (ParsedText.measurement_type parsed) measurement_type))
    /\ (forall quantity unit measurement_type,
          Todo.update_fields (Spec.without_description item)
            = Ok (quantity, unit, measurement_type) ->
          Todo.update_fields item
            = Ok (Spec.override_quantity Some (ParsedText.quantity parsed) quantity,
                  Spec.override (ParsedText.unit parsed) unit,
                  Spec.override (ParsedText.measurement_type parsed) measurement_type)).
Proof.
  intros Hd Hne.
  destruct (_parse_text_total d) as [parsed Hp]. exists parsed.
  destruct (_parse_text_truthy _ _ Hp) as (Hu & Hm & Hpid).
  split; [exact Hp |]. split.
  - intros product_id quantity unit measurement_type Htags.
    rewrite create_fields_tags_then_description, Htags, Hd.
    cbn [Exn.bind]. rewrite (nonempty_text_some _ Hne), Hp. cbn [Exn.bind].
    rewrite Hpid, Hu, Hm, float_or_override. reflexivity.
  - intros quantity unit measurement_type Htags.
    rewrite update_fields_tags_then_description, Htags, Hd.
    cbn [Exn.bind]. rewrite (nonempty_text_some _ Hne), Hp. cbn [Exn.bind].
    rewrite Hu, Hm, float_or_override. reflexivity.
Qed.

Lemma description_overrides_tags_witness :
  exists parsed,
    Todo._parse_text "2 kg" = Ok parsed
    /\ ParsedText.unit parsed = Some "KGM"
    /\ Todo.update_fields
         (TodoItem.mk (Some "Leche") (Some "1") (Some NEEDS_ACTION) (Some "2 kg")
                      (Some [("quantity", PyFloat Spec.three); ("unit", PyStr "lt")]))
       = Ok (Spec.override_quantity Some (ParsedText.quantity parsed) (Some Spec.three),
             Spec.override (ParsedText.unit parsed) (Some "LTR"),
             Spec.override (ParsedText.measurement_type parsed) None).
Proof.
  destruct (description_overrides_tags
              (TodoItem.mk (Some "Leche") (Some "1") (Some NEEDS_ACTION) (Some "2 kg")
                           (Some [("quantity", PyFloat Spec.three); ("unit", PyStr "lt")]))
              "2 kg" eq_refl ltac:(discriminate))
    as (parsed & Hp & _ & Hupd).
  exists parsed. split; [exact Hp |]. split.
  - vm_compute in Hp. injection Hp as <-. reflexivity.
  - apply Hupd. vm_compute. reflexivity.
Defined.

(** ** Round trip through the checklist *)

Lemma append_empty_r (s : string) : s +:+ "" = s.
Proof. induction s as [| c s IH]; [reflexivity |]. rewrite append_cons, IH. reflexivity. Qed.

Lemma append_assoc (a b c : string) : (a +:+ b) +:+ c = a +:+ b +:+ c.
Proof.
  induction a as [| x a IH]; [reflexivity |]. rewrite !append_cons, IH. reflexivity.
Qed.

Lemma is_empty_append_r (a b : string) :
  PyStr.is_empty b = false -> PyStr.is_empty (a +:+ b) = false.
Proof. destruct a; [rewrite append_empty; auto | reflexivity]. Qed.

Section Span.

Context (p : ascii -> bool).

Lemma span_append (a r : string) :
  PyStr.forallb p a = true -> Spec.stops p r -> PyStr.span p (a +:+ r) = (a, r).
Proof.
  induction a as [| c a IH]; intros Ha Hr.
  - rewrite append_empty. destruct r as [| c r]; [reflexivity |].
    simpl in *. rewrite Hr. reflexivity.
  - simpl in Ha. apply andb_prop in Ha as [Hc Ha].
    rewrite append_cons. simpl. rewrite Hc, (IH Ha Hr). reflexivity.
Qed.

Lemma span_all (a : string) :
  PyStr.forallb p a = true -> PyStr.span p a = (a, "").
Proof.
  intros Ha. rewrite <- (append_empty_r a) at 1. apply span_append; [exact Ha | exact I].
Qed.

Lemma span_spec (s a b : string) :
  PyStr.span p s = (a, b) -> s = a +:+ b /\ PyStr.forallb p a = true.
Proof.
  revert a b. induction s as [| c s IH]; intros a b H.
  - simpl in H. apply pair_equal_spec in H as [<- <-]. split; reflexivity.
  - simpl in H. destruct (p c) eqn:Hc.
    + destruct (PyStr.span p s) as [a' b'].
      apply pair_equal_spec in H as [<- <-].
      destruct (IH a' b' eq_refl) as [-> Ha].
      split; [reflexivity |]. simpl. rewrite Hc, Ha. reflexivity.
    + apply pair_equal_spec in H as [<- <-]. split; reflexivity.
Qed.

End Span.

Lemma is_code_eq (n : nat) (c : ascii) :
  PyStr.is_code n c = true -> c = ascii_of_nat n.
Proof.
  unfold PyStr.is_code, PyStr.code. intros H. apply Nat.eqb_eq in H.
  rewrite <- H. symmetry. apply ascii_nat_embedding.
Qed.

Lemma decimal_not_comma (c : ascii) :
  PyStr.is_decimal c = true -> PyStr.is_code 44 c = false.
Proof. each_char c. Qed.

Lemma letter_not_space (c : ascii) :
  Regex.is_unit_letter c = true -> PyStr.is_space c = false.
Proof. each_char c. Qed.

Lemma letter_not_decimal (c : ascii) :
  Regex.is_unit_letter c = true -> PyStr.is_decimal c = false.
Proof. each_char c. Qed.

Lemma comma_to_dot_decimal (s : string) :
  PyStr.forallb PyStr.is_decimal s = true -> PyStr.comma_to_dot s = s.
Proof.
  induction s as [| c s IH]; [reflexivity |]. simpl. intros H.
  apply andb_prop in H as [Hc Hs].
  unfold PyStr.comma_to_dot in *. simpl.
  rewrite (decimal_not_comma _ Hc), (IH Hs). reflexivity.
Qed.

Lemma comma_to_dot_append (a b : string) :
  PyStr.comma_to_dot (a +:+ b) = PyStr.comma_to_dot a +:+ PyStr.comma_to_dot b.
Proof.
  unfold PyStr.comma_to_dot.
  induction a as [| c a IH]; [reflexivity |].
  rewrite append_cons. simpl. rewrite IH. reflexivity.
Qed.

(** The shape of a text in positional notation. *)
Lemma plain_decimal_inv (s : string) :
  Spec.plain_decimal s = true ->
  exists int_part frac,
    s = int_part +:+ String "." frac
    /\ PyStr.forallb PyStr.is_decimal int_part = true
    /\ PyStr.is_empty int_part = false
    /\ PyStr.forallb PyStr.is_decimal frac = true
    /\ PyStr.is_empty frac = false.
Proof.
  unfold Spec.plain_decimal.
  destruct (PyStr.span PyStr.is_decimal s) as [int_part r] eqn:E.
  destruct r as [| c frac]; [discriminate |].
  intros H. apply andb_prop in H as [H Hf]. apply andb_prop in H as [H Hfe].
  apply andb_prop in H as [Hc Hie].
  apply is_code_eq in Hc. subst c.
  apply span_spec in E as [-> Hi].
  exists int_part, frac. repeat split; try assumption.
  - destruct (PyStr.is_empty int_part); [discriminate | reflexivity].
  - destruct (PyStr.is_empty frac); [discriminate | reflexivity].
Qed.

Lemma comma_to_dot_plain (s : string) :
  Spec.plain_decimal s = true -> PyStr.comma_to_dot s = s.
Proof.
  intros H. destruct (plain_decimal_inv _ H) as (ip & fp & -> & Hi & _ & Hf & _).
  rewrite comma_to_dot_append, (comma_to_dot_decimal _ Hi).
  change (PyStr.comma_to_dot (String "." fp)) with (String "." (PyStr.comma_to_dot fp)).
  rewrite (comma_to_dot_decimal _ Hf). reflexivity.
Qed.

Lemma letters_first (u : string) :
  PyStr.is_empty u = false ->
  PyStr.forallb Regex.is_unit_letter u = true ->
  Spec.stops PyStr.is_space u /\ Spec.stops PyStr.is_decimal u.
Proof.
  destruct u as [| c u]; [discriminate |]. simpl. intros _ H.
  apply andb_prop in H as [Hc _].
  split; [exact (letter_not_space _ Hc) | exact (letter_not_decimal _ Hc)].
Qed.

(** The pattern matches a positional number, a blank and a word of
    letters as a whole. *)
Lemma match_number_blank_word (s u : string) :
  Spec.plain_decimal s = true ->
  PyStr.is_empty u = false ->
  PyStr.forallb Regex.is_unit_letter u = true ->
  Regex.match_number_unit (s +:+ " " +:+ u) = Some (s, u).
Proof.
  intros Hs Hue Hu.
  destruct (plain_decimal_inv _ Hs) as (ip & fp & -> & Hi & Hie & Hf & Hfe).
  destruct (letters_first _ Hue Hu) as [Hsp _].
  unfold Regex.match_number_unit.
  rewrite append_assoc, append_cons.
  rewrite (span_append PyStr.is_decimal ip _ Hi); [| reflexivity].
  rewrite Hie.
  rewrite (span_append PyStr.is_decimal fp (" " +:+ u) Hf); [| reflexivity].
  change (Regex.is_separator ".") with true. rewrite Hfe. cbn [andb negb].
  change (" " +:+ u) with (String " " u).
  change (PyStr.span PyStr.is_space (String " " u))
    with (let '(a, b) := PyStr.span PyStr.is_space u in (String " " a, b)).
  rewrite <- (append_empty u) at 1.
  rewrite (span_append PyStr.is_space "" u eq_refl Hsp).
  rewrite (span_all _ _ Hu), Hue. reflexivity.
Qed.

Lemma match_number_unit_not_digit (c : ascii) (s : string) :
  PyStr.is_decimal c = false -> Regex.match_number_unit (String c s) = None.
Proof. intros H. unfold Regex.match_number_unit. simpl. rewrite H. reflexivity. Qed.

(** The scan of the description the mapper writes finds the quantity
    text and the unit. *)
Lemma search_description (s u : string) :
  Spec.plain_decimal s = true ->
  PyStr.is_empty u = false ->
  PyStr.forallb Regex.is_unit_letter u = true ->
  Regex.search_number_unit ("Cantidad: " +:+ s +:+ " " +:+ u) = Some (s, u).
Proof.
  intros Hs Hue Hu. unfold Regex.search_number_unit.
  change ("Cantidad: " +:+ s +:+ " " +:+ u)
    with (String "C" (String "a" (String "n" (String "t" (String "i" (String "d"
           (String "a" (String "d" (String ":" (String " " (s +:+ " " +:+ u))))))))))).
  do 10 (rewrite search_skip; [| apply match_number_unit_not_digit; reflexivity]).
  apply search_here, match_number_blank_word; assumption.
Qed.

Lemma derived_measurement_cases (u : string) :
  Spec.derived_measurement u = "piece"
  \/ Spec.derived_measurement u = "weight"
  \/ Spec.derived_measurement u = "volume".
Proof.
  unfold Spec.derived_measurement.
  destruct (UNIT_TO_MEASUREMENT_TYPE !! u) as [m |] eqn:E; [| left; reflexivity].
  apply measurement_lookup_items in E. unfold UNIT_TO_MEASUREMENT_TYPE_items in E.
  table_cases E; cbn [default from_option id]; auto.
Qed.

(** ** The remote record normaliser *)

Lemma or4_first_truthy (a b c d : py_value) :
  or4 a b c d = Spec.first_truthy [a; b; c] d.
Proof.
  unfold or4, py_or, Spec.first_truthy. cbn [List.find].
  destruct (truthy a) eqn:Ha; [rewrite !Ha; reflexivity |].
  destruct (truthy b) eqn:Hb; [rewrite !Hb; reflexivity |].
  destruct (truthy c) eqn:Hc; reflexivity.
Qed.

Lemma or3_first_truthy (a b c : py_value) :
  py_or (py_or a b) c = Spec.first_truthy [a; b] c.
Proof.
  unfold py_or, Spec.first_truthy. cbn [List.find].
  destruct (truthy a) eqn:Ha; [rewrite !Ha; reflexivity |].
  destruct (truthy b) eqn:Hb; reflexivity.
Qed.

Lemma string_of_uint_nonempty (d : Decimal.uint) :
  PyStr.is_empty (NilZero.string_of_uint d) = false.
Proof. destruct d; reflexivity. Qed.

Lemma repr_int_nonempty (z : Z) : PyStr.is_empty (repr_int z) = false.
Proof.
  unfold repr_int, NilZero.string_of_int.
  destruct (Z.to_int z); [apply string_of_uint_nonempty | reflexivity].
Qed.

Lemma layout_nonempty (ds : string) (decpt : Z) :
  PyStr.is_empty (PyFloatRepr.layout ds decpt) = false.
Proof.
  unfold PyFloatRepr.layout.
  destruct (_ || _).
  - do 2 apply is_empty_append_r. reflexivity.
  - destruct (_ <=? 0)%Z; [reflexivity |].
    destruct (_ <=? _)%Z;
      [do 2 apply is_empty_append_r | apply is_empty_append_r]; reflexivity.
Qed.

Lemma repr_float_nonempty (f : PyFloat.float) :
  PyStr.is_empty (PyFloatRepr.repr f) = false.
Proof.
  destruct f as [s | s | | s m e]; try (destruct s; reflexivity); try reflexivity.
  unfold PyFloatRepr.repr. apply is_empty_append_r.
  unfold PyFloatRepr.repr_finite.
  destruct (PyFloatRepr.ratio_of m e) as [num den].
  destruct (PyFloatRepr.shortest _ _ _ _ _ _) as [c n].
  apply layout_nonempty.
Qed.

(** The text of a true value is never empty. *)
Lemma py_str_truthy (v : py_value) :
  truthy v = true -> PyStr.is_empty (py_str v) = false.
Proof.
  destruct v as [| b | z | f | s | l | d]; simpl; intros H.
  - discriminate.
  - destruct b; [reflexivity | discriminate].
  - apply repr_int_nonempty.
  - apply repr_float_nonempty.
  - destruct (PyStr.is_empty s); [discriminate | reflexivity].
  - reflexivity.
  - reflexivity.
Qed.

Lemma _extract_float_fits (v : py_value) (dflt : option PyFloat.float) :
  Spec.fits_float v = true -> exists o, _extract_float v dflt = Ok o.
Proof.
  destruct v as [| b | z | f | s | l | d]; simpl; intros H; eauto.
  - destruct b; eexists; reflexivity.
  - unfold float_of_int. destruct (PyFloat.of_int z); [eauto | discriminate].
  - destruct (PyFloat.of_str _); eauto.
Qed.

Lemma _extract_float_quantity (v : py_value) :
  Spec.fits_float v = true -> exists q, _extract_float v (Some one) = Ok (Some q).
Proof.
  destruct v as [| b | z | f | s | l | d]; simpl; intros H; eauto.
  - destruct b; eexists; reflexivity.
  - unfold float_of_int. destruct (PyFloat.of_int z); [eauto | discriminate].
  - destruct (PyFloat.of_str _); eauto.
Qed.

(** One element of the cart loop: a null is skipped, a mapping yields
    an item exactly when it has an identity. *)
Lemma cart_item_of_identity (raw : py_value) :
  Spec.cart_record_ok raw = true ->
  match raw with
  | PyDict d =>
      match Spec.identity d with
      | Some v =>
          exists item,
            cart_item_of raw = Ok (Some item)
            /\ CartItem.original_payload item = Some d
            /\ CartItem.item_id item = py_str v
      | None => cart_item_of raw = Ok None
      end
  | _ => cart_item_of raw = Ok None
  end.
Proof.
  destruct raw as [| b | z | f | s | l | d]; try discriminate; [reflexivity |].
  intros Hok. unfold Spec.cart_record_ok in Hok.
  apply andb_prop in Hok as [Hq Hp].
  unfold cart_item_of. rewrite or4_first_truthy.
  unfold Spec.first_truthy, Spec.identity.
  destruct (List.find truthy _) as [v |] eqn:Ef.
  - apply find_some in Ef as [_ Hv].
    cbn [default from_option id]. rewrite (py_str_truthy _ Hv).
    destruct (_extract_float_quantity _ Hq) as [q ->].
    rewrite or4_first_truthy. fold (Spec.cart_price_value d).
    destruct (_extract_float_fits _ None Hp) as [price ->].
    cbn [Exn.bind]. eexists. repeat split.
  - reflexivity.
Qed.

Lemma collect_cart_items (raws : list py_value) :
  List.forallb Spec.cart_record_ok raws = true ->
  exists items,
    collect cart_item_of raws = Ok items
    /\ List.map CartItem.original_payload items
       = List.map (fun r => Some (fst r)) (Spec.identified raws)
    /\ List.map CartItem.item_id items
       = List.map (fun r => py_str (snd r)) (Spec.identified raws).
Proof.
  induction raws as [| raw raws IH]; intros H.
  - exists []. repeat split.
  - cbn [List.forallb] in H. apply andb_prop in H as [Hraw Hraws].
    destruct (IH Hraws) as (items & Hc & Hpay & Hid).
    pose proof (cart_item_of_identity raw Hraw) as Hone.
    cbn [collect Spec.identified].
    destruct raw as [| b | z | f | s | l | d];
      try (rewrite Hone, Hc; cbn [Exn.bind]; exists items; repeat split; assumption).
    destruct (Spec.identity d) as [v |].
    + destruct Hone as (item & -> & Hp & Hi). rewrite Hc. cbn [Exn.bind].
      exists (item :: items). cbn [List.map fst snd].
      rewrite Hp, Hi, Hpay, Hid. repeat split.
    + rewrite Hone, Hc. cbn [Exn.bind].
      exists items. repeat split; assumption.
Qed.

Lemma _parse_cart_items_list (raws : list py_value) :
  List.forallb Spec.cart_record_ok raws = true -> Spec.normalizes_to (PyList raws) raws.
Proof.
  intros H. unfold Spec.normalizes_to, _parse_cart_items.
  destruct raws as [| raw raws]; [exists []; repeat split |].
  cbn [truthy negb iterate py_iter Exn.bind].
  apply collect_cart_items, H.
Qed.

Lemma dict_get_nonempty (k : string) (d : py_dict) (v : py_value) :
  dict_get k d = v -> v <> PyNone -> truthy (PyDict d) = true.
Proof.
  destruct d; [| reflexivity]. intros <- H. exfalso. apply H. reflexivity.
Qed.

Lemma _parse_cart_items_orderItem (d : py_dict) (raws : list py_value) :
  List.forallb Spec.cart_record_ok raws = true ->
  dict_get "orderItem" d = PyList raws ->
  raws <> [] ->
  Spec.normalizes_to (PyDict d) raws.
Proof.
  intros H Hd Hne. unfold Spec.normalizes_to, _parse_cart_items.
  rewrite (dict_get_nonempty _ _ _ Hd) by discriminate. cbn [negb].
  rewrite Hd. unfold py_or.
  destruct raws as [| raw raws]; [congruence |].
  cbn [truthy iterate py_iter Exn.bind].
  apply collect_cart_items, H.
Qed.

Lemma _parse_cart_items_orderItems (d : py_dict) (raws : list py_value) :
  List.forallb Spec.cart_record_ok raws = true ->
  truthy (dict_get "orderItem" d) = false ->
  dict_get "orderItems" d = PyList raws ->
  Spec.normalizes_to (PyDict d) raws.
Proof.
  intros H Hfirst Hd. unfold Spec.normalizes_to, _parse_cart_items.
  rewrite (dict_get_nonempty _ _ _ Hd) by discriminate. cbn [negb].
  unfold py_or. rewrite Hfirst, Hd.
  destruct raws as [| raw raws]; [exists []; repeat split |].
  cbn [truthy iterate py_iter Exn.bind].
  apply collect_cart_items, H.
Qed.

(** C3 as stated fails.  The first record has the key [orderItemId],
    with the value 0, and is dropped; the identity of the second is
    taken from [id], not from its first present key [orderItemId]. *)
Lemma falsy_identity_is_no_identity :
  let first := [("orderItemId", PyInt 0)] in
  let second := [("orderItemId", PyStr ""); ("id", PyStr "7")] in
  dict_mem "orderItemId" first = true
  /\ dict_mem "orderItemId" second = true
  /\ _parse_cart_items (PyList [PyDict first; PyDict second])
     = Ok [CartItem.mk "7" "" "Producto" one "EA" "piece" None (Some second)].
Proof. vm_compute. repeat split. Qed.

(** C3 (amended): an empty or null input yields the empty sequence; a
    bare list of records, or a mapping holding it under [orderItem] or,
    when that key holds nothing, under [orderItems], yields exactly one
    item per record that has an identity, in order and with no error,
    where the identity of a record is the first true value (not null,
    not empty, not zero) among [orderItemId], [id] and [itemId], and
    its text is the [item_id]; the other records are dropped.  The
    records are mappings or nulls whose integer quantity and price fit
    a float. *)
Theorem cart_records_kept_iff_identity :
  (forall data, truthy data = false -> _parse_cart_items data = Ok [])
  /\ (forall raws,
        List.forallb Spec.cart_record_ok raws = true ->
        Spec.normalizes_to (PyList raws) raws
        /\ (forall d,
              dict_get "orderItem" d = PyList raws -> raws <> [] ->
              Spec.normalizes_to (PyDict d) raws)
        /\ (forall d,
              truthy (dict_get "orderItem" d) = false ->
              dict_get "orderItems" d = PyList raws ->
              Spec.normalizes_to (PyDict d) raws)).
Proof.
  split.
  - intros data H. unfold _parse_cart_items. rewrite H. reflexivity.
  - intros raws H. split; [apply _parse_cart_items_list, H |]. split.
    + intros d. apply _parse_cart_items_orderItem, H.
    + intros d. apply _parse_cart_items_orderItems, H.
Qed.

Lemma cart_records_kept_iff_identity_witness :
  Spec.normalizes_to
    (PyDict [("orderItem",
              PyList [PyDict [("orderItemId", PyStr "1"); ("quantity", PyStr "2,5")];
                      PyDict [("productId", PyStr "9")]; PyNone])])
    [PyDict [("orderItemId", PyStr "1"); ("quantity", PyStr "2,5")];
     PyDict [("productId", PyStr "9")]; PyNone].
Proof.
  destruct cart_records_kept_iff_identity as [_ H].
  destruct (H [PyDict [("orderItemId", PyStr "1"); ("quantity", PyStr "2,5")];
               PyDict [("productId", PyStr "9")]; PyNone] eq_refl) as (_ & Hd & _).
  apply Hd; [reflexivity | discriminate].
Defined.

(** *** Which inputs raise *)

Lemma product_of_ok (raw : py_value) :
  Spec.search_record_ok raw = true -> exists o, product_of raw = Ok o.
Proof.
  destruct raw as [| b | z | f | s | l | d]; try discriminate; [eauto |].
  intros Hok. unfold Spec.search_record_ok in Hok.
  unfold product_of.
  destruct (PyStr.is_empty _); [eauto |].
  rewrite or4_first_truthy. fold (Spec.search_price_value d).
  destruct (_extract_float_fits _ None Hok) as [price ->].
  cbn [Exn.bind]. eauto.
Qed.

Lemma collect_ok {A B : Type} (f : A -> res (option B)) (ok : A -> bool) (l : list A) :
  (forall x, ok x = true -> exists o, f x = Ok o) ->
  List.forallb ok l = true ->
  exists ys, collect f l = Ok ys.
Proof.
  intros Hf. induction l as [| x l IH]; intros H; [exists []; reflexivity |].
  cbn [List.forallb] in H. apply andb_prop in H as [Hx Hl].
  destruct (Hf x Hx) as [o Ho]. destruct (IH Hl) as [ys Hys].
  cbn [collect]. rewrite Ho, Hys. cbn [Exn.bind]. eauto.
Qed.

Lemma cart_record_ok_item (raw : py_value) :
  Spec.cart_record_ok raw = true -> exists o, cart_item_of raw = Ok o.
Proof.
  intros H. pose proof (cart_item_of_identity raw H) as Hone.
  destruct raw as [| b | z | f | s | l | d]; eauto.
  destruct (Spec.identity d); [destruct Hone as (item & -> & _) |]; eauto.
Qed.

Lemma _parse_cart_items_ok (data : py_value) :
  Spec.list_of Spec.cart_record_ok (Spec.cart_records data) = true ->
  exists items, _parse_cart_items data = Ok items.
Proof.
  unfold _parse_cart_items, Spec.cart_records, Spec.list_of.
  destruct (truthy data); cbn [negb]; [| eauto].
  destruct data as [| b | z | f | s | l | d]; try (intros _; exists []; reflexivity).
  - intros H. cbn [iterate py_iter Exn.bind].
    exact (collect_ok _ _ _ cart_record_ok_item H).
  - rewrite or3_first_truthy.
    destruct (Spec.first_truthy _ _); try discriminate.
    intros H. exact (collect_ok _ _ _ cart_record_ok_item H).
Qed.

Lemma _parse_search_results_ok (data : py_value) :
  Spec.list_of Spec.search_record_ok (Spec.search_records data) = true ->
  exists products, _parse_search_results data = Ok products.
Proof.
  unfold _parse_search_results, Spec.search_records, Spec.list_of.
  destruct (truthy data); cbn [negb]; [| eauto].
  destruct data as [| b | z | f | s | l | d]; try (intros _; exists []; reflexivity).
  - intros H. exact (collect_ok _ _ _ product_of_ok H).
  - match goal with |- match ?v with _ => _ end = true -> _ => destruct v eqn:E end;
      try discriminate.
    intros H. cbn [iterate py_iter Exn.bind].
    exact (collect_ok _ _ _ product_of_ok H).
Qed.

(** C4 as stated fails: a list holding a number makes both functions
    raise [AttributeError]. *)
Lemma scalar_record_raises :
  _parse_cart_items (PyList [PyInt 1]) = Raise AttributeError
  /\ _parse_search_results (PyList [PyInt 1]) = Raise AttributeError.
Proof. vm_compute. split; reflexivity. Qed.

(** C4 (amended): neither normaliser raises on an input that is null,
    empty, a scalar, or a list or mapping in which the collection of
    records the function goes through is a list whose elements are
    nulls or mappings, whatever fields these mappings have or lack,
    their integer quantity and price fitting a float. *)
Theorem normalizers_do_not_raise (data : py_value) :
  (Spec.list_of Spec.cart_record_ok (Spec.cart_records data) = true ->
   exists items, _parse_cart_items data = Ok items)
  /\ (Spec.list_of Spec.search_record_ok (Spec.search_records data) = true ->
      exists products, _parse_search_results data = Ok products).
Proof.
  split; [apply _parse_cart_items_ok | apply _parse_search_results_ok].
Qed.

Lemma normalizers_do_not_raise_witness :
  (exists items,
     _parse_cart_items (PyDict [("orderItems", PyList [PyDict [("foo", PyInt 1)]; PyNone])])
     = Ok items)
  /\ (exists products,
        _parse_search_results (PyDict [("product", PyDict [("docs", PyList [PyDict []])])])
        = Ok products).
Proof.
  split.
  - apply (normalizers_do_not_raise
             (PyDict [("orderItems", PyList [PyDict [("foo", PyInt 1)]; PyNone])])).
    reflexivity.
  - apply (normalizers_do_not_raise
             (PyDict [("product", PyDict [("docs", PyList [PyDict []])])])).
    reflexivity.
Defined.

(** ** The session client: re-login and retry *)

(** A call without re-login is one exchange and the conclusion drawn
    from its outcome. *)
Lemma _request_once_run (m p : string) (ps : list (string * string))
    (j : option py_value) (w : world) :
  _request_once m p ps j w
  = (Spec.answer_result (script w (length (sent w))), Spec.exchange m p ps j w).
Proof.
  unfold _request_once, mbind, send, _update_cookies, lift, Spec.exchange,
    Spec.answer_result, Spec.call_request, set_client.
  destruct (script w (length (sent w))); reflexivity.
Qed.

(** Without [allow_reauth] the function is the call without re-login:
    unrolling the recursion of the source is faithful. *)
Lemma _request_no_reauth (m p : string) (ps : list (string * string))
    (j : option py_value) (w : world) :
  _request m p ps j false w = _request_once m p ps j w.
Proof.
  unfold _request, _request_once, mbind.
  destruct (send m p ps j w) as [[r | e] w1]; [| reflexivity].
  destruct (_update_cookies r w1) as [[[] | e] w2]; [| reflexivity].
  rewrite andb_false_r. reflexivity.
Qed.

Lemma async_login_run (w : world) :
  async_login w
  = if Spec.login_succeeds (script w (length (sent w)))
    then (Ok tt, Spec.with_authenticated true (Spec.login_exchange w))
    else (Raise (Spec.login_error (script w (length (sent w)))), Spec.login_exchange w).
Proof.
  unfold async_login. cbv beta iota delta [mbind get_client].
  rewrite _request_once_run.
  unfold Spec.login_succeeds, Spec.login_error, Spec.login_exchange.
  destruct (Spec.answer_result _) as [[] | e]; reflexivity.
Qed.

(** On a 401 the call resets the flag, logs in again and, if that
    succeeds, repeats the request without a further re-login. *)
Lemma _request_reauth (m p : string) (ps : list (string * string))
    (j : option py_value) (w : world) (r1 : response) :
  script w (length (sent w)) = Answer r1 ->
  status r1 = 401%Z ->
  _request m p ps j true w
  = mbind async_login (fun _ => _request_once m p ps j)
          (Spec.with_authenticated false (Spec.exchange m p ps j w)).
Proof.
  intros Hr Hs.
  unfold _request at 1. unfold send, _update_cookies, mark_authenticated.
  cbv beta iota delta [mbind]. rewrite Hr. cbv beta iota. rewrite Hs.
  change ((401 =? 401)%Z && true) with true. cbv beta iota.
  unfold Spec.with_authenticated, Spec.exchange. rewrite Hr. reflexivity.
Qed.

Lemma exchange_sent (m p : string) (ps : list (string * string))
    (j : option py_value) (w : world) :
  sent (Spec.exchange m p ps j w) = (sent w ++ [Spec.call_request (client w) m p ps j])%list.
Proof. reflexivity. Qed.

Lemma exchange_script (m p : string) (ps : list (string * string))
    (j : option py_value) (w : world) :
  script (Spec.exchange m p ps j w) = script w.
Proof. reflexivity. Qed.

Lemma conclude_unauthorized (r : response) :
  status r = 401%Z -> conclude r = Raise ChedrauiAuthError.
Proof. intros H. unfold conclude. rewrite H. reflexivity. Qed.

Lemma conclude_json_success (r : response) (v : py_value) :
  Spec.json_success r v -> conclude r = Ok v.
Proof.
  intros (Hs & Hc & Ht & Hd). unfold conclude, response_json.
  destruct (Z.leb_spec 400 (status r)); [lia |].
  rewrite Hc, Ht, Hd. reflexivity.
Qed.

(** C1 as stated fails.  The remote answers the call with 401, the
    login that follows with 500, and would answer anything after that
    with success: the login error reaches the caller and the request,
    which would now succeed, is not retried. *)
Lemma failed_relogin_means_no_retry :
  let w := Spec.scripted_world true [Spec.unauthorized; Spec.server_error]
                               Spec.empty_object in
  fst (_request "GET" "/cart" [] None true w) = Raise (ChedrauiRequestError (Some 500%Z))
  /\ List.map method (sent (snd (_request "GET" "/cart" [] None true w))) = ["GET"; "POST"]
  /\ List.map path (sent (snd (_request "GET" "/cart" [] None true w)))
     = ["/cart"; "/wcs/resources/store/10151/loginidentity"].
Proof. vm_compute. repeat split. Qed.

(** C1 (amended): when the remote answers a call with 401 the client
    logs in again exactly once, right after the call.  If that login
    succeeds the original request is sent again exactly once, without a
    further re-login, and its outcome is what the caller observes:
    [ChedrauiAuthError] when the retry is answered with 401 too, the
    decoded body when it is answered with a success status and JSON.
    If the login fails its error reaches the caller and the request is
    not sent again. *)
Theorem reauth_once_then_retry_once (w : world) (m p : string)
    (ps : list (string * string)) (j : option py_value) (r1 : response) :
  script w (length (sent w)) = Answer r1 ->
  status r1 = 401%Z ->
  let n := length (sent w) in
  let w1 := Spec.with_authenticated false (Spec.exchange m p ps j w) in
  let w2 := Spec.login_exchange w1 in
  let w3 := Spec.exchange m p ps j (Spec.with_authenticated true w2) in
  sent w2 = (sent w ++ [Spec.call_request (client w) m p ps j;
                        Spec.login_request (client w1)])%list
  /\ (if Spec.login_succeeds (script w (n + 1))
      then _request m p ps j true w = (Spec.answer_result (script w (n + 2)), w3)
           /\ sent w3 = (sent w2 ++ [Spec.call_request (client w2) m p ps j])%list
      else _request m p ps j true w = (Raise (Spec.login_error (script w (n + 1))), w2))
  /\ (forall r3, status r3 = 401%Z -> Spec.answer_result (Answer r3) = Raise ChedrauiAuthError)
  /\ (forall r3 v, Spec.json_success r3 v -> Spec.answer_result (Answer r3) = Ok v).
Proof.
  intros Hr Hs n w1 w2 w3.
  assert (Hn1 : length (sent w1) = n + 1).
  { subst w1 n. unfold Spec.with_authenticated, set_client. cbn [sent].
    rewrite exchange_sent, length_app. reflexivity. }
  assert (Hn2 : length (sent (Spec.with_authenticated true w2)) = n + 2).
  { subst w2. unfold Spec.with_authenticated at 1, set_client, Spec.login_exchange.
    cbn [sent]. rewrite exchange_sent, length_app, Hn1. cbn [length]. lia. }
  split; [| split; [| split]].
  - subst w2 w1. unfold Spec.login_exchange. rewrite exchange_sent.
    unfold Spec.with_authenticated at 1, set_client. cbn [sent].
    rewrite exchange_sent, <- app_assoc. reflexivity.
  - rewrite (_request_reauth _ _ _ _ _ _ Hr Hs). fold w1.
    unfold mbind. rewrite async_login_run. rewrite Hn1.
    change (script w1) with (script w).
    destruct (Spec.login_succeeds (script w (n + 1))); [| reflexivity].
    fold w2. rewrite _request_once_run, Hn2. split; reflexivity.
  - intros r3 H. exact (conclude_unauthorized r3 H).
  - intros r3 v H. exact (conclude_json_success r3 v H).
Qed.

Lemma reauth_once_then_retry_once_witness :
  let w := Spec.scripted_world true [Spec.unauthorized] Spec.empty_object in
  fst (_request "GET" "/cart" [] None true w) = Ok (PyDict [])
  /\ List.map method (sent (snd (_request "GET" "/cart" [] None true w)))
     = ["GET"; "POST"; "GET"].
Proof.
  intros w.
  destruct (reauth_once_then_retry_once w "GET" "/cart" [] None Spec.unauthorized
              eq_refl eq_refl) as (_ & H & _).
  cbn zeta in H. change (Spec.login_succeeds _) with true in H. cbv iota in H.
  destruct H as [-> _]. split; reflexivity.
Defined.

(** ** Which requests a call sends *)

Section Sends.

Context (P : request -> Prop).

Lemma sends_refl (w w' : world) : sent w' = sent w -> Spec.sends P w w'.
Proof. intros H. exists []. rewrite H, app_nil_r. split; [reflexivity | constructor]. Qed.

Lemma sends_trans (w1 w2 w3 : world) :
  Spec.sends P w1 w2 -> Spec.sends P w2 w3 -> Spec.sends P w1 w3.
Proof.
  intros (l1 & H1 & F1) (l2 & H2 & F2). exists (l1 ++ l2)%list.
  rewrite H2, H1, app_assoc. split; [reflexivity | apply Forall_app; auto].
Qed.

Lemma only_sends_bind {A B : Type} (m : M A) (k : A -> M B) :
  Spec.only_sends P m -> (forall a, Spec.only_sends P (k a)) ->
  Spec.only_sends P (mbind m k).
Proof.
  intros Hm Hk w. unfold mbind. specialize (Hm w).
  destruct (m w) as [[a | e] w1]; cbn [snd] in *; [| exact Hm].
  exact (sends_trans _ _ _ Hm (Hk a w1)).
Qed.

Lemma only_sends_ret {A : Type} (a : A) : Spec.only_sends P (ret a).
Proof. intros w. apply sends_refl. reflexivity. Qed.

Lemma only_sends_raise {A : Type} (e : exn) : Spec.only_sends P (@raise A e).
Proof. intros w. apply sends_refl. reflexivity. Qed.

Lemma only_sends_lift {A : Type} (r : res A) : Spec.only_sends P (lift r).
Proof. intros w. apply sends_refl. reflexivity. Qed.

Lemma only_sends_get_client : Spec.only_sends P get_client.
Proof. intros w. apply sends_refl. reflexivity. Qed.

Lemma only_sends_mark (b : bool) : Spec.only_sends P (mark_authenticated b).
Proof. intros w. apply sends_refl. reflexivity. Qed.

Lemma only_sends_update_cookies (r : response) : Spec.only_sends P (_update_cookies r).
Proof. intros w. apply sends_refl. reflexivity. Qed.

Lemma only_sends_send (m p : string) (ps : list (string * string)) (j : option py_value) :
  Spec.allows_call P m p ps j -> Spec.only_sends P (send m p ps j).
Proof.
  intros H w. exists [mk_request m p ps j (_cookies (client w))].
  split; [| repeat constructor; apply H].
  unfold send. destruct (script w (length (sent w))); reflexivity.
Qed.

Lemma only_sends_request_once (m p : string) (ps : list (string * string))
    (j : option py_value) :
  Spec.allows_call P m p ps j -> Spec.only_sends P (_request_once m p ps j).
Proof.
  intros H. unfold _request_once.
  apply only_sends_bind; [apply only_sends_send, H |]. intros r.
  apply only_sends_bind; [apply only_sends_update_cookies |]. intros _.
  apply only_sends_lift.
Qed.

Context (Hlogin : Spec.allows_login P).

Lemma only_sends_login : Spec.only_sends P async_login.
Proof.
  unfold async_login.
  apply only_sends_bind; [apply only_sends_get_client |]. intros c.
  apply only_sends_bind.
  - apply only_sends_request_once. intros ck. apply Hlogin.
  - intros [| | | | | |]; first [apply only_sends_raise | apply only_sends_mark].
Qed.

Lemma only_sends_request (m p : string) (ps : list (string * string))
    (j : option py_value) (allow_reauth : bool) :
  Spec.allows_call P m p ps j -> Spec.only_sends P (_request m p ps j allow_reauth).
Proof.
  intros H. unfold _request.
  apply only_sends_bind; [apply only_sends_send, H |]. intros r.
  apply only_sends_bind; [apply only_sends_update_cookies |]. intros _.
  destruct (_ && _); [| apply only_sends_lift].
  apply only_sends_bind; [apply only_sends_mark |]. intros _.
  apply only_sends_bind; [apply only_sends_login |]. intros _.
  apply only_sends_request_once, H.
Qed.

Lemma only_sends_ensure : Spec.only_sends P async_ensure_authenticated.
Proof.
  unfold async_ensure_authenticated.
  apply only_sends_bind; [apply only_sends_get_client |]. intros c.
  destruct (_is_authenticated c); [apply only_sends_ret | apply only_sends_login].
Qed.

Lemma only_sends_get_cart :
  (forall p, Spec.allows_call P "GET" p [] None) -> Spec.only_sends P async_get_cart.
Proof.
  intros H. unfold async_get_cart.
  apply only_sends_bind; [apply only_sends_ensure |]. intros _.
  apply only_sends_bind; [apply only_sends_get_client |]. intros c.
  apply only_sends_bind; [apply only_sends_request, H |]. intros data.
  apply only_sends_lift.
Qed.

Lemma only_sends_refresh :
  (forall p, Spec.allows_call P "GET" p [] None) ->
  Spec.only_sends P Todo.async_request_refresh.
Proof.
  intros H w. pose proof (only_sends_get_cart H w) as Hs.
  unfold Todo.async_request_refresh.
  destruct (async_get_cart w) as [[items | e] w1]; cbn [snd] in *;
    (eapply sends_trans; [exact Hs | apply sends_refl; reflexivity]).
Qed.

Lemma only_sends_search (query : string) (limit : Z) :
  (forall p, Spec.allows_call P "GET" p
               [("pageSize", repr_int limit); ("responseFormat", "json");
                ("pageNumber", "1"); ("searchType", "keyword")] None) ->
  Spec.only_sends P (async_search_products query limit).
Proof.
  intros H. unfold async_search_products.
  apply only_sends_bind; [apply only_sends_ensure |]. intros _.
  apply only_sends_bind; [apply only_sends_get_client |]. intros c.
  apply only_sends_bind; [apply only_sends_request, H |]. intros data.
  apply only_sends_lift.
Qed.

Lemma only_sends_add_to_cart (pid : string) (q : PyFloat.float) (u : option string)
    (wt : option PyFloat.float) (mt : option string) :
  (forall p, Spec.allows_call P "POST" p [] (Some (add_payload pid q u wt mt))) ->
  Spec.only_sends P (async_add_to_cart pid q u wt mt).
Proof.
  intros H. unfold async_add_to_cart.
  apply only_sends_bind; [apply only_sends_ensure |]. intros _.
  apply only_sends_bind; [apply only_sends_get_client |]. intros c.
  apply only_sends_bind; [apply only_sends_request, H |]. intros data.
  apply only_sends_bind; [apply only_sends_lift |]. intros items.
  destruct (last items); [apply only_sends_ret | apply only_sends_raise].
Qed.

End Sends.

(** ** Creating a checklist item without a product id *)

Lemma digit_not_space (c : ascii) : PyStr.is_digit c = true -> PyStr.is_space c = false.
Proof. each_char c. Qed.

Lemma rstrip_by_none (p : ascii -> bool) (s : string) :
  PyStr.forallb (fun c => negb (p c)) s = true -> PyStr.rstrip_by p s = s.
Proof.
  induction s as [| c s IH]; [reflexivity |]. simpl. intros H.
  apply andb_prop in H as [Hc Hs]. rewrite (IH Hs).
  destruct (p c); [discriminate |]. rewrite andb_false_r. reflexivity.
Qed.

Lemma forallb_impl (p q : ascii -> bool) (s : string) :
  (forall c, p c = true -> q c = true) ->
  PyStr.forallb p s = true -> PyStr.forallb q s = true.
Proof.
  intros Hpq. induction s as [| c s IH]; [reflexivity |]. simpl. intros H.
  apply andb_prop in H as [Hc Hs]. rewrite (Hpq c Hc), (IH Hs). reflexivity.
Qed.

(** A text made of digits has no white space to strip. *)
Lemma strip_digits (s : string) : PyStr.isdigit s = true -> PyStr.strip s = s.
Proof.
  unfold PyStr.isdigit. intros H. apply andb_prop in H as [_ H].
  assert (Hns : PyStr.forallb (fun c => negb (PyStr.is_space c)) s = true).
  { revert H. apply forallb_impl. intros c Hc. rewrite (digit_not_space c Hc). reflexivity. }
  unfold PyStr.strip, PyStr.strip_by.
  assert (Hspan : PyStr.span PyStr.is_space s = ("", s)).
  { destruct s as [| c s]; [reflexivity |]. simpl in *.
    apply andb_prop in Hns as [Hc _]. destruct (PyStr.is_space c); [discriminate | reflexivity]. }
  rewrite Hspan. cbn [snd]. apply rstrip_by_none, Hns.
Qed.

Lemma _resolve_product_id_run (summary : string) (w : world) :
  Todo._resolve_product_id (Some summary) w
  = let text := PyStr.strip summary in
    if PyStr.is_empty text then (Ok None, w)
    else if PyStr.isdigit text then (Ok (Some text), w)
    else match async_search_products text 1 w with
         | (Ok [], w') => (Ok None, w')
         | (Ok (top :: _), w') => (Ok (Some (ProductSummary.product_id top)), w')
         | (Raise e, w') => (Raise e, w')
         end.
Proof.
  unfold Todo._resolve_product_id. cbv zeta.
  destruct (PyStr.is_empty (PyStr.strip summary)); [reflexivity |].
  destruct (PyStr.isdigit (PyStr.strip summary)); [reflexivity |].
  unfold mbind. destruct (async_search_products _ 1 w) as [[[| top rest] | e] w']; reflexivity.
Qed.

(** Creation when neither tags nor description give a product id. *)
Lemma create_unresolved (item : TodoItem.t) (summary : string) (q : PyFloat.float)
    (u mt : option string) (w : world) :
  Todo.create_fields item = Ok (None, q, u, mt) ->
  TodoItem.summary item = Some summary ->
  Todo.async_create_todo_item item w
  = match Todo._resolve_product_id (Some summary) w with
    | (Ok (Some p), w') => Spec.add_and_refresh p q u mt w'
    | (Ok None, w') => (Raise ValueError, w')
    | (Raise e, w') => (Raise e, w')
    end.
Proof.
  intros Hf Hs. unfold Todo.async_create_todo_item, Spec.add_and_refresh.
  rewrite Hf, Hs. cbv beta iota delta [mbind lift].
  destruct (Todo._resolve_product_id (Some summary) w) as [[[p |] | e] w']; reflexivity.
Qed.

Lemma no_search_allows_login : Spec.allows_login (fun rq => Spec.is_search_call rq = false).
Proof. intros user password store_id ck. reflexivity. Qed.

Lemma add_and_refresh_no_search (p : string) (q : PyFloat.float) (u mt : option string) :
  Spec.only_sends (fun rq => Spec.is_search_call rq = false) (Spec.add_and_refresh p q u mt).
Proof.
  unfold Spec.add_and_refresh.
  apply only_sends_bind.
  - apply only_sends_add_to_cart; [exact no_search_allows_login |]. intros path ck. reflexivity.
  - intros created. apply only_sends_bind; [| intros _; apply only_sends_ret].
    apply only_sends_refresh; [exact no_search_allows_login |]. intros path ck. reflexivity.
Qed.

Lemma search_limit_1_requests (query : string) :
  Spec.only_sends
    (fun rq => (Spec.login_form rq \/ Spec.search_form "1" rq)
               /\ Spec.is_cart_write rq = false)
    (async_search_products query 1).
Proof.
  apply only_sends_search.
  - intros user password store_id ck. split; [| reflexivity].
    left. repeat split. eauto.
  - intros path ck. split; [| reflexivity]. right. repeat split.
Qed.

(** C7 as stated fails.  The summary [ 123 ], with blanks around the
    digits, is not purely numeric, yet it is stripped and taken as the
    product id [123]: the cart write and the refresh are the only
    requests, no search is issued.  A summary of blanks is not
    numeric either, and is not searched: the creation fails at once,
    with nothing sent. *)
Lemma padded_or_blank_summary_is_not_searched :
  let w := Spec.constant_world true Spec.one_line_cart in
  let padded := TodoItem.mk (Some " 123 ") None (Some NEEDS_ACTION) None None in
  let blank := TodoItem.mk (Some "  ") None (Some NEEDS_ACTION) None None in
  PyStr.isdigit " 123 " = false
  /\ List.map method (sent (snd (Todo.async_create_todo_item padded w))) = ["POST"; "GET"]
  /\ List.map json (sent (snd (Todo.async_create_todo_item padded w)))
     = [Some (add_payload "123" one None None None); None]
  /\ existsb Spec.is_search_call (sent (snd (Todo.async_create_todo_item padded w))) = false
  /\ PyStr.isdigit "  " = false
  /\ fst (Todo.async_create_todo_item blank w) = Raise ValueError
  /\ sent (snd (Todo.async_create_todo_item blank w)) = [].
Proof. vm_compute. repeat split. Qed.

(** C7 (amended): when creating a checklist item resolves no product
    id from tags or description, the summary is stripped of surrounding
    white space and then decides.  A blank summary fails the creation
    with [ValueError] and sends nothing.  A summary of digits is the
    product id, verbatim when the summary is purely numeric, and no
    search request is sent.  Any other summary triggers one product
    search with limit 1; its top result gives the product id, and when
    it returns no result the creation fails with [ValueError], the
    requests sent being logins and that search, none of them a cart
    write. *)
Theorem unresolved_product_falls_back_to_summary (item : TodoItem.t) (summary : string)
    (q : PyFloat.float) (u mt : option string) (w : world) :
  Todo.create_fields item = Ok (None, q, u, mt) ->
  TodoItem.summary item = Some summary ->
  let text := PyStr.strip summary in
  (PyStr.isdigit summary = true -> text = summary)
  /\ (text = "" -> Todo.async_create_todo_item item w = (Raise ValueError, w))
  /\ (PyStr.isdigit text = true ->
      Todo.async_create_todo_item item w = Spec.add_and_refresh text q u mt w
      /\ Spec.sends (fun rq => Spec.is_search_call rq = false)
                    w (snd (Todo.async_create_todo_item item w)))
  /\ (text <> "" -> PyStr.isdigit text = false ->
      match async_search_products text 1 w with
      | (Ok [], w') =>
          Todo.async_create_todo_item item w = (Raise ValueError, w')
          /\ Spec.sends (fun rq => (Spec.login_form rq \/ Spec.search_form "1" rq)
                                   /\ Spec.is_cart_write rq = false) w w'
      | (Ok (top :: _), w') =>
          Todo.async_create_todo_item item w
          = Spec.add_and_refresh (ProductSummary.product_id top) q u mt w'
      | (Raise e, w') => Todo.async_create_todo_item item w = (Raise e, w')
      end).
Proof.
  intros Hf Hs text.
  pose proof (create_unresolved item summary q u mt w Hf Hs) as Hrun.
  rewrite _resolve_product_id_run in Hrun. cbv zeta in Hrun. fold text in Hrun.
  split; [exact (strip_digits summary) |]. split; [| split].
  - intros Ht. rewrite Ht in Hrun. exact Hrun.
  - intros Hd.
    assert (He : PyStr.is_empty text = false).
    { unfold PyStr.isdigit in Hd. apply andb_prop in Hd as [Hd _].
      destruct (PyStr.is_empty text); [discriminate | reflexivity]. }
    rewrite He, Hd in Hrun. split; [exact Hrun |].
    rewrite Hrun. apply add_and_refresh_no_search.
  - intros Hne Hd. rewrite (is_empty_false _ Hne), Hd in Hrun.
    pose proof (search_limit_1_requests text w) as Hsent.
    destruct (async_search_products text 1 w) as [[[| top rest] | e] w']; cbn [snd] in Hsent;
      [split |..]; assumption.
Qed.

Lemma unresolved_product_falls_back_to_summary_witness :
  let w := Spec.constant_world true Spec.empty_object in
  let item := TodoItem.mk (Some "998877") None (Some NEEDS_ACTION) None None in
  Todo.async_create_todo_item item w = Spec.add_and_refresh "998877" one None None w.
Proof.
  intros w item.
  destruct (unresolved_product_falls_back_to_summary item "998877" one None None w
              eq_refl eq_refl) as (_ & _ & H & _).
  apply H. reflexivity.
Defined.

(** ** A write whose confirming record is missing *)

Lemma async_request_refresh_returns (w : world) :
  exists w', Todo.async_request_refresh w = (Ok tt, w').
Proof.
  unfold Todo.async_request_refresh.
  destruct (async_get_cart w) as [[items | e] w1]; eauto.
Qed.

Lemma async_update_todo_item_result (item : TodoItem.t) (uid : string) (w w' : world)
    (t : TodoItem.t) :
  TodoItem.uid item = Some uid ->
  Todo.async_update_todo_item item w = (Ok t, w') ->
  t = if Todo.status_is_completed (TodoItem.status item) then item
      else match Todo.find_item uid (coordinator_data w') with
           | Some refreshed => Todo._cart_item_to_todo (Some refreshed)
           | None => item
           end.
Proof.
  intros Hu. unfold Todo.async_update_todo_item. rewrite Hu.
  destruct (Todo.status_is_completed (TodoItem.status item)).
  - cbv beta iota delta [mbind ret].
    destruct (async_remove_from_cart uid w) as [[[] | e] w1]; [| discriminate].
    destruct (Todo.async_request_refresh w1) as [[[] | e] w2]; [| discriminate].
    intros H. apply pair_equal_spec in H as [H _]. congruence.
  - cbv beta iota delta [mbind lift].
    destruct (Todo.update_fields item) as [[[q u] mt] | e]; [| discriminate].
    destruct (async_update_cart_item uid q u None mt w) as [[items | e] w1]; [| discriminate].
    destruct (Todo.async_request_refresh w1) as [[[] | e] w2]; [| discriminate].
    destruct (Todo.find_item uid (coordinator_data w2)) as [refreshed |] eqn:Ef;
      intros H; apply pair_equal_spec in H as [H <-]; rewrite Ef; congruence.
Qed.

Lemma async_update_todo_item_returns (item : TodoItem.t) (uid : string)
    (q : option PyFloat.float) (u mt : option string) (w w1 : world)
    (items : list CartItem.t) :
  TodoItem.uid item = Some uid ->
  Todo.status_is_completed (TodoItem.status item) = false ->
  Todo.update_fields item = Ok (q, u, mt) ->
  async_update_cart_item uid q u None mt w = (Ok items, w1) ->
  exists t w', Todo.async_update_todo_item item w = (Ok t, w').
Proof.
  intros Hu Hs Hf Hc. unfold Todo.async_update_todo_item. rewrite Hu, Hs, Hf.
  cbv beta iota delta [mbind lift]. rewrite Hc.
  destruct (async_request_refresh_returns w1) as [w2 ->].
  destruct (Todo.find_item uid (coordinator_data w2)); eauto.
Qed.

Lemma async_add_to_cart_unconfirmed (pid : string) (q : PyFloat.float) (u : option string)
    (wt : option PyFloat.float) (mt : option string) (w w1 : world) (data : py_value) :
  Spec.post_to_cart pid q u wt mt w = (Ok data, w1) ->
  _parse_cart_items data = Ok [] ->
  async_add_to_cart pid q u wt mt w = (Raise (ChedrauiRequestError None), w1).
Proof.
  unfold Spec.post_to_cart, async_add_to_cart. cbv beta iota delta [mbind lift].
  destruct (async_ensure_authenticated w) as [[[] | e] w0]; [| discriminate].
  destruct (get_client w0) as [[c | e] w0']; [| discriminate].
  destruct (_request _ _ _ _ _ w0') as [[data' | e] w2]; [| discriminate].
  intros H Hp. apply pair_equal_spec in H as [H <-].
  assert (data' = data) as -> by congruence. rewrite Hp. reflexivity.
Qed.

(** C8 as stated fails for the add operation.  The remote accepts the
    write and answers [{}], in which no item can be found: the
    creation raises [ChedrauiRequestError] instead of returning the
    caller's item. *)
Lemma add_without_confirmation_fails :
  let w := Spec.constant_world true Spec.empty_object in
  let item := TodoItem.mk (Some "Leche") None (Some NEEDS_ACTION) None
                          (Some [("product_id", PyStr "55")]) in
  fst (Todo.async_create_todo_item item w) = Raise (ChedrauiRequestError None)
  /\ List.map method (sent (snd (Todo.async_create_todo_item item w))) = ["POST"]
  /\ fst (async_add_to_cart "55" one None None None w) = Raise (ChedrauiRequestError None).
Proof. vm_compute. repeat split. Qed.

(** C8 (amended): an update whose item is absent from the cart
    snapshot read right after it returns the caller's item unchanged,
    as does the removal of a completed item; the update does return
    whenever the write itself succeeds.  The add operation does not
    degrade: when no item can be decoded from the response of a
    successful write it raises [ChedrauiRequestError]. *)
Theorem unconfirmed_update_returns_input :
  (forall item uid w w' t,
      TodoItem.uid item = Some uid ->
      Todo.async_update_todo_item item w = (Ok t, w') ->
      t = if Todo.status_is_completed (TodoItem.status item) then item
          else match Todo.find_item uid (coordinator_data w') with
               | Some refreshed => Todo._cart_item_to_todo (Some refreshed)
               | None => item
               end)
  /\ (forall item uid q u mt w w1 items,
        TodoItem.uid item = Some uid ->
        Todo.status_is_completed (TodoItem.status item) = false ->
        Todo.update_fields item = Ok (q, u, mt) ->
        async_update_cart_item uid q u None mt w = (Ok items, w1) ->
        exists t w', Todo.async_update_todo_item item w = (Ok t, w'))
  /\ (forall pid q u wt mt w w1 data,
        Spec.post_to_cart pid q u wt mt w = (Ok data, w1) ->
        _parse_cart_items data = Ok [] ->
        async_add_to_cart pid q u wt mt w = (Raise (ChedrauiRequestError None), w1)).
Proof.
  split; [exact async_update_todo_item_result |].
  split; [exact async_update_todo_item_returns | exact async_add_to_cart_unconfirmed].
Qed.

Lemma unconfirmed_update_returns_input_witness :
  let w := Spec.constant_world true Spec.empty_object in
  let item := TodoItem.mk (Some "Leche") (Some "1") (Some NEEDS_ACTION) (Some "2 kg") None in
  fst (Todo.async_update_todo_item item w) = Ok item.
Proof.
  intros w item.
  destruct unconfirmed_update_returns_input as (H & _ & _).
  destruct (Todo.async_update_todo_item item w) as [r w'] eqn:E.
  assert (Hr : exists t, r = Ok t) by (vm_compute in E; injection E as <- _; eauto).
  destruct Hr as [t ->].
  rewrite (H item "1" w w' t eq_refl E).
  assert (Hd : coordinator_data w' = Some []) by (vm_compute in E; injection E as _ <-; reflexivity).
  rewrite Hd. reflexivity.
Defined.

(** * Further properties of the code *)

(** ** The unit a cart write carries *)

Lemma default_unit_canonical (mt n : string) :
  _default_unit_for_measurement mt = Some n -> n ∈ canonical_units.
Proof.
  unfold _default_unit_for_measurement.
  repeat (destruct (String.eqb _ _); [intros [= <-]; repeat constructor |]).
  discriminate.
Qed.

Lemma _normalize_unit_canonical (u mt : option string) (n : string) :
  Client._normalize_unit u mt = Some n -> n ∈ canonical_units.
Proof.
  assert (Hfall : forall c : option string,
            match c with
            | None => None
            | Some n0 =>
                match UNIT_TO_MEASUREMENT_TYPE !! n0 with
                | None => Some (default "EA" (UNIT_ALIASES !! "ea"))
                | Some _ => Some n0
                end
            end = Some n -> n ∈ canonical_units).
  { intros [n0 |]; [| discriminate].
    destruct (UNIT_TO_MEASUREMENT_TYPE !! n0) as [m |] eqn:E.
    - intros H. apply (f_equal (default "")) in H. cbn [default from_option id] in H.
      subst n. exact (measurement_keys_canonical _ _ E).
    - assert (Hea : default "EA" (UNIT_ALIASES !! "ea") = "EA") by (vm_compute; reflexivity).
      rewrite Hea. intros H. apply (f_equal (default "")) in H. cbn [default from_option id] in H.
      subst n. repeat constructor. }
  unfold Client._normalize_unit.
  destruct u as [u |], mt as [mt |]; try discriminate; apply Hfall.
Qed.

Lemma canonical_units_advertised (n : string) :
  n ∈ canonical_units <-> n ∈ available_units.
Proof.
  change available_units with ["EA"; "GRM"; "KGM"; "LBR"; "LTR"; "MLT"].
  unfold canonical_units, PIECE_UNIT, WEIGHT_UNIT_KG, WEIGHT_UNIT_G, WEIGHT_UNIT_LB,
    VOLUME_UNIT_L, VOLUME_UNIT_ML.
  rewrite !elem_of_cons, !elem_of_nil. tauto.
Qed.

Lemma _normalize_unit_fixes_canonical (n : string) :
  n ∈ canonical_units -> Client._normalize_unit (Some n) None = Some n.
Proof.
  intros H. apply canonical_units_cases in H.
  destruct H as [-> | [-> | [-> | [-> | [-> | ->]]]]]; vm_compute; reflexivity.
Qed.

Lemma payload_uom_add (pid : string) (q : PyFloat.float) (u : option string)
    (wt : option PyFloat.float) (mt : option string) :
  Spec.payload_uom (add_payload pid q u wt mt) = PyStr <$> Client._normalize_unit u mt.
Proof.
  unfold add_payload. cbv zeta.
  pose proof (_normalize_unit_canonical u mt) as Hc.
  destruct (Client._normalize_unit u mt) as [n |]; [| destruct wt; reflexivity].
  specialize (Hc n eq_refl). apply canonical_units_cases in Hc.
  destruct Hc as [-> | [-> | [-> | [-> | [-> | ->]]]]]; destruct wt; reflexivity.
Qed.

Lemma payload_uom_update (item_id : string) (oq : option PyFloat.float) (u : option string)
    (wt : option PyFloat.float) (mt : option string) :
  Spec.payload_uom (update_payload item_id oq u wt mt) = PyStr <$> Client._normalize_unit u mt.
Proof.
  unfold update_payload. cbv zeta.
  destruct (Client._normalize_unit u mt) as [n |], oq, wt; reflexivity.
Qed.

(** X1: the units a client advertises in [available_units] are exactly
    the units [_normalize_unit] can return, and the [uom] of the body
    of a cart write, when there is one, is what [_normalize_unit]
    returns: one of the advertised units. *)
Theorem cart_write_unit_is_advertised :
  (forall u mt n, Client._normalize_unit u mt = Some n -> n ∈ available_units)
  /\ (forall n, n ∈ available_units -> Client._normalize_unit (Some n) None = Some n)
  /\ (forall pid q u wt mt,
        Spec.payload_uom (add_payload pid q u wt mt)
        = PyStr <$> Client._normalize_unit u mt)
  /\ (forall item_id oq u wt mt,
        Spec.payload_uom (update_payload item_id oq u wt mt)
        = PyStr <$> Client._normalize_unit u mt).
Proof.
  split; [| split; [| split]].
  - intros u mt n H. apply canonical_units_advertised. exact (_normalize_unit_canonical u mt n H).
  - intros n H. apply _normalize_unit_fixes_canonical, canonical_units_advertised, H.
  - exact payload_uom_add.
  - exact payload_uom_update.
Qed.

Lemma cart_write_unit_is_advertised_witness :
  Client._normalize_unit (Some "Litros") (Some "weight") = Some "LTR"
  /\ "LTR" ∈ available_units
  /\ Client._normalize_unit (Some "LTR") None = Some "LTR".
Proof.
  destruct cart_write_unit_is_advertised as (H1 & H2 & _).
  assert (E : Client._normalize_unit (Some "Litros") (Some "weight") = Some "LTR")
    by (vm_compute; reflexivity).
  split; [exact E |]. split; [exact (H1 _ _ _ E) | exact (H2 _ (H1 _ _ _ E))].
Defined.

(** ** Resolving a unit twice *)

Lemma upper_char_idem (c : ascii) : PyStr.upper_char (PyStr.upper_char c) = PyStr.upper_char c.
Proof. each_char c. Qed.

Lemma upper_char_not_sharp (c : ascii) :
  PyStr.is_code 223 c = false -> PyStr.is_code 223 (PyStr.upper_char c) = false.
Proof. each_char c. Qed.

Lemma lower_upper_char (c : ascii) :
  PyStr.is_code 223 c = false ->
  PyStr.lower_char (PyStr.upper_char c) = PyStr.lower_char c.
Proof. each_char c. Qed.

Lemma lower_char_not_sharp (c : ascii) :
  PyStr.is_code 223 c = false -> PyStr.is_code 223 (PyStr.lower_char c) = false.
Proof. each_char c. Qed.

Lemma lower_char_sharp (c : ascii) :
  PyStr.is_code 223 c = true -> PyStr.lower_char c = c.
Proof. each_char c. Qed.

Lemma upper_idem (s : string) : PyStr.upper (PyStr.upper s) = PyStr.upper s.
Proof.
  induction s as [| c s IH]; [reflexivity |].
  cbn [PyStr.upper]. destruct (PyStr.is_code 223 c) eqn:E.
  - cbn [PyStr.upper]. change (PyStr.is_code 223 "S") with false. cbv iota.
    change (PyStr.upper_char "S") with "S"%char. rewrite IH. reflexivity.
  - cbn [PyStr.upper]. rewrite (upper_char_not_sharp c E), upper_char_idem, IH. reflexivity.
Qed.

Lemma lower_upper (s : string) :
  PyStr.lower (PyStr.upper s) = Spec.sharp_s_expanded (PyStr.lower s).
Proof.
  unfold PyStr.lower. induction s as [| c s IH]; [reflexivity |].
  cbn [PyStr.upper PyStr.map_chars Spec.sharp_s_expanded].
  destruct (PyStr.is_code 223 c) eqn:E.
  - cbn [PyStr.map_chars]. rewrite IH, (lower_char_sharp c E), E. reflexivity.
  - cbn [PyStr.map_chars]. rewrite IH, (lower_upper_char c E), (lower_char_not_sharp c E).
    reflexivity.
Qed.

Lemma has_double_s_tail (c : ascii) (k : string) :
  Spec.has_double_s k = true -> Spec.has_double_s (String c k) = true.
Proof.
  destruct k as [| b k]; [discriminate |]. intros H.
  change (Spec.has_double_s (String c (String b k)))
    with ((PyStr.is_code 115 c && PyStr.is_code 115 b) || Spec.has_double_s (String b k)).
  rewrite H. apply orb_true_r.
Qed.

Lemma sharp_s_expanded_key (x : string) :
  Spec.sharp_s_expanded x = x \/ Spec.has_double_s (Spec.sharp_s_expanded x) = true.
Proof.
  induction x as [| c x IH]; [left; reflexivity |].
  cbn [Spec.sharp_s_expanded]. destruct (PyStr.is_code 223 c).
  - right. reflexivity.
  - destruct IH as [IH | IH].
    + left. rewrite IH. reflexivity.
    + right. apply has_double_s_tail, IH.
Qed.

Lemma alias_keys_no_double_s (k v : string) :
  UNIT_ALIASES !! k = Some v -> Spec.has_double_s k = false.
Proof.
  intros H. apply aliases_lookup_items in H.
  unfold UNIT_ALIASES_items in H. table_cases H; reflexivity.
Qed.

Lemma alias_miss_upper (s : string) :
  UNIT_ALIASES !! PyStr.lower s = None -> UNIT_ALIASES !! PyStr.lower (PyStr.upper s) = None.
Proof.
  intros Hmiss. rewrite lower_upper.
  destruct (sharp_s_expanded_key (PyStr.lower s)) as [-> | Hss]; [exact Hmiss |].
  destruct (UNIT_ALIASES !! Spec.sharp_s_expanded (PyStr.lower s)) as [v |] eqn:E;
    [| reflexivity].
  rewrite (alias_keys_no_double_s _ _ E) in Hss. discriminate.
Qed.

Lemma alias_or_upper_canonical (u : string) :
  u ∈ canonical_units -> alias_or_upper u = u.
Proof.
  intros H. apply canonical_units_cases in H.
  destruct H as [-> | [-> | [-> | [-> | [-> | ->]]]]]; vm_compute; reflexivity.
Qed.

Lemma alias_or_upper_idem (s : string) : alias_or_upper (alias_or_upper s) = alias_or_upper s.
Proof.
  destruct (UNIT_ALIASES !! PyStr.lower s) as [u |] eqn:E.
  - rewrite (alias_or_upper_hit s u E).
    apply alias_or_upper_canonical, (alias_values_canonical _ _ E).
  - rewrite (alias_or_upper_miss s E).
    rewrite (alias_or_upper_miss _ (alias_miss_upper s E)). apply upper_idem.
Qed.

Lemma _normalize_unit_some (s : string) (mt : option string) :
  s <> "" ->
  Client._normalize_unit (Some s) mt
  = Some (if bool_decide (alias_or_upper s ∈ canonical_units) then alias_or_upper s else "EA").
Proof.
  intros Hs.
  destruct (UNIT_TO_MEASUREMENT_TYPE !! alias_or_upper s) as [m |] eqn:E.
  - rewrite (_normalize_unit_known s m mt Hs E).
    rewrite bool_decide_eq_true_2; [reflexivity | exact (measurement_keys_canonical _ _ E)].
  - rewrite (_normalize_unit_unknown s mt Hs E).
    rewrite bool_decide_eq_false_2; [reflexivity |].
    intros Hc. apply canonical_has_measurement in Hc. rewrite E in Hc.
    destruct Hc as [? Hc]. discriminate.
Qed.

Lemma letter_in_range (c : ascii) :
  Regex.is_unit_letter c = true ->
  negb (PyStr.is_code 181 c || PyStr.is_code 255 c) = true.
Proof. each_char c. Qed.

(** The word a match reads is made of the letters of the pattern,
    none of which is U+00B5 or U+00FF. *)
Lemma search_number_unit_letters (text value word : string) :
  Regex.search_number_unit text = Some (value, word) -> Spec.upper_in_range word = true.
Proof.
  intros H. destruct (search_leftmost _ _ _ H) as (before & rest & _ & Hm & _).
  clear H. revert Hm. unfold Regex.match_number_unit.
  destruct (PyStr.span PyStr.is_decimal rest) as [int_part r1].
  destruct (PyStr.is_empty int_part); [discriminate |].
  match goal with |- context [let '(_, _) := ?e in _] => destruct e as [v r2] end.
  destruct (PyStr.span PyStr.is_space r2) as [blank r3].
  destruct (PyStr.span Regex.is_unit_letter r3) as [unit tail] eqn:Eu.
  apply span_spec in Eu as [_ Hl].
  destruct (PyStr.is_empty unit); [discriminate |].
  intros H. injection H as _ <-. unfold Spec.upper_in_range.
  revert Hl. apply forallb_impl, letter_in_range.
Qed.

(** X2: on text of code points below U+0100 other than U+00B5 and
    U+00FF, alias resolution is idempotent.  So a unit tag of such
    text that the entity has resolved ([Todo._normalize_unit]) and the
    client resolves again ([Client._normalize_unit]) ends as if the
    client alone had resolved the tag; the same holds of the unit the
    text parser reads from such text.  The property stops there: above
    U+00FF there are letters whose capital is an ASCII letter, such as
    U+017F, and a word holding one can become an alias by being
    upper-cased. *)
Theorem unit_resolved_twice_is_resolved_once :
  (forall s,
      Spec.upper_in_range s = true ->
      alias_or_upper (alias_or_upper s) = alias_or_upper s)
  /\ (forall s mt,
        s <> "" ->
        Spec.upper_in_range s = true ->
        Client._normalize_unit (Todo._normalize_unit (PyStr s)) mt
        = Client._normalize_unit (Some s) mt)
  /\ (forall text value word p mt,
        Regex.search_number_unit text = Some (value, word) ->
        Todo._parse_text text = Ok p ->
        Spec.upper_in_range word = true
        /\ Client._normalize_unit (ParsedText.unit p) mt
           = Client._normalize_unit (Some word) mt).
Proof.
  assert (Htwice : forall s mt, s <> "" ->
            Client._normalize_unit (Some (alias_or_upper s)) mt
            = Client._normalize_unit (Some s) mt).
  { intros s mt Hs.
    assert (Hne : alias_or_upper s <> "").
    { intros He. pose proof (alias_or_upper_nonempty s (is_empty_false s Hs)) as H.
      rewrite He in H. discriminate. }
    rewrite (_normalize_unit_some _ mt Hne), (_normalize_unit_some _ mt Hs).
    rewrite alias_or_upper_idem. reflexivity. }
  split; [intros s _; apply alias_or_upper_idem |]. split.
  - intros s mt Hs _. unfold Todo._normalize_unit.
    rewrite (is_empty_false s Hs). apply Htwice, Hs.
  - intros text value word p mt Hscan Hp.
    split; [exact (search_number_unit_letters _ _ _ Hscan) |].
    destruct (_parse_text_fields text) as (p' & Hp' & _ & Hf).
    rewrite Hp in Hp'. assert (p' = p) by congruence. subst p'.
    rewrite Hscan in Hf. cbn [Spec.quantity_fields] in Hf.
    apply pair_equal_spec in Hf as [Hf _]. apply pair_equal_spec in Hf as [_ Hu].
    rewrite Hu. apply Htwice.
    intros He. pose proof (search_number_unit_word _ _ _ Hscan) as H.
    rewrite He in H. discriminate.
Qed.

Lemma unit_resolved_twice_is_resolved_once_witness :
  Client._normalize_unit (Todo._normalize_unit (PyStr "Kilos")) None
  = Client._normalize_unit (Some "Kilos") None.
Proof.
  destruct unit_resolved_twice_is_resolved_once as (_ & H & _).
  apply H; [discriminate | reflexivity].
Defined.

(** ** What the normalisers return *)

Lemma ok_inj {A : Type} (a b : A) : Ok a = Ok b -> a = b.
Proof. intros H. injection H as H. exact H. Qed.

Lemma some_inj {A : Type} (a b : A) : Some a = Some b -> a = b.
Proof. intros H. injection H as H. exact H. Qed.

Lemma not_empty (s : string) : PyStr.is_empty s = false -> s <> "".
Proof. intros H ->. discriminate. Qed.

Lemma nonempty_str_nonempty (v : py_value) (s : string) :
  nonempty_str v = Some s -> PyStr.is_empty s = false.
Proof.
  destruct v as [| b | z | f | t | l | d]; try discriminate.
  cbn [nonempty_str]. destruct (PyStr.is_empty t) eqn:E; [discriminate |].
  intros H. apply some_inj in H. subst s. exact E.
Qed.

Lemma first_nonempty_str_nonempty (keys : list string) (raw : py_dict) (s : string) :
  first_nonempty_str keys raw = Some s -> PyStr.is_empty s = false.
Proof.
  induction keys as [| key keys IH]; [discriminate |].
  cbn [first_nonempty_str].
  destruct (nonempty_str (dict_get key raw)) as [t |] eqn:E; [| exact IH].
  intros H. apply some_inj in H. subst t. exact (nonempty_str_nonempty _ _ E).
Qed.

Lemma str_or_nonempty (o : option string) (d : string) :
  PyStr.is_empty d = false -> PyStr.is_empty (str_or o d) = false.
Proof.
  intros Hd. unfold str_or. destruct o as [s |]; [| exact Hd].
  destruct (PyStr.is_empty s) eqn:E; [exact Hd | exact E].
Qed.

(** [normalized or value.upper()] is [UNIT_ALIASES.get(value.lower(),
    value.upper())]: no alias stands for the empty text. *)
Lemma str_or_alias (value : string) :
  str_or (UNIT_ALIASES !! PyStr.lower value) (PyStr.upper value) = alias_or_upper value.
Proof.
  unfold str_or, alias_or_upper.
  destruct (UNIT_ALIASES !! PyStr.lower value) as [u |] eqn:E; [| reflexivity].
  rewrite (alias_values_nonempty _ _ E). reflexivity.
Qed.

Lemma _extract_name_nonempty (raw : py_dict) : PyStr.is_empty (_extract_name raw) = false.
Proof.
  unfold _extract_name. destruct (first_nonempty_str _ raw) as [s |] eqn:E; [| reflexivity].
  exact (first_nonempty_str_nonempty _ _ _ E).
Qed.

Lemma _extract_search_name_nonempty (raw : py_dict) :
  PyStr.is_empty (_extract_search_name raw) = false.
Proof.
  unfold _extract_search_name.
  destruct (first_nonempty_str _ raw) as [s |] eqn:E; [| reflexivity].
  exact (first_nonempty_str_nonempty _ _ _ E).
Qed.

Lemma _extract_unit_nonempty (raw : py_dict) : PyStr.is_empty (_extract_unit raw) = false.
Proof.
  unfold _extract_unit.
  destruct (first_nonempty_str _ raw) as [value |] eqn:E.
  - apply str_or_nonempty, upper_nonempty, (first_nonempty_str_nonempty _ _ _ E).
  - cbv zeta. destruct (nonempty_str _) as [m |]; [| reflexivity].
    apply str_or_nonempty. reflexivity.
Qed.

Lemma _extract_search_unit_nonempty (raw : py_dict) (u : string) :
  _extract_search_unit raw = Some u -> PyStr.is_empty u = false.
Proof.
  unfold _extract_search_unit.
  destruct (first_nonempty_str _ raw) as [value |] eqn:E.
  - intros H. apply some_inj in H. subst u.
    apply str_or_nonempty, upper_nonempty, (first_nonempty_str_nonempty _ _ _ E).
  - cbv zeta.
    match goal with |- context [PyStr.is_empty ?n] =>
      destruct (PyStr.is_empty n) eqn:En end; cbn [negb].
    + destruct (py_or (dict_get "measurement" raw) (dict_get "measure" raw));
        try discriminate.
      destruct (Regex.search_number_unit s) as [[value word] |] eqn:Es; [| discriminate].
      intros H. apply some_inj in H. subst u.
      apply alias_or_upper_nonempty, (search_number_unit_word _ _ _ Es).
    + intros H. apply some_inj in H. subst u. exact En.
Qed.

Lemma measurement_values_advertised (u m : string) :
  UNIT_TO_MEASUREMENT_TYPE !! u = Some m -> m ∈ measurement_types.
Proof.
  intros H. apply measurement_lookup_items in H.
  change measurement_types with ["piece"; "volume"; "weight"].
  unfold UNIT_TO_MEASUREMENT_TYPE_items in H. table_cases H;
    unfold MEASUREMENT_TYPE_PIECE, MEASUREMENT_TYPE_WEIGHT, MEASUREMENT_TYPE_VOLUME;
    rewrite !elem_of_cons; tauto.
Qed.

Lemma derived_measurement_advertised (u : string) :
  Spec.derived_measurement u ∈ measurement_types.
Proof.
  change measurement_types with ["piece"; "volume"; "weight"].
  destruct (derived_measurement_cases u) as [-> | [-> | ->]];
    rewrite !elem_of_cons; tauto.
Qed.

Lemma _infer_measurement_type_advertised (name m : string) :
  _infer_measurement_type_from_name name = Some m -> m ∈ measurement_types.
Proof.
  unfold _infer_measurement_type_from_name.
  destruct (Regex.search_number_unit name) as [[value word] |]; [| discriminate].
  destruct (UNIT_ALIASES !! PyStr.lower word) as [unit |]; [| discriminate].
  destruct (PyStr.is_empty unit); [discriminate |].
  apply measurement_values_advertised.
Qed.

Lemma cart_item_of_well_formed (raw : py_value) (i : CartItem.t) :
  cart_item_of raw = Ok (Some i) -> Spec.well_formed_item i.
Proof.
  destruct raw as [| b | z | f | s | l | d]; try discriminate.
  unfold cart_item_of. cbv zeta.
  destruct (PyStr.is_empty (py_str (or4 (dict_get "orderItemId" d) (dict_get "id" d)
                                        (dict_get "itemId" d) (PyStr "")))) eqn:Eid;
    [discriminate |].
  destruct (_extract_float (dict_get "quantity" d) (Some one)) as [q | e];
    cbn [Exn.bind]; [| discriminate].
  destruct (_extract_float _ None) as [price | e]; cbn [Exn.bind]; [| discriminate].
  intros H. apply ok_inj, some_inj in H. subst i.
  unfold Spec.well_formed_item.
  cbn [CartItem.item_id CartItem.name CartItem.unit CartItem.measurement_type
       CartItem.original_payload].
  split; [exact (not_empty _ Eid) |].
  split; [exact (not_empty _ (_extract_name_nonempty d)) |].
  split; [exact (not_empty _ (_extract_unit_nonempty d)) |].
  split; [reflexivity |].
  exact (derived_measurement_advertised _).
Qed.

Lemma cart_item_of_payload (raw : py_value) (i : CartItem.t) :
  cart_item_of raw = Ok (Some i) ->
  exists d, raw = PyDict d /\ CartItem.original_payload i = Some d.
Proof.
  destruct raw as [| b | z | f | s | l | d]; try discriminate.
  unfold cart_item_of. cbv zeta.
  destruct (PyStr.is_empty _); [discriminate |].
  destruct (_extract_float (dict_get "quantity" d) (Some one)) as [q | e];
    cbn [Exn.bind]; [| discriminate].
  destruct (_extract_float _ None) as [price | e]; cbn [Exn.bind]; [| discriminate].
  intros H. apply ok_inj, some_inj in H. subst i.
  exists d. split; reflexivity.
Qed.

Lemma py_or_truthy_r (a b : py_value) : truthy b = true -> truthy (py_or a b) = true.
Proof. intros H. unfold py_or. destruct (truthy a) eqn:E; [exact E | exact H]. Qed.

Lemma product_of_well_formed (raw : py_value) (p : ProductSummary.t) :
  product_of raw = Ok (Some p) -> Spec.well_formed_product p.
Proof.
  destruct raw as [| b | z | f | s | l | d]; try discriminate.
  unfold product_of. cbv zeta.
  match goal with |- context [PyStr.is_empty ?pid] =>
    set (product_id := pid); destruct (PyStr.is_empty product_id) eqn:Eid end;
    [discriminate |].
  destruct (_extract_float _ None) as [price | e]; cbn [Exn.bind]; [| discriminate].
  intros H. apply ok_inj, some_inj in H. subst p.
  unfold Spec.well_formed_product.
  cbn [ProductSummary.product_id ProductSummary.sku ProductSummary.name
       ProductSummary.unit ProductSummary.measurement_type].
  split; [exact (not_empty _ Eid) |].
  split.
  { eexists. split; [reflexivity |]. apply not_empty, py_str_truthy, py_or_truthy_r.
    cbn [truthy]. rewrite Eid. reflexivity. }
  split; [exact (not_empty _ (_extract_search_name_nonempty d)) |].
  destruct (_extract_search_unit d) as [unit |] eqn:Eu.
  - pose proof (_extract_search_unit_nonempty d unit Eu) as Hne. rewrite Hne.
    split.
    + intros u H. apply some_inj in H. subst u. split; [exact (not_empty _ Hne) | reflexivity].
    + intros m. apply measurement_values_advertised.
  - split; [discriminate |]. intros m. apply _infer_measurement_type_advertised.
Qed.

Lemma collect_forall {A B : Type} (f : A -> res (option B)) (P : B -> Prop) (l : list A) :
  (forall x y, f x = Ok (Some y) -> P y) ->
  forall ys, collect f l = Ok ys -> Forall P ys.
Proof.
  intros Hf. induction l as [| x l IH]; intros ys.
  - cbn [collect]. intros H. apply ok_inj in H. subst ys. constructor.
  - cbn [collect]. destruct (f x) as [o | e] eqn:Ex; cbn [Exn.bind]; [| discriminate].
    destruct (collect f l) as [rest | e]; cbn [Exn.bind]; [| discriminate].
    intros H. apply ok_inj in H. subst ys.
    specialize (IH rest eq_refl).
    destruct o as [y |]; [constructor; [exact (Hf x y Ex) | exact IH] | exact IH].
Qed.

Lemma collect_forall_in {A B : Type} (f : A -> res (option B)) (l : list A) :
  forall ys, collect f l = Ok ys ->
             Forall (fun y => exists x, x ∈ l /\ f x = Ok (Some y)) ys.
Proof.
  induction l as [| x l IH]; intros ys.
  - cbn [collect]. intros H. apply ok_inj in H. subst ys. constructor.
  - cbn [collect]. destruct (f x) as [o | e] eqn:Ex; cbn [Exn.bind]; [| discriminate].
    destruct (collect f l) as [rest | e]; cbn [Exn.bind]; [| discriminate].
    intros H. apply ok_inj in H. subst ys.
    assert (Hrest : Forall (fun y => exists x0, x0 ∈ x :: l /\ f x0 = Ok (Some y)) rest).
    { eapply Forall_impl; [exact (IH rest eq_refl) |].
      intros y (x0 & Hin & Hy). exists x0. split; [right; exact Hin | exact Hy]. }
    destruct o as [y |]; [| exact Hrest].
    constructor; [| exact Hrest]. exists x. split; [left | exact Ex].
Qed.

Lemma iterate_collect_forall {A : Type} (f : py_value -> res (option A)) (P : A -> Prop)
    (v : py_value) (ys : list A) :
  (forall x y, f x = Ok (Some y) -> P y) ->
  Exn.bind (iterate v) (collect f) = Ok ys -> Forall P ys.
Proof.
  intros Hf. unfold iterate. destruct (py_iter v) as [l |]; cbn [Exn.bind]; [| discriminate].
  apply collect_forall, Hf.
Qed.

(** X3: whatever [_parse_cart_items] is given, every cart item it
    returns has a non-empty item id, name and unit and the measurement
    type of its unit, one of the client's [measurement_types] ([piece]
    when the unit is not in the table); and it was read from one of
    the records of the payload: its [original_payload] is that record,
    and the item is what the loop makes of that record. *)
Theorem cart_items_are_well_formed (data : py_value) (items : list CartItem.t) :
  _parse_cart_items data = Ok items ->
  Forall (fun i => Spec.well_formed_item i /\ Spec.read_from (Spec.records_of data) i) items.
Proof.
  unfold _parse_cart_items.
  destruct (negb (truthy data)).
  { intros H. apply ok_inj in H. subst items. constructor. }
  cbv zeta. intros H.
  assert (Hall : Forall (fun i => exists raw, raw ∈ Spec.records_of data
                                             /\ cart_item_of raw = Ok (Some i)) items).
  { revert H. unfold Spec.records_of, Spec.cart_records, iterate.
    destruct data as [| b | z | f | s | l | d]; cbn [py_iter Exn.bind default];
      try apply collect_forall_in.
    rewrite or3_first_truthy.
    destruct (py_iter _) as [l |]; cbn [Exn.bind default]; [| discriminate].
    apply collect_forall_in. }
  eapply Forall_impl; [exact Hall |].
  intros i (raw & Hin & Hi). split; [exact (cart_item_of_well_formed raw i Hi) |].
  destruct (cart_item_of_payload raw i Hi) as (d & -> & Hd).
  exists d. split; [exact Hin |]. split; [exact Hd | exact Hi].
Qed.

Lemma cart_items_are_well_formed_witness :
  let record := [("id", PyInt 7); ("uom", PyStr "caja")] in
  let data := PyDict [("orderItems", PyList [PyDict record; PyDict [("uom", PyStr "kg")]])] in
  let item := CartItem.mk "7" "" "Producto" one "CAJA" "piece" None (Some record) in
  Spec.records_of data = [PyDict record; PyDict [("uom", PyStr "kg")]]
  /\ Forall (fun i => Spec.well_formed_item i /\ Spec.read_from (Spec.records_of data) i)
            [item].
Proof.
  intros record data item. split; [reflexivity |].
  apply (cart_items_are_well_formed data). vm_compute. reflexivity.
Defined.

(** X4: whatever [_parse_search_results] is given, every product it
    returns has a non-empty product id, SKU and name; its unit, when it
    has one, is not empty and alone decides the measurement type (the
    table entry of the unit, [None] for a unit outside the table: the
    name is not consulted); and its measurement type, when it has one,
    is one of the client's [measurement_types]. *)
Theorem search_results_are_well_formed (data : py_value) (products : list ProductSummary.t) :
  _parse_search_results data = Ok products -> Forall Spec.well_formed_product products.
Proof.
  unfold _parse_search_results.
  destruct (negb (truthy data)).
  - intros H. apply ok_inj in H. subst products. constructor.
  - destruct data as [| b | z | f | s | l | d];
      try (intros H; apply ok_inj in H; subst products; constructor).
    + apply collect_forall, product_of_well_formed.
    + cbv zeta. apply iterate_collect_forall, product_of_well_formed.
Qed.

Lemma search_results_are_well_formed_witness :
  Forall Spec.well_formed_product
    [ProductSummary.mk "998877" (Some "998877") "Leche entera 1 L" None None (Some "volume")
                       None PyNone;
     ProductSummary.mk "12" (Some "A-12") "Refresco 2 L" None (Some "CAJA") None None
                       (PyStr "Marca")].
Proof.
  apply (search_results_are_well_formed
           (PyDict [("catalogEntryView",
                     PyList [PyDict [("partNumber", PyStr "998877");
                                     ("name", PyStr "Leche entera 1 L")];
                             PyNone;
                             PyDict [("name", PyStr "Sin identidad")];
                             PyDict [("uniqueID", PyInt 12); ("sku", PyStr "A-12");
                                     ("name", PyStr "Refresco 2 L"); ("uom", PyStr "caja");
                                     ("brand", PyStr "Marca")]])])).
  vm_compute. reflexivity.
Defined.

(** ** The float a run of digits reads as *)

Lemma shr_1_nonneg (mrs : shr_record) : (0 <= shr_m mrs)%Z -> (0 <= shr_m (shr_1 mrs))%Z.
Proof.
  destruct mrs as [m r s]. cbn [shr_m]. intros H.
  destruct m as [| p | p]; [| destruct p | lia]; cbn [shr_1 shr_m]; lia.
Qed.

Lemma iter_pos_shr_1_nonneg (p : positive) (mrs : shr_record) :
  (0 <= shr_m mrs)%Z -> (0 <= shr_m (SpecFloat.iter_pos shr_1 p mrs))%Z.
Proof.
  revert mrs. induction p as [p IH | p IH |]; intros mrs H; cbn [SpecFloat.iter_pos].
  - apply IH, IH, shr_1_nonneg, H.
  - apply IH, IH, H.
  - apply shr_1_nonneg, H.
Qed.

Lemma shr_fexp_nonneg (m e : Z) (l : location) :
  (0 <= m)%Z -> (0 <= shr_m (fst (shr_fexp PyFloat.prec PyFloat.emax m e l)))%Z.
Proof.
  intros H. unfold shr_fexp, shr.
  assert (H0 : (0 <= shr_m (shr_record_of_loc m l))%Z).
  { destruct l as [| []]; exact H. }
  destruct (_ - e)%Z as [| p | p]; cbn [fst]; [exact H0 | | exact H0].
  apply iter_pos_shr_1_nonneg, H0.
Qed.

Lemma round_nearest_even_nonneg (m : Z) (l : location) :
  (0 <= m)%Z -> (0 <= round_nearest_even m l)%Z.
Proof.
  intros H. destruct l as [| []]; cbn [round_nearest_even]; [lia | | lia | lia].
  destruct (Z.even m); lia.
Qed.

Lemma binary_round_aux_not_negative (m e : Z) (l : location) :
  (0 <= m)%Z ->
  Spec.not_negative (binary_round_aux PyFloat.prec PyFloat.emax false m e l) = true.
Proof.
  intros H. unfold binary_round_aux.
  pose proof (shr_fexp_nonneg m e l H) as H1.
  destruct (shr_fexp PyFloat.prec PyFloat.emax m e l) as [mrs' e']. cbn [fst] in H1.
  pose proof (shr_fexp_nonneg _ e' loc_Exact
                (round_nearest_even_nonneg _ (loc_of_shr_record mrs') H1)) as H2.
  destruct (shr_fexp PyFloat.prec PyFloat.emax _ e' loc_Exact) as [mrs'' e''].
  cbn [fst] in H2.
  destruct (shr_m mrs'') as [| p | p]; [reflexivity | | lia].
  destruct (e'' <=? _)%Z; reflexivity.
Qed.

Lemma SFdiv_not_negative (a b : positive) :
  Spec.not_negative (SFdiv PyFloat.prec PyFloat.emax (S754_finite false a 0)
                           (S754_finite false b 0)) = true.
Proof.
  unfold SFdiv, SFdiv_core_binary.
  set (e' := Z.min _ _). set (s := (0 - 0 - e')%Z).
  set (m' := match s with Z0 => Zpos a | Zpos _ => Z.shiftl (Zpos a) s | Zneg _ => 0%Z end).
  assert (Hm : (0 <= m')%Z).
  { subst m'. destruct s as [| p | p]; [lia | | lia]. apply Z.shiftl_nonneg. lia. }
  pose proof (Z.div_pos m' (Zpos b) Hm ltac:(lia)) as Hq.
  unfold Z.div in Hq.
  destruct (Z.div_eucl m' (Zpos b)) as [q r].
  apply binary_round_aux_not_negative, Hq.
Qed.

Lemma of_decimal_not_negative (n e : Z) :
  Spec.not_negative (PyFloat.of_decimal false n e) = true.
Proof.
  unfold PyFloat.of_decimal, PyFloat.of_ratio.
  destruct (0 <=? e)%Z.
  - destruct (n * 10 ^ e)%Z; try reflexivity. apply SFdiv_not_negative.
  - destruct n; try reflexivity. destruct (10 ^ (- e))%Z; try reflexivity.
    apply SFdiv_not_negative.
Qed.

Lemma numeral_not_float_space (c : ascii) :
  Spec.is_numeral c = true -> PyFloat.is_float_space c = false.
Proof. each_char c. Qed.

Lemma numeral_not_underscore (c : ascii) :
  Spec.is_numeral c = true -> PyStr.is_code 95 c = false.
Proof. each_char c. Qed.

Lemma decimal_numeral (c : ascii) : PyStr.is_decimal c = true -> Spec.is_numeral c = true.
Proof. each_char c. Qed.

Lemma split_sign_digit (c : ascii) (s : string) :
  PyStr.is_decimal c = true -> PyFloat.split_sign (String c s) = (false, String c s).
Proof. each_char c. Qed.

Lemma digit_not_special (c : ascii) :
  PyStr.is_decimal c = true ->
  Ascii.eqb (PyStr.lower_char c) "i" = false /\ Ascii.eqb (PyStr.lower_char c) "n" = false.
Proof.
  destruct c as [[] [] [] [] [] [] [] []]; vm_compute; intros H;
    first [discriminate H | split; reflexivity].
Qed.

Lemma forallb_append (p : ascii -> bool) (a b : string) :
  PyStr.forallb p (a +:+ b) = PyStr.forallb p a && PyStr.forallb p b.
Proof.
  induction a as [| c a IH]; [rewrite append_empty; reflexivity |].
  rewrite append_cons. cbn [PyStr.forallb]. rewrite IH, andb_assoc. reflexivity.
Qed.

Lemma strip_numerals (s : string) :
  PyStr.forallb Spec.is_numeral s = true -> PyStr.strip_by PyFloat.is_float_space s = s.
Proof.
  intros H.
  assert (Hns : PyStr.forallb (fun c => negb (PyFloat.is_float_space c)) s = true).
  { revert H. apply forallb_impl. intros c Hc. rewrite (numeral_not_float_space c Hc).
    reflexivity. }
  unfold PyStr.strip_by.
  assert (Hspan : PyStr.span PyFloat.is_float_space s = ("", s)).
  { destruct s as [| c s]; [reflexivity |]. cbn [PyStr.forallb PyStr.span] in *.
    apply andb_prop in Hns as [Hc _].
    destruct (PyFloat.is_float_space c); [discriminate | reflexivity]. }
  rewrite Hspan. cbn [snd]. apply rstrip_by_none, Hns.
Qed.

Lemma drop_underscores_numerals (s : string) (prev : option ascii) :
  PyStr.forallb Spec.is_numeral s = true ->
  match prev with Some p => PyStr.is_code 95 p = false | None => True end ->
  PyFloat.drop_underscores prev s = Some s.
Proof.
  revert prev. induction s as [| c s IH]; intros prev Hs Hprev.
  - cbn [PyFloat.drop_underscores]. destruct prev as [p |]; [rewrite Hprev |]; reflexivity.
  - cbn [PyStr.forallb] in Hs. apply andb_prop in Hs as [Hc Hs].
    cbn [PyFloat.drop_underscores]. rewrite (numeral_not_underscore c Hc).
    assert (Hu : match prev with Some p => PyStr.is_code 95 p | None => false end = false).
    { destruct prev as [p |]; [exact Hprev | reflexivity]. }
    rewrite Hu. cbn [andb].
    rewrite (IH (Some c) Hs (numeral_not_underscore c Hc)). reflexivity.
Qed.

Lemma parse_unsigned_number (ip fp : string) :
  PyStr.forallb PyStr.is_decimal ip = true ->
  PyStr.is_empty ip = false ->
  PyStr.forallb PyStr.is_decimal fp = true ->
  PyFloat.parse_unsigned false (ip +:+ (if PyStr.is_empty fp then "" else String "." fp))
  = Some (PyFloat.of_decimal false (PyFloat.digits_value 0 (ip +:+ fp))
                             (0 - Z.of_nat (String.length fp))).
Proof.
  intros Hip Hne Hfp.
  set (r := if PyStr.is_empty fp then "" else String "." fp).
  assert (Hstop : Spec.stops PyStr.is_decimal r).
  { subst r. destruct (PyStr.is_empty fp); [exact I | reflexivity]. }
  assert (Hspan : PyStr.span PyStr.is_decimal (ip +:+ r) = (ip, r))
    by exact (span_append _ ip r Hip Hstop).
  assert (Hspecial : String.eqb (PyStr.lower (ip +:+ r)) "inf" = false
                     /\ String.eqb (PyStr.lower (ip +:+ r)) "infinity" = false
                     /\ String.eqb (PyStr.lower (ip +:+ r)) "nan" = false).
  { destruct ip as [| c ip]; [discriminate |]. rewrite append_cons.
    cbn [PyStr.forallb] in Hip. apply andb_prop in Hip as [Hc _].
    destruct (digit_not_special c Hc) as [Hi Hn].
    unfold PyStr.lower. cbn [PyStr.map_chars String.eqb]. rewrite Hi, Hn. repeat split. }
  destruct Hspecial as (H1 & H2 & H3).
  unfold PyFloat.parse_unsigned. cbv zeta. rewrite H1, H2, H3. cbn [orb].
  rewrite Hspan. subst r.
  destruct fp as [| d fp].
  - cbn [PyStr.is_empty]. rewrite Hne. cbn [andb PyFloat.parse_exponent]. reflexivity.
  - cbn [PyStr.is_empty]. rewrite (span_all _ _ Hfp). rewrite Hne.
    cbn [andb PyFloat.parse_exponent]. reflexivity.
Qed.

Lemma of_str_number (ip fp : string) :
  PyStr.forallb PyStr.is_decimal ip = true ->
  PyStr.is_empty ip = false ->
  PyStr.forallb PyStr.is_decimal fp = true ->
  PyFloat.of_str (ip +:+ (if PyStr.is_empty fp then "" else String "." fp))
  = Some (PyFloat.of_decimal false (PyFloat.digits_value 0 (ip +:+ fp))
                             (0 - Z.of_nat (String.length fp))).
Proof.
  intros Hip Hne Hfp.
  pose proof (parse_unsigned_number ip fp Hip Hne Hfp) as Hp.
  set (t := ip +:+ (if PyStr.is_empty fp then "" else String "." fp)) in *.
  assert (Hnum : PyStr.forallb Spec.is_numeral t = true).
  { subst t. rewrite forallb_append. apply andb_true_intro. split.
    - revert Hip. apply forallb_impl, decimal_numeral.
    - destruct (PyStr.is_empty fp); [reflexivity |]. cbn [PyStr.forallb].
      revert Hfp. apply forallb_impl, decimal_numeral. }
  unfold PyFloat.of_str. rewrite (strip_numerals t Hnum).
  rewrite (drop_underscores_numerals t None Hnum I).
  assert (Hsign : PyFloat.split_sign t = (false, t)).
  { subst t. destruct ip as [| c ip]; [discriminate |]. rewrite append_cons.
    cbn [PyStr.forallb] in Hip. apply andb_prop in Hip as [Hc _].
    apply split_sign_digit, Hc. }
  rewrite Hsign. exact Hp.
Qed.

Lemma separator_to_dot (c : ascii) :
  Regex.is_separator c = true -> (if PyStr.is_code 44 c then "."%char else c) = "."%char.
Proof. each_char c. Qed.

(** The group [value] of a match is digits, or digits, a period or a
    comma, and digits. *)
Lemma match_number_unit_value (s value word : string) :
  Regex.match_number_unit s = Some (value, word) ->
  exists ip fp,
    PyStr.forallb PyStr.is_decimal ip = true
    /\ PyStr.is_empty ip = false
    /\ PyStr.forallb PyStr.is_decimal fp = true
    /\ PyStr.comma_to_dot value = ip +:+ (if PyStr.is_empty fp then "" else String "." fp).
Proof.
  unfold Regex.match_number_unit.
  destruct (PyStr.span PyStr.is_decimal s) as [ip r1] eqn:Es.
  apply span_spec in Es as [_ Hip].
  destruct (PyStr.is_empty ip) eqn:Hne; [discriminate |].
  assert (Hplain : PyStr.comma_to_dot ip = ip +:+ "").
  { rewrite append_empty_r. apply comma_to_dot_decimal, Hip. }
  destruct r1 as [| c r].
  - destruct (PyStr.span PyStr.is_space "") as [blank r3].
    destruct (PyStr.span Regex.is_unit_letter r3) as [unit rest].
    destruct (PyStr.is_empty unit); [discriminate |].
    intros H. injection H as <- _. exists ip, "". repeat split; assumption.
  - destruct (PyStr.span PyStr.is_decimal r) as [frac r'] eqn:Ef.
    apply span_spec in Ef as [_ Hfrac].
    destruct (Regex.is_separator c) eqn:Hsep; cbn [andb].
    + destruct (PyStr.is_empty frac) eqn:Hfe; cbn [negb].
      * destruct (PyStr.span PyStr.is_space (String c r)) as [blank r3].
        destruct (PyStr.span Regex.is_unit_letter r3) as [unit rest].
        destruct (PyStr.is_empty unit); [discriminate |].
        intros H. injection H as <- _. exists ip, "". repeat split; assumption.
      * destruct (PyStr.span PyStr.is_space r') as [blank r3].
        destruct (PyStr.span Regex.is_unit_letter r3) as [unit rest].
        destruct (PyStr.is_empty unit); [discriminate |].
        intros H. injection H as <- _. exists ip, frac. rewrite Hfe.
        repeat split; try assumption.
        rewrite comma_to_dot_append, (comma_to_dot_decimal ip Hip).
        unfold PyStr.comma_to_dot at 1. cbn [PyStr.map_chars].
        rewrite (separator_to_dot c Hsep).
        fold (PyStr.comma_to_dot frac). rewrite (comma_to_dot_decimal frac Hfrac).
        reflexivity.
    + destruct (PyStr.span PyStr.is_space (String c r)) as [blank r3].
      destruct (PyStr.span Regex.is_unit_letter r3) as [unit rest].
      destruct (PyStr.is_empty unit); [discriminate |].
      intros H. injection H as <- _. exists ip, "". repeat split; assumption.
Qed.

Lemma search_found {A : Type} (match_at : string -> option A) (s : string) (r : A) :
  Regex.search match_at s = Some r -> exists rest, match_at rest = Some r.
Proof.
  intros H. destruct (search_leftmost match_at s r H) as (before & rest & _ & Hm & _).
  exists rest. exact Hm.
Qed.

(** The number the pattern reads is always a float, never negative. *)
Lemma search_number_unit_quantity (text value word : string) :
  Regex.search_number_unit text = Some (value, word) ->
  exists q, PyFloat.of_str (PyStr.comma_to_dot value) = Some q
            /\ Spec.not_negative q = true.
Proof.
  intros H. apply search_found in H as [rest H].
  destruct (match_number_unit_value rest value word H) as (ip & fp & Hip & Hne & Hfp & ->).
  rewrite (of_str_number ip fp Hip Hne Hfp).
  eexists. split; [reflexivity | apply of_decimal_not_negative].
Qed.

Lemma match_product_id_word_chars (s word : string) :
  Regex.match_product_id s = Some word -> PyStr.forallb PyStr.is_word word = true.
Proof.
  unfold Regex.match_product_id.
  destruct (Regex.strip_literal_nocase "product_id" s) as [r1 |]; [| discriminate].
  destruct (PyStr.span PyStr.is_space r1) as [blank r2].
  destruct r2 as [| c r3]; [discriminate |].
  destruct (PyStr.is_code 58 c || PyStr.is_code 61 c); [| discriminate].
  destruct (PyStr.span PyStr.is_space r3) as [blank' r4].
  destruct (PyStr.span PyStr.is_word r4) as [w rest] eqn:Ew.
  apply span_spec in Ew as [_ Hw].
  destruct (PyStr.is_empty w); [discriminate |].
  intros H. injection H as <-. exact Hw.
Qed.

Lemma match_product_id_other_letter (c : ascii) (s : string) :
  Ascii.eqb (PyStr.lower_char c) "p" = false -> Regex.match_product_id (String c s) = None.
Proof.
  intros H. unfold Regex.match_product_id. cbn [Regex.strip_literal_nocase].
  change (PyStr.lower_char "p") with "p"%char.
  rewrite Ascii.eqb_sym, H. reflexivity.
Qed.

(** X5: the text parser returns for every text.  Its reading has a
    quantity exactly when it has a unit; the quantity is never negative
    nor NaN; the unit is never empty and the measurement type is the
    table entry of the unit; the product id is a non-empty run of word
    characters.  The patterns read no sign: a leading character that
    is neither a digit nor the letter p, a minus sign for one, changes
    nothing. *)
Theorem text_reading_is_well_formed :
  (forall text, exists p, Todo._parse_text text = Ok p /\ Spec.well_formed_reading p)
  /\ (forall c text,
        PyStr.is_decimal c = false ->
        Ascii.eqb (PyStr.lower_char c) "p" = false ->
        Todo._parse_text (String c text) = Todo._parse_text text).
Proof.
  split.
  - intros text. destruct (_parse_text_fields text) as (p & Hp & Hpid & Hf).
    exists p. split; [exact Hp |].
    unfold Spec.well_formed_reading.
    assert (Hprod : forall pid, ParsedText.product_id p = Some pid ->
              pid <> "" /\ PyStr.forallb PyStr.is_word pid = true).
    { intros pid H. rewrite Hpid in H. split.
      - apply not_empty, (search_product_id_word _ _ H).
      - apply search_found in H as [rest H]. exact (match_product_id_word_chars _ _ H). }
    destruct (Regex.search_number_unit text) as [[value word] |] eqn:Es.
    + destruct (search_number_unit_quantity _ _ _ Es) as (q & Hq & Hnn).
      cbn [Spec.quantity_fields] in Hf. rewrite Hq in Hf.
      apply pair_equal_spec in Hf as [Hf Hm]. apply pair_equal_spec in Hf as [Hqp Hu].
      rewrite Hqp, Hu, Hm.
      split; [split; intros _; eexists; reflexivity |].
      split; [intros q' H; apply some_inj in H; subst q'; exact Hnn |].
      split.
      { intros u H. apply some_inj in H. subst u. split; [| reflexivity].
        apply not_empty, alias_or_upper_nonempty, (search_number_unit_word _ _ _ Es). }
      split; [discriminate | exact Hprod].
    + cbn [Spec.quantity_fields] in Hf.
      apply pair_equal_spec in Hf as [Hf Hm]. apply pair_equal_spec in Hf as [Hqp Hu].
      rewrite Hqp, Hu, Hm.
      split; [split; intros [x Hx]; discriminate |].
      split; [discriminate |]. split; [discriminate |].
      split; [reflexivity | exact Hprod].
  - intros c text Hd Hp. unfold Todo._parse_text, Regex.search_number_unit,
      Regex.search_product_id.
    rewrite (search_skip _ c text (match_number_unit_not_digit c text Hd)).
    rewrite (search_skip _ c text (match_product_id_other_letter c text Hp)).
    reflexivity.
Qed.

Lemma text_reading_is_well_formed_witness :
  Todo._parse_text "-2 kg" = Todo._parse_text "2 kg"
  /\ Todo._parse_text "2 kg"
     = Ok (ParsedText.mk (Some (S754_finite false 4503599627370496 (-51)))
                         (Some "KGM") (Some "weight") None).
Proof.
  destruct text_reading_is_well_formed as [_ H].
  split; [apply H; reflexivity | vm_compute; reflexivity].
Defined.

(** ** Rounding: powers, places and shifts *)

Section Places.

Local Open Scope Q_scope.

Lemma two_not_zero : ~ 2 == 0.
Proof. intros H. discriminate H. Qed.

Lemma ten_not_zero : ~ 10 == 0.
Proof. intros H. discriminate H. Qed.

Lemma pow2_pos (e : Z) : 0 < Spec.pow2 e.
Proof. apply Qpower_0_lt. reflexivity. Qed.

Lemma pow10_pos (e : Z) : 0 < Spec.pow10 e.
Proof. apply Qpower_0_lt. reflexivity. Qed.

Lemma pow2_add (a b : Z) : Spec.pow2 (a + b) == Spec.pow2 a * Spec.pow2 b.
Proof. apply Qpower_plus, two_not_zero. Qed.

Lemma pow10_add (a b : Z) : Spec.pow10 (a + b) == Spec.pow10 a * Spec.pow10 b.
Proof. apply Qpower_plus, ten_not_zero. Qed.

Lemma pow2_succ (e : Z) : Spec.pow2 (e + 1) == 2 * Spec.pow2 e.
Proof. rewrite pow2_add. change (Spec.pow2 1) with 2. lra. Qed.

Lemma pow2_pred (e : Z) : Spec.pow2 (e - 1) == (1 # 2) * Spec.pow2 e.
Proof.
  pose proof (pow2_succ (e - 1)) as H.
  replace (e - 1 + 1)%Z with e in H by lia. lra.
Qed.

Lemma pow10_succ (e : Z) : Spec.pow10 (e + 1) == 10 * Spec.pow10 e.
Proof. rewrite pow10_add. change (Spec.pow10 1) with 10. lra. Qed.

Lemma pow2_opp (e : Z) : Spec.pow2 e * Spec.pow2 (- e) == 1.
Proof. rewrite <- pow2_add. replace (e + - e)%Z with 0%Z by lia. reflexivity. Qed.

Lemma pow10_opp (e : Z) : Spec.pow10 e * Spec.pow10 (- e) == 1.
Proof. rewrite <- pow10_add. replace (e + - e)%Z with 0%Z by lia. reflexivity. Qed.

Lemma pow2_le (a b : Z) : (a <= b)%Z -> Spec.pow2 a <= Spec.pow2 b.
Proof. intros H. apply Qpower_le_compat_l; [exact H | discriminate]. Qed.

Lemma pow10_le (a b : Z) : (a <= b)%Z -> Spec.pow10 a <= Spec.pow10 b.
Proof. intros H. apply Qpower_le_compat_l; [exact H | discriminate]. Qed.

Lemma pow2_lt (a b : Z) : (a < b)%Z -> Spec.pow2 a < Spec.pow2 b.
Proof.
  intros H. pose proof (pow2_le (a + 1) b ltac:(lia)) as Hle.
  pose proof (pow2_succ a) as Hs. pose proof (pow2_pos a). lra.
Qed.

Lemma pow2_lt_inv (a b : Z) : Spec.pow2 a < Spec.pow2 b -> (a < b)%Z.
Proof.
  intros H. destruct (Z_lt_le_dec a b) as [Hlt | Hle]; [exact Hlt |].
  pose proof (pow2_le b a Hle). lra.
Qed.

Lemma pow2_inject (k : Z) : (0 <= k)%Z -> inject_Z (2 ^ k) == Spec.pow2 k.
Proof. intros H. exact (Zpower_Qpower 2 k H). Qed.

Lemma pow10_inject (k : Z) : (0 <= k)%Z -> inject_Z (10 ^ k) == Spec.pow10 k.
Proof. intros H. exact (Zpower_Qpower 10 k H). Qed.

Lemma inject_Z_xO (p : positive) : inject_Z (Zpos p~0) == 2 * inject_Z (Zpos p).
Proof. unfold Qeq, inject_Z. cbn. lia. Qed.

Lemma inject_Z_xI (p : positive) : inject_Z (Zpos p~1) == 2 * inject_Z (Zpos p) + 1.
Proof. unfold Qeq, inject_Z. cbn. lia. Qed.

Lemma inject_Z_lt (a b : Z) : (a < b)%Z -> inject_Z a < inject_Z b.
Proof. intros H. rewrite <- Zlt_Qlt. exact H. Qed.

Lemma inject_Z_le (a b : Z) : (a <= b)%Z -> inject_Z a <= inject_Z b.
Proof. intros H. rewrite <- Zle_Qle. exact H. Qed.

Lemma inject_Z_lt_inv (a b : Z) : inject_Z a < inject_Z b -> (a < b)%Z.
Proof. intros H. rewrite Zlt_Qlt. exact H. Qed.

Lemma inject_Z_succ (a : Z) : inject_Z (a + 1) == inject_Z a + 1.
Proof. rewrite inject_Z_plus. reflexivity. Qed.

(** *** Places *)

Lemma inbetween_bounds (x : Q) (m : Z) (l : location) :
  Spec.inbetween x m l -> inject_Z m <= x /\ x < inject_Z m + 1.
Proof. destruct l as [| []]; cbn [Spec.inbetween]; intros H; lra. Qed.

Lemma inbetween_compat (x y : Q) (m : Z) (l : location) :
  x == y -> Spec.inbetween x m l -> Spec.inbetween y m l.
Proof. intros E. destruct l as [| []]; cbn [Spec.inbetween]; intros H; lra. Qed.

Lemma inbetween_unique (x : Q) (m m' : Z) (l l' : location) :
  Spec.inbetween x m l -> Spec.inbetween x m' l' -> m = m' /\ l = l'.
Proof.
  intros H H'.
  pose proof (inbetween_bounds _ _ _ H) as [Hlo Hhi].
  pose proof (inbetween_bounds _ _ _ H') as [Hlo' Hhi'].
  assert (Hm : m = m').
  { assert (m < m' + 1)%Z by (apply inject_Z_lt_inv; rewrite inject_Z_succ; lra).
    assert (m' < m + 1)%Z by (apply inject_Z_lt_inv; rewrite inject_Z_succ; lra).
    lia. }
  subst m'. split; [reflexivity |].
  destruct l as [| []], l' as [| []]; cbn [Spec.inbetween] in H, H';
    first [reflexivity | exfalso; lra].
Qed.

Lemma at_record_compat (x y : Q) (mrs : shr_record) :
  x == y -> Spec.at_record x mrs -> Spec.at_record y mrs.
Proof. intros E [Hm H]. split; [exact Hm | exact (inbetween_compat _ _ _ _ E H)]. Qed.

Lemma at_record_of_loc (x : Q) (m : Z) (l : location) :
  (0 <= m)%Z -> Spec.inbetween x m l -> Spec.at_record x (shr_record_of_loc m l).
Proof. intros Hm H. split; destruct l as [| []]; assumption. Qed.

(** One shift to the right halves the value and keeps the place. *)
Lemma at_record_shr_1 (x : Q) (mrs : shr_record) :
  Spec.at_record x mrs -> Spec.at_record (x * (1 # 2)) (shr_1 mrs).
Proof.
  destruct mrs as [m r s]. unfold Spec.at_record. cbn [shr_m]. intros [Hm H].
  destruct m as [| p | p]; [| | lia].
  - destruct r, s; cbn [shr_1 shr_m loc_of_shr_record orb Spec.inbetween] in *;
      (split; [lia |]); change (inject_Z 0) with 0 in *; lra.
  - destruct p as [p | p |].
    + pose proof (inject_Z_xI p) as E.
      destruct r, s; cbn [shr_1 shr_m loc_of_shr_record orb Spec.inbetween] in *;
        (split; [lia |]); lra.
    + pose proof (inject_Z_xO p) as E.
      destruct r, s; cbn [shr_1 shr_m loc_of_shr_record orb Spec.inbetween] in *;
        (split; [lia |]); lra.
    + destruct r, s; cbn [shr_1 shr_m loc_of_shr_record orb Spec.inbetween] in *;
        (split; [lia |]); change (inject_Z 0) with 0 in *;
        change (inject_Z 1) with 1 in *; lra.
Qed.

Lemma at_record_iter (p : positive) (x : Q) (mrs : shr_record) :
  Spec.at_record x mrs ->
  Spec.at_record (x * Spec.pow2 (- Zpos p)) (SpecFloat.iter_pos shr_1 p mrs).
Proof.
  revert x mrs. induction p as [p IH | p IH |]; intros x mrs H; cbn [SpecFloat.iter_pos].
  - apply (at_record_compat (x * (1 # 2) * Spec.pow2 (- Zpos p) * Spec.pow2 (- Zpos p))).
    + replace (- Zpos p~1)%Z with (-1 + (- Zpos p + - Zpos p))%Z by lia.
      rewrite !pow2_add. change (Spec.pow2 (-1)) with (1 # 2). lra.
    + apply IH, IH, at_record_shr_1, H.
  - apply (at_record_compat (x * Spec.pow2 (- Zpos p) * Spec.pow2 (- Zpos p))).
    + replace (- Zpos p~0)%Z with (- Zpos p + - Zpos p)%Z by lia.
      rewrite pow2_add. lra.
    + apply IH, IH, H.
  - apply (at_record_compat (x * (1 # 2))); [reflexivity |].
    apply at_record_shr_1, H.
Qed.

(** [shr_fexp] moves a value read at exponent [e] to the exponent
    the format gives the width of its mantissa. *)
Lemma at_record_shr_fexp (x : Q) (m e : Z) (l : location) :
  (0 <= m)%Z ->
  Spec.inbetween (x * Spec.pow2 (- e)) m l ->
  exists mrs,
    shr_fexp PyFloat.prec PyFloat.emax m e l
    = (mrs, Z.max e (fexp PyFloat.prec PyFloat.emax (Zdigits2 m + e)))
    /\ Spec.at_record
         (x * Spec.pow2 (- Z.max e (fexp PyFloat.prec PyFloat.emax (Zdigits2 m + e)))) mrs.
Proof.
  intros Hm H. unfold shr_fexp, shr.
  set (f := fexp PyFloat.prec PyFloat.emax (Zdigits2 m + e)).
  destruct (f - e)%Z as [| p | p] eqn:Ek.
  - exists (shr_record_of_loc m l). replace (Z.max e f) with e by lia.
    split; [reflexivity | apply at_record_of_loc; assumption].
  - exists (SpecFloat.iter_pos shr_1 p (shr_record_of_loc m l)).
    replace (Z.max e f) with (e + Zpos p)%Z by lia.
    split; [reflexivity |].
    apply (at_record_compat (x * Spec.pow2 (- e) * Spec.pow2 (- Zpos p))).
    + replace (- (e + Zpos p))%Z with (- e + - Zpos p)%Z by lia.
      rewrite pow2_add. lra.
    + apply at_record_iter, at_record_of_loc; assumption.
  - exists (shr_record_of_loc m l). replace (Z.max e f) with e by lia.
    split; [reflexivity | apply at_record_of_loc; assumption].
Qed.

(** *** The width of a mantissa *)

Lemma digits2_pos_bounds (p : positive) :
  (2 ^ (Zpos (digits2_pos p) - 1) <= Zpos p < 2 ^ Zpos (digits2_pos p))%Z.
Proof.
  induction p as [p IH | p IH |]; cbn [digits2_pos].
  - rewrite Pos2Z.inj_succ. replace (Z.succ (Zpos (digits2_pos p)) - 1)%Z
      with (Z.succ (Zpos (digits2_pos p) - 1)) by lia.
    rewrite !Z.pow_succ_r by lia. lia.
  - rewrite Pos2Z.inj_succ. replace (Z.succ (Zpos (digits2_pos p)) - 1)%Z
      with (Z.succ (Zpos (digits2_pos p) - 1)) by lia.
    rewrite !Z.pow_succ_r by lia. lia.
  - cbn. lia.
Qed.

Lemma digits2_pos_pow2 (p : positive) :
  Spec.pow2 (Zpos (digits2_pos p) - 1) <= inject_Z (Zpos p)
  /\ inject_Z (Zpos p) < Spec.pow2 (Zpos (digits2_pos p)).
Proof.
  destruct (digits2_pos_bounds p) as [Hlo Hhi].
  rewrite <- !pow2_inject by lia. split; [apply inject_Z_le, Hlo | apply inject_Z_lt, Hhi].
Qed.

(** *** The quotient and the place of the remainder *)

Lemma ratio_div_mod (a b : Z) :
  (0 < b)%Z ->
  Spec.ratio a b == inject_Z (a / b) + Spec.ratio (a mod b) b.
Proof.
  intros Hb. unfold Spec.ratio.
  assert (Hb' : ~ inject_Z b == 0).
  { intros E. apply (inject_Z_lt 0 b) in Hb. change (inject_Z 0) with 0 in Hb. lra. }
  rewrite (Z.div_mod a b) at 1 by lia.
  rewrite inject_Z_plus, inject_Z_mult. field. exact Hb'.
Qed.

Lemma ratio_lt (r b : Z) (c : Q) :
  (0 < b)%Z -> inject_Z r < c * inject_Z b -> Spec.ratio r b < c.
Proof.
  intros Hb H. apply Qlt_shift_div_r; [| exact H].
  apply (inject_Z_lt 0 b Hb).
Qed.

Lemma ratio_gt (r b : Z) (c : Q) :
  (0 < b)%Z -> c * inject_Z b < inject_Z r -> c < Spec.ratio r b.
Proof.
  intros Hb H. apply Qlt_shift_div_l; [| exact H].
  apply (inject_Z_lt 0 b Hb).
Qed.

Lemma ratio_half (r b : Z) :
  (0 < b)%Z -> (2 * r = b)%Z -> Spec.ratio r b == 1 # 2.
Proof.
  intros Hb H. unfold Spec.ratio. subst b.
  assert (Hr : ~ inject_Z r == 0).
  { intros E. assert (0 < r)%Z by lia.
    apply (inject_Z_lt 0 r) in H. change (inject_Z 0) with 0 in H. lra. }
  rewrite inject_Z_mult. field. exact Hr.
Qed.

Lemma inbetween_new_location (a b : Z) :
  (0 <= a)%Z -> (0 < b)%Z ->
  Spec.inbetween (Spec.ratio a b) (a / b) (new_location b (a mod b)).
Proof.
  intros Ha Hb.
  pose proof (Z.mod_pos_bound a b Hb) as [Hr0 Hrb].
  pose proof (ratio_div_mod a b Hb) as E.
  set (r := (a mod b)%Z) in *. set (q := (a / b)%Z) in *.
  assert (Hloc : new_location b r
                 = if (r =? 0)%Z then loc_Exact else loc_Inexact (2 * r ?= b)%Z).
  { unfold new_location, new_location_even, new_location_odd.
    destruct (Z.even b) eqn:Ev; [reflexivity |].
    destruct (r =? 0)%Z; [reflexivity |].
    f_equal. rewrite <- Z.negb_odd in Ev. apply negb_false_iff in Ev.
    apply Z.odd_spec in Ev as [k ->].
    destruct (Z.compare_spec (2 * r + 1) (2 * k + 1)) as [C1 | C1 | C1],
             (Z.compare_spec (2 * r) (2 * k + 1)) as [C2 | C2 | C2];
      first [reflexivity | lia]. }
  rewrite Hloc. destruct (r =? 0)%Z eqn:E0.
  - apply Z.eqb_eq in E0. cbn [Spec.inbetween]. rewrite E, E0.
    unfold Spec.ratio. change (inject_Z 0) with 0. unfold Qdiv. lra.
  - apply Z.eqb_neq in E0.
    assert (H0 : 0 < Spec.ratio r b).
    { apply ratio_gt; [exact Hb |]. assert (0 < r)%Z by lia.
      apply (inject_Z_lt 0 r) in H. change (inject_Z 0) with 0 in H. lra. }
    assert (H1 : Spec.ratio r b < 1).
    { apply ratio_lt; [exact Hb |]. apply inject_Z_lt in Hrb. lra. }
    destruct (2 * r ?= b)%Z eqn:C; cbn [Spec.inbetween].
    + apply Z.compare_eq_iff in C. rewrite E, (ratio_half r b Hb C). reflexivity.
    + apply Z.compare_lt_iff in C.
      assert (Spec.ratio r b < 1 # 2).
      { apply ratio_lt; [exact Hb |]. apply inject_Z_lt in C.
        rewrite inject_Z_mult in C. change (inject_Z 2) with 2 in C. lra. }
      lra.
    + apply Z.compare_gt_iff in C.
      assert ((1 # 2) < Spec.ratio r b).
      { apply ratio_gt; [exact Hb |]. apply inject_Z_lt in C.
        rewrite inject_Z_mult in C. change (inject_Z 2) with 2 in C. lra. }
      lra.
Qed.

End Places.

(** ** Rounding: the division of [PyFloat.of_ratio] *)

Section Division.

Local Open Scope Q_scope.

Lemma fexp_eq (e : Z) :
  fexp PyFloat.prec PyFloat.emax e = Z.max (e - 53) (-1074).
Proof. reflexivity. Qed.

Lemma inject_Z_pos (a : Z) : (0 < a)%Z -> 0 < inject_Z a.
Proof. intros H. exact (inject_Z_lt 0 a H). Qed.

Lemma ratio_pos (a b : Z) : (0 < a)%Z -> (0 < b)%Z -> 0 < Spec.ratio a b.
Proof.
  intros Ha Hb. apply ratio_gt; [exact Hb |]. pose proof (inject_Z_pos a Ha). lra.
Qed.

Lemma ratio_mul (a b : Z) : (0 < b)%Z -> Spec.ratio a b * inject_Z b == inject_Z a.
Proof.
  intros Hb. unfold Spec.ratio. pose proof (inject_Z_pos b Hb). field. lra.
Qed.

Lemma ratio_scale (a b c : Z) :
  (0 < b)%Z -> Spec.ratio (a * c) b == Spec.ratio a b * inject_Z c.
Proof.
  intros Hb. unfold Spec.ratio. pose proof (inject_Z_pos b Hb).
  rewrite inject_Z_mult. field. lra.
Qed.

(** Reading a bound at exponent [e] back at exponent zero. *)
Lemma unscale (x : Q) (e : Z) : x * Spec.pow2 (- e) * Spec.pow2 e == x.
Proof. pose proof (pow2_opp e). rewrite <- Qmult_assoc, (Qmult_comm (Spec.pow2 (- e))), H. lra. Qed.

Lemma unscale_lt (x c : Q) (e : Z) :
  x * Spec.pow2 (- e) < c -> x < c * Spec.pow2 e.
Proof.
  intros H. rewrite <- (unscale x e).
  apply Qmult_lt_compat_r; [apply pow2_pos | exact H].
Qed.

Lemma unscale_le (x c : Q) (e : Z) :
  c <= x * Spec.pow2 (- e) -> c * Spec.pow2 e <= x.
Proof.
  intros H. rewrite <- (unscale x e).
  apply Qmult_le_compat_r; [exact H | apply Qlt_le_weak, pow2_pos].
Qed.

Lemma unscale_gt (x c : Q) (e : Z) :
  c < x * Spec.pow2 (- e) -> c * Spec.pow2 e < x.
Proof.
  intros H. rewrite <- (unscale x e).
  apply Qmult_lt_compat_r; [apply pow2_pos | exact H].
Qed.

Lemma unscale_eq (x c : Q) (e : Z) :
  x * Spec.pow2 (- e) == c -> x == c * Spec.pow2 e.
Proof. intros H. rewrite <- H, unscale. reflexivity. Qed.

(** The quotient [SFdiv_core_binary] computes, and its place. *)
Lemma SFdiv_core_inbetween (n d : positive) :
  exists q e' l,
    SFdiv_core_binary PyFloat.prec PyFloat.emax (Zpos n) 0 (Zpos d) 0 = (q, e', l)
    /\ e' = Z.min (fexp PyFloat.prec PyFloat.emax
                        (Zpos (digits2_pos n) - Zpos (digits2_pos d))) 0
    /\ (0 <= q)%Z
    /\ Spec.inbetween (Spec.ratio (Zpos n) (Zpos d) * Spec.pow2 (- e')) q l.
Proof.
  unfold SFdiv_core_binary. cbn [Zdigits2].
  rewrite !Z.add_0_r. change (0 - 0)%Z with 0%Z.
  set (e' := Z.min _ 0).
  assert (He' : (e' <= 0)%Z) by (subst e'; lia).
  set (m' := match (0 - e')%Z with
             | Z0 => Zpos n | Zpos _ => Z.shiftl (Zpos n) (0 - e') | Zneg _ => 0%Z
             end).
  assert (Hm' : m' = (Zpos n * 2 ^ (- e'))%Z).
  { subst m'. destruct (0 - e')%Z as [| p | p] eqn:Es.
    - replace (- e')%Z with 0%Z by lia. lia.
    - rewrite Z.shiftl_mul_pow2 by lia. f_equal. f_equal. lia.
    - lia. }
  pose proof (Z.pow_pos_nonneg 2 (- e') ltac:(lia) ltac:(lia)) as Hpow.
  assert (Hm0 : (0 <= m')%Z) by (rewrite Hm'; lia).
  pose proof (inbetween_new_location m' (Zpos d) Hm0 ltac:(lia)) as Hin.
  unfold Z.div, Z.modulo in Hin.
  destruct (Z.div_eucl m' (Zpos d)) as [q r] eqn:Ediv.
  exists q, e', (new_location (Zpos d) r).
  split; [reflexivity |]. split; [reflexivity |]. split.
  - pose proof (Z.div_pos m' (Zpos d) Hm0 ltac:(lia)) as Hq.
    unfold Z.div in Hq. rewrite Ediv in Hq. exact Hq.
  - revert Hin. apply inbetween_compat.
    rewrite Hm', ratio_scale by lia. rewrite pow2_inject by lia. reflexivity.
Qed.

Lemma canonical_exp_compat (x y : Q) (e : Z) :
  x == y -> Spec.canonical_exp x e -> Spec.canonical_exp y e.
Proof.
  intros E [[He H] | (He & Hlo & Hhi)]; [left | right];
    repeat split; first [assumption | lra].
Qed.

Lemma canonical_exp_unique (x : Q) (e e' : Z) :
  Spec.canonical_exp x e -> Spec.canonical_exp x e' -> e = e'.
Proof.
  unfold Spec.canonical_exp. change PyFloat.prec with 53%Z.
  change (emin 53 PyFloat.emax) with (-1074)%Z.
  intros [[He H] | (He & Hlo & Hhi)] [[He' H'] | (He' & Hlo' & Hhi')].
  - lia.
  - assert (e' + 53 - 1 < e + 53)%Z by (apply pow2_lt_inv; lra). lia.
  - assert (e + 53 - 1 < e' + 53)%Z by (apply pow2_lt_inv; lra). lia.
  - assert (e' + 53 - 1 < e + 53)%Z by (apply pow2_lt_inv; lra).
    assert (e + 53 - 1 < e' + 53)%Z by (apply pow2_lt_inv; lra). lia.
Qed.

(** The magnitude of a quotient from the widths of its terms. *)
Lemma ratio_above (n d : positive) :
  Spec.pow2 (Zpos (digits2_pos n) - Zpos (digits2_pos d) - 1)
  < Spec.ratio (Zpos n) (Zpos d).
Proof.
  destruct (digits2_pos_pow2 n) as [Hn _]. destruct (digits2_pos_pow2 d) as [_ Hd].
  set (dn := Zpos (digits2_pos n)) in *. set (dd := Zpos (digits2_pos d)) in *.
  pose proof (ratio_mul (Zpos n) (Zpos d) eq_refl) as E.
  pose proof (ratio_pos (Zpos n) (Zpos d) eq_refl eq_refl) as Hx.
  set (x := Spec.ratio (Zpos n) (Zpos d)) in *.
  assert (H1 : Spec.pow2 (dn - 1) < x * Spec.pow2 dd).
  { apply Qle_lt_trans with (1 := Hn). rewrite <- E.
    rewrite !(Qmult_comm x). apply Qmult_lt_compat_r; assumption. }
  replace (dn - dd - 1)%Z with (dn - 1 + - dd)%Z by lia. rewrite pow2_add.
  assert (H2 : Spec.pow2 (dn - 1) * Spec.pow2 (- dd) < x * Spec.pow2 dd * Spec.pow2 (- dd)).
  { apply Qmult_lt_compat_r; [apply pow2_pos | exact H1]. }
  pose proof (pow2_opp dd) as Ho.
  rewrite <- Qmult_assoc, Ho in H2. lra.
Qed.

(** The exponent and the place from which [PyFloat.of_ratio] rounds:
    they depend on the quotient alone. *)
Lemma of_ratio_places (neg : bool) (n d : positive) :
  exists e m l,
    Spec.canonical_exp (Spec.ratio (Zpos n) (Zpos d)) e
    /\ (0 <= m)%Z
    /\ Spec.inbetween (Spec.ratio (Zpos n) (Zpos d) * Spec.pow2 (- e)) m l
    /\ PyFloat.of_ratio neg (Zpos n) (Zpos d) = Spec.rounded neg m l e.
Proof.
  destruct (SFdiv_core_inbetween n d) as (q & e' & l & Hcore & He' & Hq & Hin).
  destruct (at_record_shr_fexp _ q e' l Hq Hin) as (mrs & Hshr & Hq1 & Hin1).
  set (x := Spec.ratio (Zpos n) (Zpos d)) in *.
  set (e1 := Z.max e' (fexp PyFloat.prec PyFloat.emax (Zdigits2 q + e'))) in *.
  exists e1, (shr_m mrs), (loc_of_shr_record mrs).
  split; [| split; [exact Hq1 | split; [exact Hin1 |]]].
  - pose proof (ratio_above n d) as Habove. fold x in Habove.
    set (k := (Zpos (digits2_pos n) - Zpos (digits2_pos d))%Z) in *.
    rewrite fexp_eq in He'.
    destruct (inbetween_bounds _ _ _ Hin) as [Hlo Hhi].
    apply unscale_le in Hlo. apply unscale_lt in Hhi.
    unfold Spec.canonical_exp. change PyFloat.prec with 53%Z.
    change (emin 53 PyFloat.emax) with (-1074)%Z.
    destruct q as [| p | p]; [| | lia].
    + change (inject_Z 0) with 0 in Hhi.
      assert (Hk : (k - 1 < e')%Z) by (apply pow2_lt_inv; lra).
      assert (E1 : e1 = (-1074)%Z).
      { subst e1. cbn [Zdigits2]. rewrite fexp_eq. lia. }
      left. split; [exact E1 |]. rewrite E1.
      assert (Spec.pow2 e' <= Spec.pow2 (-1074 + 53)) by (apply pow2_le; lia). lra.
    + destruct (digits2_pos_bounds p) as [Hplo Hphi].
      set (dq := Zpos (digits2_pos p)) in *.
      assert (Hlo' : Spec.pow2 (dq - 1 + e') <= x).
      { rewrite pow2_add, <- pow2_inject by lia.
        apply Qle_trans with (2 := Hlo).
        apply Qmult_le_compat_r; [apply inject_Z_le, Hplo | apply Qlt_le_weak, pow2_pos]. }
      assert (Hhi' : x < Spec.pow2 (dq + e')).
      { rewrite pow2_add, <- pow2_inject by lia.
        apply Qlt_le_trans with (1 := Hhi).
        apply Qmult_le_compat_r; [| apply Qlt_le_weak, pow2_pos].
        rewrite <- inject_Z_succ. apply inject_Z_le. lia. }
      assert (Hk : (k - 1 < dq + e')%Z) by (apply pow2_lt_inv; lra).
      assert (E1 : e1 = Z.max (dq + e' - 53) (-1074)).
      { subst e1. cbn [Zdigits2]. fold dq. rewrite fexp_eq. lia. }
      destruct (Z_lt_le_dec (-1074) (dq + e' - 53)) as [Hn | Hs].
      * right. replace e1 with (dq + e' - 53)%Z by lia.
        split; [exact Hn |].
        replace (dq + e' - 53 + 53 - 1)%Z with (dq - 1 + e')%Z by lia.
        replace (dq + e' - 53 + 53)%Z with (dq + e')%Z by lia.
        split; assumption.
      * left. replace e1 with (-1074)%Z by lia. split; [reflexivity |].
        assert (Spec.pow2 (dq + e') <= Spec.pow2 (-1074 + 53)) by (apply pow2_le; lia).
        lra.
  - unfold PyFloat.of_ratio, SFdiv. rewrite Hcore.
    unfold binary_round_aux. rewrite Hshr. unfold Spec.rounded.
    destruct neg; reflexivity.
Qed.

(** The float nearest to a quotient depends on the quotient, not on
    the fraction that stands for it. *)
Lemma of_ratio_compat (neg : bool) (n d n' d' : positive) :
  Spec.ratio (Zpos n) (Zpos d) == Spec.ratio (Zpos n') (Zpos d') ->
  PyFloat.of_ratio neg (Zpos n) (Zpos d) = PyFloat.of_ratio neg (Zpos n') (Zpos d').
Proof.
  intros E.
  destruct (of_ratio_places neg n d) as (e & m & l & He & _ & Hin & ->).
  destruct (of_ratio_places neg n' d') as (e' & m' & l' & He' & _ & Hin' & ->).
  assert (e' = e).
  { apply (canonical_exp_unique _ _ _ He'). exact (canonical_exp_compat _ _ _ E He). }
  subst e'.
  assert (Es : Spec.ratio (Zpos n) (Zpos d) * Spec.pow2 (- e)
               == Spec.ratio (Zpos n') (Zpos d') * Spec.pow2 (- e))
    by (rewrite E; reflexivity).
  destruct (inbetween_unique _ _ _ _ _ Hin' (inbetween_compat _ _ _ _ Es Hin)) as [-> ->].
  reflexivity.
Qed.

End Division.

(** ** Rounding: the quotients that round to a given float *)

Section Nearest.

Local Open Scope Q_scope.

Lemma scale_lt (x c : Q) (e : Z) :
  x < c * Spec.pow2 e -> x * Spec.pow2 (- e) < c.
Proof.
  intros H. pose proof (pow2_opp e) as Ho.
  assert (H' : x * Spec.pow2 (- e) < c * Spec.pow2 e * Spec.pow2 (- e))
    by (apply Qmult_lt_compat_r; [apply pow2_pos | exact H]).
  rewrite <- Qmult_assoc, Ho in H'. lra.
Qed.

Lemma scale_gt (x c : Q) (e : Z) :
  c * Spec.pow2 e < x -> c < x * Spec.pow2 (- e).
Proof.
  intros H. pose proof (pow2_opp e) as Ho.
  assert (H' : c * Spec.pow2 e * Spec.pow2 (- e) < x * Spec.pow2 (- e))
    by (apply Qmult_lt_compat_r; [apply pow2_pos | exact H]).
  rewrite <- Qmult_assoc, Ho in H'. lra.
Qed.

Lemma mul_pow2_le (a b : Q) (e : Z) : a <= b -> a * Spec.pow2 e <= b * Spec.pow2 e.
Proof. intros H. apply Qmult_le_compat_r; [exact H | apply Qlt_le_weak, pow2_pos]. Qed.

(** A mantissa read off a place: the integer below a value that
    lies within a half of [m] is [m] or [m - 1]. *)
Lemma round_within_half (t : Q) (m m1 : Z) (l1 : location) :
  inject_Z m - (1 # 2) < t -> t < inject_Z m + (1 # 2) ->
  Spec.inbetween t m1 l1 ->
  round_nearest_even m1 l1 = m.
Proof.
  intros Hlo Hhi Hin.
  destruct (inbetween_bounds _ _ _ Hin) as [H1 H2].
  assert (Hle : (m1 < m + 1)%Z).
  { apply inject_Z_lt_inv. rewrite inject_Z_succ. lra. }
  assert (Hge : (m < m1 + 2)%Z).
  { apply inject_Z_lt_inv. rewrite inject_Z_plus. change (inject_Z 2) with 2. lra. }
  assert (Hm : m1 = m \/ m1 = (m - 1)%Z) by lia.
  destruct Hm as [-> | ->].
  - destruct l1 as [| []]; cbn [Spec.inbetween round_nearest_even] in *;
      first [reflexivity | exfalso; lra].
  - assert (E : inject_Z (m - 1) == inject_Z m - 1).
    { unfold Z.sub. rewrite inject_Z_plus. reflexivity. }
    destruct l1 as [| []]; cbn [Spec.inbetween round_nearest_even] in *;
      first [lia | exfalso; lra].
Qed.

Lemma rounded_canonical (m : positive) (e : Z) :
  bounded PyFloat.prec PyFloat.emax m e = true ->
  Spec.rounded false (Zpos m) loc_Exact e = S754_finite false m e.
Proof.
  unfold bounded, canonical_mantissa. intros H.
  apply andb_prop in H as [Hc He]. apply Z.eqb_eq in Hc.
  unfold Spec.rounded, shr_fexp. cbn [round_nearest_even Zdigits2].
  rewrite Hc, Z.sub_diag. cbn [shr shr_record_of_loc shr_m]. rewrite He. reflexivity.
Qed.

(** Every quotient nearer to a binary64 value than to its neighbours
    rounds to that value.  The neighbour below a power of two is at
    half the distance. *)
Lemma of_ratio_nearest (m : positive) (e : Z) (n d : positive) :
  bounded PyFloat.prec PyFloat.emax m e = true ->
  Spec.value m e - (1 # 2) * Spec.pow2 e < Spec.ratio (Zpos n) (Zpos d) ->
  Spec.ratio (Zpos n) (Zpos d) < Spec.value m e + (1 # 2) * Spec.pow2 e ->
  (Zpos m = (2 ^ 52)%Z -> (-1074 < e)%Z ->
   Spec.value m e - (1 # 4) * Spec.pow2 e < Spec.ratio (Zpos n) (Zpos d)) ->
  PyFloat.of_ratio false (Zpos n) (Zpos d) = S754_finite false m e.
Proof.
  intros Hb Hlo Hhi Hquarter.
  destruct (of_ratio_places false n d) as (e1 & m1 & l1 & Hcan & Hm1 & Hin & ->).
  set (y := Spec.ratio (Zpos n) (Zpos d)) in *.
  pose proof Hb as Hb'. unfold bounded, canonical_mantissa in Hb'.
  apply andb_prop in Hb' as [Hc He]. apply Z.eqb_eq in Hc. apply Z.leb_le in He.
  rewrite fexp_eq in Hc. change (PyFloat.emax - PyFloat.prec)%Z with 971%Z in He.
  destruct (digits2_pos_bounds m) as [Hmlo Hmhi].
  set (dm := Zpos (digits2_pos m)) in *.
  pose proof (pow2_pos e) as Hu.
  unfold Spec.value in *. set (u := Spec.pow2 e) in *.
  set (M := inject_Z (Zpos m)) in *.
  assert (Hdm : (dm <= 53)%Z) by lia.
  assert (Hmax : (Zpos m <= 2 ^ 53 - 1)%Z).
  { assert (2 ^ dm <= 2 ^ 53)%Z by (apply Z.pow_le_mono_r; lia). lia. }
  assert (HM : M <= inject_Z (2 ^ 53 - 1)) by (apply inject_Z_le, Hmax).
  change (inject_Z (2 ^ 53 - 1)) with (9007199254740991 # 1) in HM.
  assert (Hu53 : Spec.pow2 (e + 53) == (9007199254740992 # 1) * u).
  { rewrite pow2_add. change (Spec.pow2 53) with (9007199254740992 # 1). fold u. lra. }
  assert (Hu52 : Spec.pow2 (e + 52) == (4503599627370496 # 1) * u).
  { rewrite pow2_add. change (Spec.pow2 52) with (4503599627370496 # 1). fold u. lra. }
  assert (Hu51 : Spec.pow2 (e + 51) == (2251799813685248 # 1) * u).
  { rewrite pow2_add. change (Spec.pow2 51) with (2251799813685248 # 1). fold u. lra. }
  assert (HMu : M * u <= (9007199254740991 # 1) * u) by (apply mul_pow2_le, HM).
  assert (Hy53 : y < Spec.pow2 (e + 53)) by lra.
  destruct (Z.eq_dec (Zpos m) (2 ^ 52)%Z) as [Hpow | Hnpow].
  - (* the bottom of a binade *)
    assert (EM : M == 4503599627370496 # 1) by (subst M; rewrite Hpow; reflexivity).
    assert (EMu : M * u == (4503599627370496 # 1) * u) by (rewrite EM; reflexivity).
    assert (Edm : dm = 53%Z).
    { assert (2 ^ 52 < 2 ^ dm)%Z by lia.
      apply Z.pow_lt_mono_r_iff in H; lia. }
    destruct (Qlt_le_dec y (M * u)) as [Hbelow | Habove];
      [destruct (Z_lt_le_dec (-1074) e)%Z as [Hnorm | Hsub] |].
    + (* below the value, in the binade under it *)
      specialize (Hquarter Hpow Hnorm).
      assert (Ee1 : e1 = (e - 1)%Z).
      { apply (canonical_exp_unique _ _ _ Hcan).
        unfold Spec.canonical_exp. change PyFloat.prec with 53%Z.
        change (emin 53 PyFloat.emax) with (-1074)%Z.
        replace (e - 1 + 53)%Z with (e + 52)%Z by lia.
        replace (e + 52 - 1)%Z with (e + 51)%Z by lia.
        destruct (Z.eq_dec (e - 1) (-1074))%Z as [E | E]; [left | right].
        - split; [exact E | lra].
        - split; [lia |]. split; lra. }
      subst e1.
      assert (Hr : round_nearest_even m1 l1 = (2 ^ 53)%Z).
      { apply (round_within_half (y * Spec.pow2 (- (e - 1)))); [| | exact Hin].
        - apply scale_gt. rewrite pow2_pred. fold u.
          change (inject_Z (2 ^ 53)) with (9007199254740992 # 1). lra.
        - apply scale_lt. rewrite pow2_pred. fold u.
          change (inject_Z (2 ^ 53)) with (9007199254740992 # 1). lra. }
      unfold Spec.rounded. rewrite Hr. unfold shr_fexp.
      change (Zdigits2 (2 ^ 53)) with 54%Z. rewrite fexp_eq.
      replace (Z.max (54 + (e - 1) - 53) (-1074) - (e - 1))%Z with 1%Z by lia.
      cbn [shr shr_record_of_loc SpecFloat.iter_pos].
      change (shr_1 {| shr_m := 2 ^ 53; shr_r := false; shr_s := false |})
        with {| shr_m := 2 ^ 52; shr_r := false; shr_s := false |}.
      cbn [shr_m]. rewrite <- Hpow.
      replace (e - 1 + 1 <=? PyFloat.emax - PyFloat.prec)%Z with true
        by (symmetry; apply Z.leb_le; change (PyFloat.emax - PyFloat.prec)%Z with 971%Z; lia).
      f_equal. lia.
    + (* a subnormal exponent: the neighbour below is a step away *)
      assert (Ee1 : e1 = e).
      { apply (canonical_exp_unique _ _ _ Hcan).
        unfold Spec.canonical_exp. change PyFloat.prec with 53%Z.
        change (emin 53 PyFloat.emax) with (-1074)%Z.
        left. split; [lia | exact Hy53]. }
      subst e1.
      assert (Hr : round_nearest_even m1 l1 = Zpos m).
      { apply (round_within_half (y * Spec.pow2 (- e))); [| | exact Hin].
        - apply scale_gt. fold u M. lra.
        - apply scale_lt. fold u M. lra. }
      unfold Spec.rounded. rewrite Hr. exact (rounded_canonical m e Hb).
    + assert (Ee1 : e1 = e).
      { apply (canonical_exp_unique _ _ _ Hcan).
        unfold Spec.canonical_exp. change PyFloat.prec with 53%Z.
        change (emin 53 PyFloat.emax) with (-1074)%Z.
        replace (e + 53 - 1)%Z with (e + 52)%Z by lia.
        destruct (Z.eq_dec e (-1074))%Z as [E | E]; [left | right].
        - split; [exact E | lra].
        - split; [lia |]. split; lra. }
      subst e1.
      assert (Hr : round_nearest_even m1 l1 = Zpos m).
      { apply (round_within_half (y * Spec.pow2 (- e))); [| | exact Hin].
        - apply scale_gt. fold u M. lra.
        - apply scale_lt. fold u M. lra. }
      unfold Spec.rounded. rewrite Hr. exact (rounded_canonical m e Hb).
  - assert (Ee1 : e1 = e).
    { apply (canonical_exp_unique _ _ _ Hcan).
      unfold Spec.canonical_exp. change PyFloat.prec with 53%Z.
      change (emin 53 PyFloat.emax) with (-1074)%Z.
      replace (e + 53 - 1)%Z with (e + 52)%Z by lia.
      destruct (Z.eq_dec e (-1074))%Z as [E | E]; [left | right].
      - split; [exact E | lra].
      - split; [lia |]. split; [| lra].
        assert (Edm : dm = 53%Z) by lia.
        assert (Hge : (2 ^ 52 + 1 <= Zpos m)%Z) by (rewrite Edm in Hmlo; lia).
        apply inject_Z_le in Hge. fold M in Hge.
        change (inject_Z (2 ^ 52 + 1)) with (4503599627370497 # 1) in Hge.
        assert (HMu' : (4503599627370497 # 1) * u <= M * u) by (apply mul_pow2_le, Hge).
        lra. }
    subst e1.
    assert (Hr : round_nearest_even m1 l1 = Zpos m).
    { apply (round_within_half (y * Spec.pow2 (- e))); [| | exact Hin].
      - apply scale_gt. fold u M. lra.
      - apply scale_lt. fold u M. lra. }
    unfold Spec.rounded. rewrite Hr. exact (rounded_canonical m e Hb).
Qed.

End Nearest.

(** ** The digits [repr] prints *)

Section Digits.

Local Open Scope Q_scope.

Import PyFloatRepr.

Lemma ratio_le_l (r b : Z) (c : Q) :
  (0 < b)%Z -> c * inject_Z b <= inject_Z r -> c <= Spec.ratio r b.
Proof. intros Hb H. apply Qle_shift_div_l; [apply inject_Z_pos, Hb | exact H]. Qed.

Lemma ratio_le_r (r b : Z) (c : Q) :
  (0 < b)%Z -> inject_Z r <= c * inject_Z b -> Spec.ratio r b <= c.
Proof. intros Hb H. apply Qle_shift_div_r; [apply inject_Z_pos, Hb | exact H]. Qed.

Lemma ratio_eq (a b : Z) (c : Q) :
  (0 < b)%Z -> inject_Z a == c * inject_Z b -> Spec.ratio a b == c.
Proof.
  intros Hb H. apply Qle_antisym; [apply ratio_le_r | apply ratio_le_l]; trivial; lra.
Qed.

Lemma ratio_one (a : Z) : Spec.ratio a 1 == inject_Z a.
Proof. apply ratio_eq; [lia |]. change (inject_Z 1) with 1. lra. Qed.

Lemma pow2_Z_pos (k : Z) : (0 <= k)%Z -> (0 < 2 ^ k)%Z.
Proof. intros H. apply Z.pow_pos_nonneg; lia. Qed.

Lemma pow10_Z_pos (k : Z) : (0 <= k)%Z -> (0 < 10 ^ k)%Z.
Proof. intros H. apply Z.pow_pos_nonneg; lia. Qed.

(** The fraction [repr] starts from is the value of the float. *)
Lemma ratio_of_value (m : positive) (e : Z) :
  (0 < fst (ratio_of m e))%Z /\ (0 < snd (ratio_of m e))%Z
  /\ Spec.ratio (fst (ratio_of m e)) (snd (ratio_of m e)) == Spec.value m e.
Proof.
  unfold ratio_of, Spec.value. destruct (Z.leb_spec 0 e) as [He | He]; cbn [fst snd].
  - pose proof (pow2_Z_pos e He). split; [lia |]. split; [lia |].
    rewrite ratio_one, inject_Z_mult, pow2_inject by lia. reflexivity.
  - pose proof (pow2_Z_pos (- e) ltac:(lia)). split; [lia |]. split; [lia |].
    apply ratio_eq; [lia |]. rewrite pow2_inject by lia.
    pose proof (pow2_opp e). rewrite <- Qmult_assoc, H0. lra.
Qed.

Lemma below_pow10_spec (num den k : Z) :
  (0 < den)%Z ->
  if below_pow10 num den k then Spec.ratio num den < Spec.pow10 k
  else Spec.pow10 k <= Spec.ratio num den.
Proof.
  intros Hd. unfold below_pow10. pose proof (pow10_opp k) as Ho.
  destruct (Z.leb_spec 0 k) as [Hk | Hk].
  - destruct (Z.ltb_spec num (den * 10 ^ k)) as [H | H].
    + apply ratio_lt; [exact Hd |]. apply inject_Z_lt in H.
      rewrite inject_Z_mult, pow10_inject in H by lia. lra.
    + apply ratio_le_l; [exact Hd |]. apply inject_Z_le in H.
      rewrite inject_Z_mult, pow10_inject in H by lia. lra.
  - destruct (Z.ltb_spec (num * 10 ^ (- k)) den) as [H | H].
    + apply ratio_lt; [exact Hd |]. apply inject_Z_lt in H.
      rewrite inject_Z_mult, pow10_inject in H by lia.
      assert (H' : inject_Z num * Spec.pow10 (- k) * Spec.pow10 k
                   < inject_Z den * Spec.pow10 k)
        by (apply Qmult_lt_compat_r; [apply pow10_pos | exact H]).
      rewrite <- Qmult_assoc, (Qmult_comm (Spec.pow10 (- k))), Ho in H'. lra.
    + apply ratio_le_l; [exact Hd |]. apply inject_Z_le in H.
      rewrite inject_Z_mult, pow10_inject in H by lia.
      assert (H' : inject_Z den * Spec.pow10 k
                   <= inject_Z num * Spec.pow10 (- k) * Spec.pow10 k)
        by (apply Qmult_le_compat_r; [exact H | apply Qlt_le_weak, pow10_pos]).
      rewrite <- Qmult_assoc, (Qmult_comm (Spec.pow10 (- k))), Ho in H'. lra.
Qed.

(** The search for the decimal point ends on the power of ten just
    above the value. *)
Lemma find_decpt_spec (fuel : nat) (num den k : Z) :
  (0 < den)%Z ->
  Spec.pow10 (k - 1) <= Spec.ratio num den ->
  Spec.ratio num den < Spec.pow10 (k + Z.of_nat fuel) ->
  Spec.pow10 (find_decpt fuel num den k - 1) <= Spec.ratio num den
  /\ Spec.ratio num den < Spec.pow10 (find_decpt fuel num den k).
Proof.
  intros Hd. revert k. induction fuel as [| fuel IH]; intros k Hlo Hhi.
  - cbn [find_decpt]. rewrite Z.add_0_r in Hhi. split; assumption.
  - cbn [find_decpt]. pose proof (below_pow10_spec num den k Hd) as Hb.
    destruct (below_pow10 num den k); [split; assumption |].
    apply IH.
    + replace (k + 1 - 1)%Z with k by lia. exact Hb.
    + replace (k + 1 + Z.of_nat fuel)%Z with (k + Z.of_nat (S fuel))%Z by lia. exact Hhi.
Qed.

Lemma pow10_floor : Spec.pow10 (-324) <= Spec.pow2 (-1074).
Proof. apply Qle_bool_imp_le. vm_compute. reflexivity. Qed.

Lemma pow10_ceiling : Spec.pow2 1024 <= Spec.pow10 317.
Proof. apply Qle_bool_imp_le. vm_compute. reflexivity. Qed.

(** A binary64 value lies between the least subnormal and [2^1024]. *)
Lemma value_range (m : positive) (e : Z) :
  bounded PyFloat.prec PyFloat.emax m e = true ->
  Spec.pow2 (-1074) <= Spec.value m e /\ Spec.value m e < Spec.pow2 1024.
Proof.
  unfold bounded, canonical_mantissa. intros H.
  apply andb_prop in H as [Hc He]. apply Z.eqb_eq in Hc. apply Z.leb_le in He.
  rewrite fexp_eq in Hc. change (PyFloat.emax - PyFloat.prec)%Z with 971%Z in He.
  destruct (digits2_pos_pow2 m) as [_ Hhi].
  set (dm := Zpos (digits2_pos m)) in *.
  unfold Spec.value. set (M := inject_Z (Zpos m)) in *.
  assert (H1 : 1 <= M) by (apply (inject_Z_le 1 (Zpos m)); lia).
  pose proof (pow2_pos e) as Hu. split.
  - apply Qle_trans with (Spec.pow2 e); [apply pow2_le; lia |].
    rewrite <- (Qmult_1_l (Spec.pow2 e)) at 1. apply mul_pow2_le, H1.
  - apply Qlt_le_trans with (Spec.pow2 dm * Spec.pow2 e).
    + apply Qmult_lt_compat_r; assumption.
    + rewrite <- pow2_add. apply pow2_le. lia.
Qed.

Lemma decpt_of_spec (m : positive) (e : Z) :
  bounded PyFloat.prec PyFloat.emax m e = true ->
  let decpt := decpt_of (fst (ratio_of m e)) (snd (ratio_of m e)) in
  Spec.pow10 (decpt - 1) <= Spec.value m e /\ Spec.value m e < Spec.pow10 decpt.
Proof.
  intros Hb decpt. destruct (ratio_of_value m e) as (_ & Hden & Ex).
  destruct (value_range m e Hb) as [Hlo Hhi].
  pose proof pow10_floor. pose proof pow10_ceiling.
  rewrite <- Ex. apply find_decpt_spec; [exact Hden | |].
  - change (-323 - 1)%Z with (-324)%Z. lra.
  - change (-323 + Z.of_nat 640)%Z with 317%Z. lra.
Qed.

(** *** The digits at a given scale *)

Lemma scaled_spec (num den s : Z) :
  (0 < num)%Z -> (0 < den)%Z ->
  exists n d,
    scaled num den s = ((n / d)%Z, (n mod d)%Z, d)
    /\ (0 < n)%Z /\ (0 < d)%Z
    /\ Spec.ratio n d == Spec.ratio num den * Spec.pow10 s.
Proof.
  intros Hn Hd. unfold scaled. pose proof (pow10_opp s) as Ho.
  destruct (Z.leb_spec 0 s) as [Hs | Hs].
  - pose proof (pow10_Z_pos s Hs). exists (num * 10 ^ s)%Z, den.
    split; [reflexivity |]. split; [lia |]. split; [exact Hd |].
    rewrite ratio_scale, pow10_inject by lia. reflexivity.
  - pose proof (pow10_Z_pos (- s) ltac:(lia)). exists num, (den * 10 ^ (- s))%Z.
    split; [reflexivity |]. split; [exact Hn |]. split; [lia |].
    apply ratio_eq; [lia |].
    rewrite inject_Z_mult, pow10_inject by lia.
    pose proof (ratio_mul num den Hd) as E.
    rewrite <- E at 1.
    transitivity (Spec.ratio num den * inject_Z den * (Spec.pow10 s * Spec.pow10 (- s)));
      [rewrite Ho; lra | ring].
Qed.

Lemma nearest_spec (n d : Z) :
  (0 <= n)%Z -> (0 < d)%Z ->
  let c := nearest (n / d) (n mod d) d in
  (c = (n / d)%Z \/ c = (n / d + 1)%Z)
  /\ inject_Z c - (1 # 2) <= Spec.ratio n d
  /\ Spec.ratio n d <= inject_Z c + (1 # 2).
Proof.
  intros Hn Hd c. subst c. unfold nearest.
  pose proof (ratio_div_mod n d Hd) as E.
  pose proof (Z.mod_pos_bound n d Hd) as [Hr0 Hrd].
  set (r := (n mod d)%Z) in *. set (lo := (n / d)%Z) in *.
  assert (H0 : 0 <= Spec.ratio r d).
  { apply ratio_le_l; [exact Hd |]. apply (inject_Z_le 0) in Hr0.
    change (inject_Z 0) with 0 in Hr0. lra. }
  assert (H1 : Spec.ratio r d < 1).
  { apply ratio_lt; [exact Hd |]. apply inject_Z_lt in Hrd. lra. }
  pose proof (inject_Z_succ lo) as Es.
  destruct (Z.ltb_spec (2 * r) d) as [Hlt | Hge].
  - split; [left; reflexivity |].
    assert (Spec.ratio r d < 1 # 2).
    { apply ratio_lt; [exact Hd |]. apply inject_Z_lt in Hlt.
      rewrite inject_Z_mult in Hlt. change (inject_Z 2) with 2 in Hlt. lra. }
    lra.
  - destruct (Z.ltb_spec d (2 * r)) as [Hgt | Hle].
    + split; [right; reflexivity |].
      assert ((1 # 2) < Spec.ratio r d).
      { apply ratio_gt; [exact Hd |]. apply inject_Z_lt in Hgt.
        rewrite inject_Z_mult in Hgt. change (inject_Z 2) with 2 in Hgt. lra. }
      lra.
    + assert (Eh : Spec.ratio r d == 1 # 2) by (apply ratio_half; lia).
      destruct (Z.even lo); [split; [left; reflexivity | lra] |
                             split; [right; reflexivity | lra]].
Qed.

(** *** Reading the digits back *)

Lemma SFeqb_finite (a : PyFloat.float) (m : positive) (e : Z) :
  SFeqb a (S754_finite false m e) = true -> a = S754_finite false m e.
Proof.
  unfold SFeqb, SFcompare.
  destruct a as [s | s | | s m' e']; try (destruct s; discriminate); try discriminate.
  destruct s; [discriminate |].
  destruct (Z.compare_spec e' e) as [-> | _ | _]; try discriminate.
  destruct (Pos.compare_cont Eq m' m) eqn:C; try discriminate.
  apply (Pos.compare_eq m' m) in C. subst m'. reflexivity.
Qed.

Lemma of_decimal_zero (neg : bool) (e : Z) : PyFloat.of_decimal neg 0 e = S754_zero neg.
Proof. unfold PyFloat.of_decimal. destruct (0 <=? e)%Z; reflexivity. Qed.

(** [of_decimal] is [of_ratio] at a fraction of the decimal value. *)
Lemma of_decimal_ratio (neg : bool) (n e : Z) :
  (0 < n)%Z ->
  exists pn pd,
    PyFloat.of_decimal neg n e = PyFloat.of_ratio neg (Zpos pn) (Zpos pd)
    /\ Spec.ratio (Zpos pn) (Zpos pd) == Spec.decimal_value n e.
Proof.
  intros Hn. unfold PyFloat.of_decimal, Spec.decimal_value.
  pose proof (pow10_opp e) as Ho.
  destruct (Z.leb_spec 0 e) as [He | He].
  - pose proof (pow10_Z_pos e He) as Hp.
    destruct (n * 10 ^ e)%Z as [| pn | pn] eqn:En; [lia | | lia].
    exists pn, 1%positive. split; [reflexivity |].
    rewrite ratio_one, <- En, inject_Z_mult, pow10_inject by lia. reflexivity.
  - pose proof (pow10_Z_pos (- e) ltac:(lia)) as Hp.
    destruct n as [| pn | pn]; [lia | | lia].
    destruct (10 ^ (- e))%Z as [| pd | pd] eqn:Ed; [lia | | lia].
    exists pn, pd. split; [reflexivity |].
    apply ratio_eq; [lia |]. rewrite <- Ed, pow10_inject by lia.
    rewrite <- Qmult_assoc, Ho. lra.
Qed.

(** The float decimal digits read as depends on their value alone. *)
Lemma of_decimal_compat (neg : bool) (n e n' e' : Z) :
  (0 < n)%Z -> (0 < n')%Z ->
  Spec.decimal_value n e == Spec.decimal_value n' e' ->
  PyFloat.of_decimal neg n e = PyFloat.of_decimal neg n' e'.
Proof.
  intros Hn Hn' E.
  destruct (of_decimal_ratio neg n e Hn) as (pn & pd & -> & H).
  destruct (of_decimal_ratio neg n' e' Hn') as (pn' & pd' & -> & H').
  apply of_ratio_compat. rewrite H, H'. exact E.
Qed.

(** Seventeen digits read back: the nearest decimal of seventeen
    digits is nearer to the value than any neighbour of it. *)
Lemma seventeen_digits_read_back (m : positive) (e decpt : Z) (n d : Z) :
  bounded PyFloat.prec PyFloat.emax m e = true ->
  Spec.pow10 (decpt - 1) <= Spec.value m e ->
  (0 < n)%Z -> (0 < d)%Z ->
  Spec.ratio n d == Spec.value m e * Spec.pow10 (17 - decpt) ->
  let c := nearest (n / d) (n mod d) d in
  (0 < c)%Z /\ PyFloat.of_decimal false c (- (17 - decpt)) = S754_finite false m e.
Proof.
  intros Hb Hdec Hn Hd Et c.
  destruct (nearest_spec n d ltac:(lia) Hd) as (_ & Hclo & Hchi). fold c in Hclo, Hchi.
  rewrite Et in Hclo, Hchi.
  set (x := Spec.value m e) in *.
  pose proof (pow10_pos (decpt - 1)) as Hp1.
  (* the scale in terms of the power of ten below the value *)
  assert (Es : Spec.pow10 (decpt - 1) * Spec.pow10 (17 - decpt) == 10000000000000000 # 1).
  { rewrite <- pow10_add. replace (decpt - 1 + (17 - decpt))%Z with 16%Z by lia. reflexivity. }
  pose proof (pow10_pos (17 - decpt)) as Hs.
  pose proof (pow10_opp (17 - decpt)) as Ho.
  set (S := Spec.pow10 (17 - decpt)) in *. set (S' := Spec.pow10 (- (17 - decpt))) in *.
  assert (HT : (10000000000000000 # 1) <= x * S).
  { rewrite <- Es. apply Qmult_le_compat_r; [exact Hdec | lra]. }
  assert (Hc : (0 < c)%Z).
  { apply inject_Z_lt_inv. change (inject_Z 0) with 0. lra. }
  split; [exact Hc |].
  destruct (of_decimal_ratio false c (- (17 - decpt)) Hc) as (pn & pd & -> & Ey).
  unfold Spec.decimal_value in Ey. fold S' in Ey.
  (* the distance between the decimal and the value *)
  assert (HS' : 0 < S').
  { subst S'. apply pow10_pos. }
  assert (Hx : x == x * S * S') by (rewrite <- Qmult_assoc, Ho; lra).
  assert (Hylo : (x * S - (1 # 2)) * S' <= inject_Z c * S')
    by (apply Qmult_le_compat_r; lra).
  assert (Hyhi : inject_Z c * S' <= (x * S + (1 # 2)) * S')
    by (apply Qmult_le_compat_r; lra).
  assert (Herr : (10000000000000000 # 1) * S' <= x * S * S')
    by (apply Qmult_le_compat_r; lra).
  (* the value and the step of its binade *)
  pose proof Hb as Hb'. unfold bounded, canonical_mantissa in Hb'.
  apply andb_prop in Hb' as [Hcm _]. apply Z.eqb_eq in Hcm. rewrite fexp_eq in Hcm.
  destruct (digits2_pos_bounds m) as [_ Hmhi].
  assert (Hmax : (Zpos m <= 2 ^ 53 - 1)%Z).
  { assert (2 ^ Zpos (digits2_pos m) <= 2 ^ 53)%Z by (apply Z.pow_le_mono_r; lia). lia. }
  apply inject_Z_le in Hmax.
  change (inject_Z (2 ^ 53 - 1)) with (9007199254740991 # 1) in Hmax.
  pose proof (pow2_pos e) as Hu.
  assert (Hxu : x <= (9007199254740991 # 1) * Spec.pow2 e) by (apply mul_pow2_le, Hmax).
  apply of_ratio_nearest; [exact Hb | | |]; rewrite Ey; fold x.
  - lra.
  - lra.
  - intros Hpow _.
    assert (Exu : x == (4503599627370496 # 1) * Spec.pow2 e).
    { subst x. unfold Spec.value. rewrite Hpow. reflexivity. }
    lra.
Qed.

End Digits.

(** ** [repr] reads back *)

Section ReadBack.

Import PyFloatRepr.

Lemma candidate_reads_back (x : PyFloat.float) (num den decpt n c : Z) :
  candidate x num den decpt n = Some c ->
  SFeqb (PyFloat.of_decimal false c (- (n - decpt))) x = true.
Proof.
  unfold candidate. destruct (scaled num den (n - decpt)) as [[lo rem] d].
  destruct (SFeqb (PyFloat.of_decimal false lo _) x) eqn:E1,
           (SFeqb (PyFloat.of_decimal false (lo + 1) _) x) eqn:E2;
    intros H; try discriminate H; apply some_inj in H; subst c; try assumption.
  unfold nearest. destruct (2 * rem <? d)%Z; [exact E1 |].
  destruct (d <? 2 * rem)%Z; [exact E2 |]. destruct (Z.even lo); assumption.
Qed.

(** The digits [shortest] returns read back as the float, or are the
    nearest ones of the last length it may try. *)
Lemma shortest_spec (fuel : nat) (x : PyFloat.float) (num den decpt n c n' : Z) :
  shortest fuel x num den decpt n = (c, n') ->
  SFeqb (PyFloat.of_decimal false c (- (n' - decpt))) x = true
  \/ (n' = (n + Z.of_nat fuel)%Z
      /\ exists lo rem d,
           scaled num den (n' - decpt) = (lo, rem, d) /\ c = nearest lo rem d).
Proof.
  revert n. induction fuel as [| fuel IH]; intros n; cbn [shortest].
  - destruct (scaled num den (n - decpt)) as [[lo rem] d] eqn:Es.
    intros H. apply pair_equal_spec in H as [<- <-]. right.
    split; [lia |]. exists lo, rem, d. split; [exact Es | reflexivity].
  - destruct (candidate x num den decpt n) as [c0 |] eqn:Ec.
    + intros H. apply pair_equal_spec in H as [<- <-]. left.
      exact (candidate_reads_back _ _ _ _ _ _ Ec).
    + intros H. destruct (IH _ H) as [Hl | [Hn Hr]]; [left; exact Hl | right].
      split; [lia | exact Hr].
Qed.

Lemma of_decimal_nonpos (neg : bool) (n e : Z) :
  (n <= 0)%Z -> PyFloat.of_decimal neg n e = S754_zero neg.
Proof.
  intros Hn. unfold PyFloat.of_decimal, PyFloat.of_ratio.
  destruct (Z.leb_spec 0 e) as [He | He].
  - pose proof (pow10_Z_pos e He). destruct (n * 10 ^ e)%Z eqn:E; try reflexivity. nia.
  - destruct n; try reflexivity. lia.
Qed.

(** The digits of [repr] are positive and read back as the float. *)
Lemma digits_read_back (m : positive) (e : Z) (c n : Z) :
  bounded PyFloat.prec PyFloat.emax m e = true ->
  let num := fst (ratio_of m e) in
  let den := snd (ratio_of m e) in
  shortest 16 (S754_finite false m e) num den (decpt_of num den) 1 = (c, n) ->
  (0 < c)%Z
  /\ PyFloat.of_decimal false c (- (n - decpt_of num den)) = S754_finite false m e.
Proof.
  intros Hb num den Hs.
  destruct (ratio_of_value m e) as (Hnum & Hden & Ex). fold num den in Hnum, Hden, Ex.
  destruct (decpt_of_spec m e Hb) as [Hdec _]. fold num den in Hdec.
  set (decpt := decpt_of num den) in *.
  destruct (shortest_spec _ _ _ _ _ _ _ _ Hs) as [Hr | [Hn (lo & rem & d & Hsc & Hc)]].
  - apply SFeqb_finite in Hr. split; [| exact Hr].
    destruct (Z_lt_le_dec 0 c) as [Hpos | Hneg]; [exact Hpos |].
    rewrite (of_decimal_nonpos false c _ Hneg) in Hr. discriminate Hr.
  - change (1 + Z.of_nat 16)%Z with 17%Z in Hn. subst n.
    destruct (scaled_spec num den (17 - decpt) Hnum Hden) as (n0 & d0 & Hsc' & Hn0 & Hd0 & Et).
    rewrite Hsc' in Hsc. apply pair_equal_spec in Hsc as [Hsc <-].
    apply pair_equal_spec in Hsc as [<- <-]. subst c.
    apply seventeen_digits_read_back; try assumption.
    rewrite Et, Ex. reflexivity.
Qed.

(** *** The text of the digits *)

Lemma digits_value_of_uint_acc (d : Decimal.uint) (acc : positive) :
  PyFloat.digits_value (Zpos acc) (NilEmpty.string_of_uint d)
  = Zpos (Pos.of_uint_acc d acc).
Proof.
  revert acc. induction d as [| d IH | d IH | d IH | d IH | d IH | d IH | d IH | d IH | d IH | d IH];
    intros acc; cbn [NilEmpty.string_of_uint Pos.of_uint_acc PyFloat.digits_value];
    [reflexivity | rewrite <- IH; f_equal; vm_compute PyFloat.digit_value; lia ..].
Qed.

Lemma digits_value_of_uint (d : Decimal.uint) :
  PyFloat.digits_value 0 (NilEmpty.string_of_uint d) = Z.of_N (Pos.of_uint d).
Proof.
  induction d as [| d IH | d IH | d IH | d IH | d IH | d IH | d IH | d IH | d IH | d IH];
    cbn [NilEmpty.string_of_uint Pos.of_uint PyFloat.digits_value];
    [reflexivity | exact IH | exact (digits_value_of_uint_acc d _) ..].
Qed.

Lemma digits_value_decimal_of_Z (c : Z) :
  (0 <= c)%Z -> PyFloat.digits_value 0 (decimal_of_Z c) = c.
Proof.
  intros Hc. unfold decimal_of_Z.
  assert (H : forall d, PyFloat.digits_value 0 (NilZero.string_of_uint d)
                        = Z.of_N (N.of_uint d)).
  { intros d. destruct d; try exact (digits_value_of_uint _). reflexivity. }
  rewrite H, DecimalN.Unsigned.of_to. lia.
Qed.

Lemma string_of_uint_decimal (d : Decimal.uint) :
  PyStr.forallb PyStr.is_decimal (NilEmpty.string_of_uint d) = true.
Proof.
  induction d as [| d IH | d IH | d IH | d IH | d IH | d IH | d IH | d IH | d IH | d IH];
    cbn [NilEmpty.string_of_uint PyStr.forallb]; [reflexivity | exact IH ..].
Qed.

Lemma decimal_of_Z_decimal (c : Z) :
  PyStr.forallb PyStr.is_decimal (decimal_of_Z c) = true.
Proof.
  unfold decimal_of_Z. destruct (N.to_uint (Z.to_N c)) eqn:E;
    try (rewrite <- E at 1; unfold NilZero.string_of_uint; rewrite E;
         exact (string_of_uint_decimal _)).
  reflexivity.
Qed.

Lemma digits_value_append (acc : Z) (a b : string) :
  PyFloat.digits_value acc (a +:+ b) = PyFloat.digits_value (PyFloat.digits_value acc a) b.
Proof.
  revert acc. induction a as [| c a IH]; intros acc; [rewrite append_empty; reflexivity |].
  rewrite append_cons. cbn [PyFloat.digits_value]. apply IH.
Qed.

Lemma digits_value_zeros (acc : Z) (k : nat) :
  PyFloat.digits_value acc (PyStr.repeat_char "0" k) = (acc * 10 ^ Z.of_nat k)%Z.
Proof.
  revert acc. induction k as [| k IH]; intros acc.
  - cbn. lia.
  - cbn [PyStr.repeat_char PyFloat.digits_value]. rewrite IH.
    change (PyFloat.digit_value "0") with 0%Z.
    rewrite Nat2Z.inj_succ, Z.pow_succ_r by lia. lia.
Qed.

Lemma zeros_decimal (k : nat) :
  PyStr.forallb PyStr.is_decimal (PyStr.repeat_char "0" k) = true.
Proof. induction k as [| k IH]; [reflexivity | exact IH]. Qed.

Lemma length_append (a b : string) :
  String.length (a +:+ b) = (String.length a + String.length b)%nat.
Proof.
  induction a as [| c a IH]; [rewrite append_empty; reflexivity |].
  rewrite append_cons. cbn [String.length]. rewrite IH. reflexivity.
Qed.

Lemma length_zeros (k : nat) : String.length (PyStr.repeat_char "0" k) = k.
Proof. induction k as [| k IH]; [reflexivity |]. cbn. rewrite IH. reflexivity. Qed.

(** What [rstrip("0")] removes. *)
Lemma rstrip_zeros (s : string) :
  exists k, s = PyStr.rstrip_by is_char_0 s +:+ PyStr.repeat_char "0" k.
Proof.
  induction s as [| c s [k IH]]; [exists 0%nat; reflexivity |].
  cbn [PyStr.rstrip_by].
  destruct (PyStr.is_empty (PyStr.rstrip_by is_char_0 s)) eqn:Ee;
    [destruct (is_char_0 c) eqn:Ec |]; cbn [andb].
  - exists (S k). apply is_code_eq in Ec. subst c.
    destruct (PyStr.rstrip_by is_char_0 s); [| discriminate].
    rewrite append_empty in IH |- *. rewrite IH at 1. reflexivity.
  - exists k. rewrite append_cons, <- IH. reflexivity.
  - exists k. rewrite append_cons, <- IH. reflexivity.
Qed.

Lemma take_drop (n : nat) (s : string) : take n s +:+ drop n s = s.
Proof.
  revert s. induction n as [| n IH]; intros s; [destruct s; reflexivity |].
  destruct s as [| c s]; [reflexivity |].
  cbn [take drop]. rewrite append_cons, IH. reflexivity.
Qed.

Lemma length_take (n : nat) (s : string) :
  (n <= String.length s)%nat -> String.length (take n s) = n.
Proof.
  revert s. induction n as [| n IH]; intros s H; [destruct s; reflexivity |].
  destruct s as [| c s]; [cbn in H; lia |].
  cbn [take String.length] in *. rewrite IH by lia. reflexivity.
Qed.

Lemma not_empty_length (s : string) :
  (0 < String.length s)%nat -> PyStr.is_empty s = false.
Proof. destruct s; [cbn; lia | reflexivity]. Qed.

Lemma plain_numerals (s : string) :
  Spec.plain_decimal s = true -> PyStr.forallb Spec.is_numeral s = true.
Proof.
  intros H. destruct (plain_decimal_inv _ H) as (ip & fp & -> & Hi & _ & Hf & _).
  rewrite forallb_append. cbn [PyStr.forallb].
  rewrite (forallb_impl _ _ _ decimal_numeral Hi), (forallb_impl _ _ _ decimal_numeral Hf).
  reflexivity.
Qed.

Lemma decimal_value_same (n e e' : Z) :
  e = e' -> (Spec.decimal_value n e == Spec.decimal_value n e')%Q.
Proof. intros ->. reflexivity. Qed.

(** The text [layout] writes in positional notation reads as the
    digits at the place of the point. *)
Lemma layout_reads (ds : string) (dp : Z) :
  PyStr.forallb PyStr.is_decimal ds = true ->
  (0 < PyFloat.digits_value 0 ds)%Z ->
  Spec.plain_decimal (layout ds dp) = true ->
  exists N E,
    (0 < N)%Z
    /\ PyFloat.of_str (layout ds dp) = Some (PyFloat.of_decimal false N E)
    /\ (Spec.decimal_value N E
        == Spec.decimal_value (PyFloat.digits_value 0 ds)
                              (dp - Z.of_nat (String.length ds)))%Q.
Proof.
  intros Hds Hv. unfold layout.
  assert (Hne : PyStr.is_empty ds = false) by (destruct ds; [cbn in Hv; lia | reflexivity]).
  assert (Hlen : (0 < String.length ds)%nat) by (destruct ds; [discriminate | cbn; lia]).
  set (v := PyFloat.digits_value 0 ds) in *.
  set (L := String.length ds) in *.
  destruct ((dp <=? -4)%Z || (16 <? dp)%Z) eqn:Eexp.
  { intros H. apply plain_numerals in H.
    rewrite !forallb_append in H. apply andb_prop in H as [_ H].
    apply andb_prop in H as [_ H]. discriminate H. }
  apply orb_false_elim in Eexp as [Elo Ehi].
  apply Z.leb_gt in Elo. apply Z.ltb_ge in Ehi.
  destruct (Z.leb_spec dp 0) as [H0 | H0]; [| destruct (Z.leb_spec (Z.of_nat L) dp) as [H1 | H1]];
    intros _.
  - (* zero, the point, zeros and the digits *)
    set (k := Z.to_nat (- dp)).
    set (fp := PyStr.repeat_char "0" k +:+ ds).
    assert (Hfp : PyStr.forallb PyStr.is_decimal fp = true)
      by (subst fp; rewrite forallb_append, zeros_decimal, Hds; reflexivity).
    assert (Hfe : PyStr.is_empty fp = false) by (apply is_empty_append_r, Hne).
    pose proof (of_str_number "0" fp eq_refl eq_refl Hfp) as Hr. rewrite Hfe in Hr.
    change ("0." +:+ fp) with ("0" +:+ String "." fp). rewrite Hr.
    exists (PyFloat.digits_value 0 ("0" +:+ fp)), (0 - Z.of_nat (String.length fp))%Z.
    assert (Ev : PyFloat.digits_value 0 ("0" +:+ fp) = v).
    { change ("0" +:+ fp) with (String "0" fp). cbn [PyFloat.digits_value].
      change (10 * 0 + PyFloat.digit_value "0")%Z with 0%Z.
      subst fp. rewrite digits_value_append, digits_value_zeros. reflexivity. }
    rewrite Ev. split; [exact Hv |]. split; [reflexivity |].
    apply decimal_value_same. subst fp. rewrite length_append, length_zeros. fold L. lia.
  - (* the digits, zeros, the point and a zero *)
    set (k := Z.to_nat (dp - Z.of_nat L)).
    set (ip := ds +:+ PyStr.repeat_char "0" k).
    assert (Hip : PyStr.forallb PyStr.is_decimal ip = true)
      by (subst ip; rewrite forallb_append, zeros_decimal, Hds; reflexivity).
    assert (Hie : PyStr.is_empty ip = false)
      by (subst ip; destruct ds; [discriminate | reflexivity]).
    pose proof (of_str_number ip "0" Hip Hie eq_refl) as Hr.
    cbn [PyStr.is_empty] in Hr.
    replace (ds +:+ PyStr.repeat_char "0" k +:+ ".0") with (ip +:+ String "." "0")
      by (subst ip; apply append_assoc).
    rewrite Hr.
    exists (PyFloat.digits_value 0 (ip +:+ "0")), (0 - Z.of_nat (String.length "0"))%Z.
    assert (Ev : PyFloat.digits_value 0 (ip +:+ "0") = (v * 10 ^ (dp - Z.of_nat L) * 10)%Z).
    { subst ip. rewrite !digits_value_append, digits_value_zeros. fold v.
      cbn [PyFloat.digits_value]. change (PyFloat.digit_value "0") with 0%Z.
      subst k. rewrite Z2Nat.id by lia. lia. }
    pose proof (pow10_Z_pos (dp - Z.of_nat L) ltac:(lia)) as Hp.
    rewrite Ev. split; [nia |]. split; [reflexivity |].
    unfold Spec.decimal_value. rewrite !inject_Z_mult, pow10_inject by lia.
    change (Spec.pow10 (0 - Z.of_nat (String.length "0"))) with (1 # 10)%Q.
    change (inject_Z 10) with 10%Q. field.
  - (* the point within the digits *)
    set (k := Z.to_nat dp).
    assert (Hk : (k <= L)%nat) by lia.
    pose proof (take_drop k ds) as Etd.
    assert (Hall : PyStr.forallb PyStr.is_decimal (take k ds)
                   && PyStr.forallb PyStr.is_decimal (drop k ds) = true)
      by (rewrite <- forallb_append, Etd; exact Hds).
    apply andb_prop in Hall as [Hip Hfp].
    pose proof (length_take k ds Hk) as Lt.
    assert (Ld : String.length (drop k ds) = (L - k)%nat).
    { pose proof (f_equal String.length Etd) as El. rewrite length_append, Lt in El.
      fold L in El. lia. }
    assert (Hie : PyStr.is_empty (take k ds) = false) by (apply not_empty_length; lia).
    assert (Hfe : PyStr.is_empty (drop k ds) = false) by (apply not_empty_length; lia).
    pose proof (of_str_number _ _ Hip Hie Hfp) as Hr. rewrite Hfe in Hr.
    change ("." +:+ drop k ds) with (String "." (drop k ds)). rewrite Hr.
    exists (PyFloat.digits_value 0 (take k ds +:+ drop k ds)),
           (0 - Z.of_nat (String.length (drop k ds)))%Z.
    rewrite Etd. fold v. split; [exact Hv |]. split; [reflexivity |].
    apply decimal_value_same. rewrite Ld. lia.
Qed.

Lemma plain_decimal_sign (s : string) : Spec.plain_decimal ("-" +:+ s) = false.
Proof. reflexivity. Qed.

(** [float(repr(q)) == q] for a quantity that prints in positional
    notation. *)
Lemma repr_reads_back (q : PyFloat.float) :
  valid_binary PyFloat.prec PyFloat.emax q = true ->
  Spec.plain_decimal (repr q) = true ->
  PyFloat.of_str (repr q) = Some q.
Proof.
  destruct q as [s | s | | s m e]; cbn [valid_binary repr]; intros Hb Hp.
  - destruct s; [discriminate Hp | vm_compute; reflexivity].
  - destruct s; discriminate Hp.
  - discriminate Hp.
  - destruct s; [rewrite plain_decimal_sign in Hp; discriminate Hp |].
    rewrite append_empty in Hp |- *.
    unfold repr_finite in *.
    rewrite (surjective_pairing (ratio_of m e)) in Hp |- *.
    set (num := fst (ratio_of m e)) in *. set (den := snd (ratio_of m e)) in *.
    cbv zeta in Hp |- *.
    destruct (shortest 16 (S754_finite false m e) num den (decpt_of num den) 1)
      as [c n] eqn:Es.
    destruct (digits_read_back m e c n Hb Es) as [Hc Hback].
    fold num den in Hback. set (decpt := decpt_of num den) in *.
    destruct (rstrip_zeros (decimal_of_Z c)) as [k Ek].
    set (all := decimal_of_Z c) in *. set (ds := PyStr.rstrip_by is_char_0 all) in *.
    assert (Hall : PyStr.forallb PyStr.is_decimal all = true) by apply decimal_of_Z_decimal.
    assert (Hds : PyStr.forallb PyStr.is_decimal ds = true).
    { rewrite Ek, forallb_append in Hall. apply andb_prop in Hall as [H _]. exact H. }
    assert (Hval : (PyFloat.digits_value 0 ds * 10 ^ Z.of_nat k)%Z = c).
    { rewrite <- digits_value_zeros, <- digits_value_append, <- Ek.
      apply digits_value_decimal_of_Z. lia. }
    pose proof (pow10_Z_pos (Z.of_nat k) ltac:(lia)) as Hpk.
    assert (Hv : (0 < PyFloat.digits_value 0 ds)%Z) by nia.
    assert (Hlen : Z.of_nat (String.length all)
                   = (Z.of_nat (String.length ds) + Z.of_nat k)%Z).
    { rewrite Ek at 1. rewrite length_append, length_zeros. lia. }
    destruct (layout_reads ds _ Hds Hv Hp) as (N & E & HN & -> & Ev).
    rewrite <- Hback. f_equal. apply of_decimal_compat; [exact HN | exact Hc |].
    rewrite Ev. unfold Spec.decimal_value. rewrite <- Hval, inject_Z_mult.
    rewrite pow10_inject by lia. rewrite <- Qmult_assoc, <- pow10_add.
    apply Qmult_comp; [reflexivity |].
    replace (Z.of_nat k + - (n - decpt))%Z
      with (decpt + (Z.of_nat (String.length all) - n) - Z.of_nat (String.length ds))%Z
      by lia.
    reflexivity.
Qed.

End ReadBack.

(** ** The round trip of a cart item *)

(** C6 as stated fails.  The normaliser yields an item of quantity
    [1e16] in kilograms; its description reads [Cantidad: 1e+16 KGM],
    where the scan finds the number [1] and the word [e]: the round
    trip returns the quantity [1.0] and the unit [E]. *)
Lemma round_trip_loses_exponent_quantity :
  let raw := [("orderItemId", PyStr "1"); ("quantity", PyFloat Spec.ten_to_16);
              ("uom", PyStr "kg")] in
  let item := CartItem.mk "1" "" "Producto" Spec.ten_to_16 "KGM" "weight" None (Some raw) in
  _parse_cart_items (PyList [PyDict raw]) = Ok [item]
  /\ TodoItem.description (Todo._cart_item_to_todo (Some item)) = Some "Cantidad: 1e+16 KGM"
  /\ Spec.round_trip item = Ok (Some Normalizer.one, Some "E", Some "weight").
Proof. vm_compute. repeat split. Qed.

(** C6 (amended): for every cart item whose quantity is a binary64
    value that prints in positional notation (digits, a period,
    digits: no sign and no exponent), whose unit is a non-empty run of
    letters that alias resolution maps to itself, as the six canonical
    codes are, and whose measurement type is the one derived from the
    unit, the conversion to a checklist item followed by the merge of
    the update recovers the same quantity, the same unit and the same
    measurement type.  The quantity comes back exactly: the text
    [repr] prints reads back as the float it was printed from
    ([repr_reads_back]). *)
Theorem round_trip_recovers_fields (item : CartItem.t) :
  Spec.binary64 (CartItem.quantity item) = true ->
  Spec.plain_decimal (PyFloatRepr.repr (CartItem.quantity item)) = true ->
  Spec.stable_unit (CartItem.unit item) = true ->
  CartItem.measurement_type item = Spec.derived_measurement (CartItem.unit item) ->
  Spec.round_trip item
  = Ok (Some (CartItem.quantity item), Some (CartItem.unit item),
        Some (CartItem.measurement_type item)).
Proof.
  destruct item as [iid pid name q u mt price payload].
  cbn [CartItem.quantity CartItem.unit CartItem.measurement_type].
  intros Hvalid Hq Hu Hmt.
  pose proof (repr_reads_back q Hvalid Hq) as Hback.
  unfold Spec.stable_unit in Hu.
  apply andb_prop in Hu as [Hu Hst]. apply andb_prop in Hu as [Hue Hul].
  apply String.eqb_eq in Hst.
  assert (Hue' : PyStr.is_empty u = false) by (destruct (PyStr.is_empty u); [discriminate | reflexivity]).
  clear Hue.
  assert (Hmt_tag : Todo._normalize_str (PyStr mt) = Some mt).
  { destruct (derived_measurement_cases u) as [H | [H | H]];
      rewrite Hmt, H; reflexivity. }
  set (s := PyFloatRepr.repr q) in *.
  pose proof (search_description s u Hq Hue' Hul) as Hscan.
  unfold Spec.round_trip, Todo._cart_item_to_todo.
  cbn [CartItem.quantity CartItem.unit CartItem.measurement_type CartItem.product_id
       CartItem.name CartItem.item_id].
  rewrite Hue'. cbn [negb]. fold s.
  unfold Todo.update_fields.
  cbn [TodoItem.extra TodoItem.description Todo.nonempty_dict].
  change (dict_get ATTR_QUANTITY _) with (PyFloat q).
  change (dict_get ATTR_UNIT _) with (PyStr u).
  change (dict_get ATTR_MEASUREMENT_TYPE _) with (PyStr mt).
  rewrite Hmt_tag.
  unfold Todo._normalize_unit at 1. rewrite Hue', Hst.
  cbn [Todo._coerce_float Exn.bind].
  rewrite nonempty_text_some by discriminate.
  unfold Todo._parse_text. rewrite Hscan, Hst.
  unfold Todo._coerce_float. rewrite (comma_to_dot_plain _ Hq).
  assert (Hm : Todo.opt_str_or (UNIT_TO_MEASUREMENT_TYPE !! u) (Some mt) = Some mt).
  { unfold Todo.opt_str_or, str_truthy.
    destruct (UNIT_TO_MEASUREMENT_TYPE !! u) as [m |] eqn:E; [| reflexivity].
    rewrite (measurement_values_nonempty _ _ E). cbn [negb].
    rewrite Hmt. unfold Spec.derived_measurement. rewrite E. reflexivity. }
  assert (Hun : Todo.opt_str_or (Some u) (Some u) = Some u).
  { unfold Todo.opt_str_or, str_truthy. rewrite Hue'. reflexivity. }
  rewrite Hback.
  cbn [Exn.bind ParsedText.quantity ParsedText.unit ParsedText.measurement_type].
  rewrite Hm, Hun.
  unfold Todo.float_or. destruct (PyFloat.truthy q); reflexivity.
Qed.

Lemma round_trip_recovers_fields_witness :
  Spec.round_trip (CartItem.mk "1" "55" "Leche" Spec.two_and_a_half "KGM" "weight" None None)
  = Ok (Some Spec.two_and_a_half, Some "KGM", Some "weight")
  /\ Spec.round_trip (CartItem.mk "2" "56" "Pan" Spec.three "EA" "piece" None None)
     = Ok (Some Spec.three, Some "EA", Some "piece")
  /\ Spec.round_trip (CartItem.mk "3" "57" "Agua" Spec.three_tenths "LTR" "volume" None None)
     = Ok (Some Spec.three_tenths, Some "LTR", Some "volume")
  /\ Spec.round_trip (CartItem.mk "4" "58" "Bolsa" Spec.zero "EA" "piece" None None)
     = Ok (Some Spec.zero, Some "EA", Some "piece").
Proof.
  split; [| split; [| split]]; apply round_trip_recovers_fields; vm_compute; reflexivity.
Defined.

(** ** Reading a number *)

Lemma comma_to_dot_idem (s : string) :
  PyStr.comma_to_dot (PyStr.comma_to_dot s) = PyStr.comma_to_dot s.
Proof.
  unfold PyStr.comma_to_dot. induction s as [| c s IH]; [reflexivity |].
  cbn [PyStr.map_chars]. rewrite IH. f_equal.
  destruct (PyStr.is_code 44 c) eqn:E; [reflexivity | rewrite E; reflexivity].
Qed.

Lemma float_of_int_fits (z : Z) :
  Spec.fits_float (PyInt z) = true -> exists f, float_of_int z = Ok f.
Proof.
  unfold Spec.fits_float, float_of_int.
  destruct (PyFloat.of_int z) as [f |]; [eauto | discriminate].
Qed.

Lemma float_of_int_overflow (z : Z) :
  Spec.fits_float (PyInt z) = false -> float_of_int z = Raise OverflowError.
Proof.
  unfold Spec.fits_float, float_of_int.
  destruct (PyFloat.of_int z) as [f |]; [discriminate | reflexivity].
Qed.

(** X6: the two float coercions of the code, [_extract_float] of the
    client and [_coerce_float] of the entity, are the same function.
    A text is read with its commas as decimal points.  The coercion
    raises for one kind of value only, an [int] beyond the range of
    [float], for which it raises [OverflowError]; for every other
    value it returns a float or the default. *)
Theorem float_coercion_reads_decimal_comma :
  (forall v d, Todo._coerce_float v d = _extract_float v d)
  /\ (forall s d,
        _extract_float (PyStr (PyStr.comma_to_dot s)) d = _extract_float (PyStr s) d)
  /\ (forall v d,
        Spec.fits_float v = true ->
        exists o, _extract_float v d = Ok o /\ (o = d \/ is_Some o))
  /\ (forall v d, Spec.fits_float v = false -> _extract_float v d = Raise OverflowError).
Proof.
  split; [intros v d; destruct v; reflexivity |].
  split; [intros s d; cbn [_extract_float]; rewrite comma_to_dot_idem; reflexivity |].
  split.
  - intros v d Hv. destruct v as [| b | z | f | s | l | m]; cbn [_extract_float].
    + eexists. split; [reflexivity | left; reflexivity].
    + destruct b; eexists; (split; [| right; eexists; reflexivity]); vm_compute; reflexivity.
    + destruct (float_of_int_fits z Hv) as [f ->]. cbn [Exn.bind].
      eexists. split; [reflexivity | right; eexists; reflexivity].
    + eexists. split; [reflexivity | right; eexists; reflexivity].
    + destruct (PyFloat.of_str _) as [f |]; eexists;
        (split; [reflexivity |]); [right; eexists; reflexivity | left; reflexivity].
    + eexists. split; [reflexivity | left; reflexivity].
    + eexists. split; [reflexivity | left; reflexivity].
  - intros v d Hv. destruct v as [| b | z | f | s | l | m]; try discriminate.
    cbn [_extract_float]. rewrite (float_of_int_overflow z Hv). reflexivity.
Qed.

Lemma float_coercion_reads_decimal_comma_witness :
  _extract_float (PyStr "2.5") None = _extract_float (PyStr "2,5") None
  /\ (exists o, _extract_float (PyStr "1,234.5") (Some one) = Ok o
                /\ (o = Some one \/ is_Some o))
  /\ _extract_float (PyInt (10 ^ 400)) None = Raise OverflowError.
Proof.
  destruct float_coercion_reads_decimal_comma as (_ & H2 & H3 & H4).
  split; [exact (H2 "2,5" None) |].
  split; [apply H3; reflexivity | apply H4; vm_compute; reflexivity].
Defined.

(** ** The session: cookies, login and errors *)

(** What [_request] does, by the outcome of its first request. *)
Lemma _request_run (m p : string) (ps : list (string * string)) (j : option py_value)
    (b : bool) (w : world) :
  _request m p ps j b w
  = match script w (length (sent w)) with
    | Answer r =>
        if (status r =? 401)%Z && b
        then mbind async_login (fun _ => _request_once m p ps j)
                   (Spec.with_authenticated false (Spec.exchange m p ps j w))
        else (conclude r, Spec.exchange m p ps j w)
    | ClientError => (Raise (ChedrauiRequestError None), Spec.exchange m p ps j w)
    | Timeout => (Raise TimeoutError, Spec.exchange m p ps j w)
    end.
Proof.
  unfold _request at 1. unfold send, _update_cookies, mark_authenticated, lift.
  cbv beta iota delta [mbind]. unfold Spec.with_authenticated, Spec.exchange.
  destruct (script w (length (sent w))) as [r | |]; [| reflexivity | reflexivity].
  cbv beta iota. destruct ((status r =? 401)%Z && b); reflexivity.
Qed.

Lemma merge_cookies_cons (k : string) (o : option string) (l : list (string * option string))
    (ck : gmap string string) :
  merge_cookies ((k, o) :: l) ck
  = merge_cookies l (match o with Some v => <[k := v]> ck | None => ck end).
Proof. reflexivity. Qed.

Lemma merge_cookies_keeps (l : list (string * option string)) (ck : gmap string string)
    (k v : string) :
  ck !! k = Some v -> is_Some (merge_cookies l ck !! k).
Proof.
  revert ck v. induction l as [| [k' o] l IH]; intros ck v H; [eexists; exact H |].
  rewrite merge_cookies_cons. destruct o as [v' |]; [| exact (IH ck v H)].
  destruct (decide (k' = k)) as [-> | Hne].
  - apply (IH _ v'). apply lookup_insert_eq.
  - apply (IH _ v). rewrite lookup_insert_ne by exact Hne. exact H.
Qed.

Lemma merge_cookies_untouched (l : list (string * option string)) (ck : gmap string string)
    (k : string) :
  (forall v, (k, Some v) ∉ l) -> merge_cookies l ck !! k = ck !! k.
Proof.
  revert ck. induction l as [| [k' o] l IH]; intros ck H; [reflexivity |].
  rewrite merge_cookies_cons.
  assert (Hl : forall v, (k, Some v) ∉ l).
  { intros v Hin. apply (H v). apply elem_of_cons. right. exact Hin. }
  rewrite (IH _ Hl). destruct o as [v' |]; [| reflexivity].
  apply lookup_insert_ne. intros ->. apply (H v'). apply elem_of_cons. left. reflexivity.
Qed.

Lemma merge_cookies_last (l : list (string * option string)) (ck : gmap string string)
    (k v : string) :
  merge_cookies (l ++ [(k, Some v)]) ck !! k = Some v.
Proof.
  unfold merge_cookies. rewrite foldl_app. cbn [foldl fst snd]. apply lookup_insert_eq.
Qed.

Lemma sends_anything_login : Spec.allows_login (fun _ : request => True).
Proof. intros user password store_id ck. exact I. Qed.

Lemma exchange_cookies (m p : string) (ps : list (string * string)) (j : option py_value)
    (w : world) (r : response) :
  script w (length (sent w)) = Answer r ->
  _cookies (client (Spec.exchange m p ps j w))
  = merge_cookies (cookies r) (_cookies (client w)).
Proof. intros H. unfold Spec.exchange. rewrite H. reflexivity. Qed.

Lemma _request_first_request (m p : string) (ps : list (string * string))
    (j : option py_value) (b : bool) (w : world) :
  exists rest,
    sent (snd (_request m p ps j b w))
    = (sent w ++ Spec.call_request (client w) m p ps j :: rest)%list.
Proof.
  rewrite _request_run.
  destruct (script w (length (sent w))) as [r | |];
    [| exists []; reflexivity | exists []; reflexivity].
  destruct ((status r =? 401)%Z && b); [| exists []; reflexivity].
  set (w1 := Spec.with_authenticated false (Spec.exchange m p ps j w)).
  assert (Hs : Spec.only_sends (fun _ => True)
                 (mbind async_login (fun _ => _request_once m p ps j))).
  { apply only_sends_bind; [apply only_sends_login, sends_anything_login |].
    intros _. apply only_sends_request_once. intros ck. exact I. }
  destruct (Hs w1) as (l & Hl & _). exists l. rewrite Hl.
  change (sent w1) with (sent w ++ [Spec.call_request (client w) m p ps j])%list.
  rewrite <- app_assoc. reflexivity.
Qed.

(** X7: the cookie jar of the client.  Merging the cookies of a
    response never removes a cookie, leaves alone every name the
    response sets to no value or does not mention, and gives a name the
    last value the response sets it to.  A call answered without
    re-login, with an error status as well as with success, leaves the
    jar merged with the cookies of the answer; and the first request of
    every call carries the jar as it is when the call is made. *)
Theorem cookies_are_kept_and_sent :
  (forall l ck k v, ck !! k = Some v -> is_Some (merge_cookies l ck !! k))
  /\ (forall l ck k, (forall v, (k, Some v) ∉ l) -> merge_cookies l ck !! k = ck !! k)
  /\ (forall l ck k v, merge_cookies (l ++ [(k, Some v)]) ck !! k = Some v)
  /\ (forall w m p ps j b r,
        script w (length (sent w)) = Answer r ->
        (status r =? 401)%Z && b = false ->
        _cookies (client (snd (_request m p ps j b w)))
        = merge_cookies (cookies r) (_cookies (client w)))
  /\ (forall w m p ps j b,
        exists rest,
          sent (snd (_request m p ps j b w))
          = (sent w ++ mk_request m p ps j (_cookies (client w)) :: rest)%list).
Proof.
  split; [exact merge_cookies_keeps |].
  split; [exact merge_cookies_untouched |].
  split; [exact merge_cookies_last |].
  split.
  - intros w m p ps j b r Hr Hc. rewrite _request_run, Hr, Hc. cbn [snd].
    apply exchange_cookies, Hr.
  - intros w m p ps j b. apply _request_first_request.
Qed.

Lemma cookies_are_kept_and_sent_witness :
  let r := mk_response 500 [("JSESSIONID", Some "abc"); ("old", None)] "text/html" "" None in
  let w := mk_world (mk_client "user" "secret" "10151" {["old" := "1"]} true)
                    (fun _ => Answer r) [] None true in
  _cookies (client (snd (_request "GET" "/cart" [] None true w)))
  = merge_cookies [("JSESSIONID", Some "abc"); ("old", None)] {["old" := "1"]}
  /\ merge_cookies [("JSESSIONID", Some "abc"); ("old", None)] {["old" := "1"]} !! "old"
     = Some "1".
Proof.
  intros r w. destruct cookies_are_kept_and_sent as (_ & H2 & _ & H4 & _).
  split; [exact (H4 w "GET" "/cart" [] None true r eq_refl eq_refl) |].
  rewrite H2; [reflexivity |].
  intros v Hin. apply elem_of_cons in Hin as [Hin | Hin]; [discriminate |].
  apply elem_of_cons in Hin as [Hin | Hin]; [discriminate |].
  apply elem_of_nil in Hin. exact Hin.
Defined.

Lemma login_exchange_sent (w : world) :
  sent (Spec.login_exchange w) = (sent w ++ [Spec.login_request (client w)])%list.
Proof. reflexivity. Qed.

Lemma exchange_authenticated (m p : string) (ps : list (string * string))
    (j : option py_value) (w : world) :
  _is_authenticated (client (Spec.exchange m p ps j w)) = _is_authenticated (client w).
Proof. unfold Spec.exchange. destruct (script w (length (sent w))); reflexivity. Qed.

(** X8: [async_login] sends exactly one request, the credentials
    posted to the login path, whatever the answer: a login answered
    401 is not retried.  It fails with [ChedrauiAuthError] when the
    answer is 401 or a success without content, with
    [ChedrauiRequestError] carrying the status for any other status
    from 400 up and without status when the transport fails, and
    succeeds on any other decoded content.  It sets the authenticated
    flag when it succeeds and leaves it as it was when it fails. *)
Theorem login_sends_credentials_once (w : world) :
  let n := length (sent w) in
  let w' := snd (async_login w) in
  sent w' = (sent w ++ [Spec.login_request (client w)])%list
  /\ (fst (async_login w) = Ok tt -> _is_authenticated (client w') = true)
  /\ (forall e, fst (async_login w) = Raise e ->
        _is_authenticated (client w') = _is_authenticated (client w))
  /\ (forall r, script w n = Answer r -> status r = 401%Z ->
        fst (async_login w) = Raise ChedrauiAuthError)
  /\ (forall r, script w n = Answer r -> (400 <= status r)%Z -> status r <> 401%Z ->
        fst (async_login w) = Raise (ChedrauiRequestError (Some (status r))))
  /\ (script w n = ClientError -> fst (async_login w) = Raise (ChedrauiRequestError None))
  /\ (forall r, script w n = Answer r -> conclude r = Ok PyNone ->
        fst (async_login w) = Raise ChedrauiAuthError)
  /\ (forall r v, script w n = Answer r -> conclude r = Ok v -> v <> PyNone ->
        fst (async_login w) = Ok tt).
Proof.
  intros n w'. subst w'. rewrite async_login_run. fold n.
  split; [destruct (Spec.login_succeeds _); apply login_exchange_sent |].
  split.
  { destruct (Spec.login_succeeds _); [reflexivity | discriminate]. }
  split.
  { intros e. destruct (Spec.login_succeeds _); [discriminate |].
    intros _. apply exchange_authenticated. }
  unfold Spec.login_succeeds, Spec.login_error, Spec.answer_result.
  split.
  { intros r -> Hs. rewrite (conclude_unauthorized r Hs). reflexivity. }
  split.
  { intros r -> Hge Hne. unfold conclude.
    destruct (Z.leb_spec 400 (status r)); [| lia].
    destruct (Z.eqb_spec (status r) 401); [contradiction | reflexivity]. }
  split; [intros ->; reflexivity |].
  split.
  { intros r -> ->. reflexivity. }
  intros r v -> -> Hv. destruct v; [contradiction | reflexivity ..].
Qed.

Lemma login_sends_credentials_once_witness :
  let w := Spec.constant_world false Spec.unauthorized in
  fst (async_login w) = Raise ChedrauiAuthError
  /\ List.map path (sent (snd (async_login w))) = ["/wcs/resources/store/10151/loginidentity"].
Proof.
  intros w. destruct (login_sends_credentials_once w) as (Hs & _ & _ & H401 & _).
  split; [exact (H401 Spec.unauthorized eq_refl eq_refl) |].
  cbv zeta in Hs. rewrite Hs. reflexivity.
Defined.

(** ** The calls of the client *)

Lemma mbind_ok {A B : Type} (m : M A) (k : A -> M B) (w w' : world) (a : A) :
  m w = (Ok a, w') -> mbind m k w = k a w'.
Proof. intros H. unfold mbind. rewrite H. reflexivity. Qed.

Lemma mbind_raise {A B : Type} (m : M A) (k : A -> M B) (w w' : world) (e : exn) :
  m w = (Raise e, w') -> mbind m k w = (Raise e, w').
Proof. intros H. unfold mbind. rewrite H. reflexivity. Qed.

Lemma ensure_unauthenticated (w : world) :
  _is_authenticated (client w) = false -> async_ensure_authenticated w = async_login w.
Proof.
  intros H. unfold async_ensure_authenticated, mbind, get_client. rewrite H. reflexivity.
Qed.

Lemma ensure_authenticated (w : world) :
  _is_authenticated (client w) = true -> async_ensure_authenticated w = (Ok tt, w).
Proof.
  intros H. unfold async_ensure_authenticated, mbind, get_client. rewrite H. reflexivity.
Qed.

Lemma ensure_failed (w : world) :
  _is_authenticated (client w) = false ->
  Spec.login_succeeds (script w (length (sent w))) = false ->
  async_ensure_authenticated w
  = (Raise (Spec.login_error (script w (length (sent w)))), Spec.login_exchange w).
Proof.
  intros Ha Hl. rewrite (ensure_unauthenticated w Ha), async_login_run, Hl. reflexivity.
Qed.

(** X9: a client that is not authenticated logs in before anything
    else, and when that login fails the call fails with the error of
    the login: the login is the only request sent, and the request of
    the operation itself never leaves.  This holds of the five
    operations of the client. *)
Theorem failed_login_blocks_the_call (w : world) :
  _is_authenticated (client w) = false ->
  Spec.login_succeeds (script w (length (sent w))) = false ->
  let e := Spec.login_error (script w (length (sent w))) in
  let w' := Spec.login_exchange w in
  sent w' = (sent w ++ [Spec.login_request (client w)])%list
  /\ async_get_cart w = (Raise e, w')
  /\ (forall pid q u wt mt, async_add_to_cart pid q u wt mt w = (Raise e, w'))
  /\ (forall item_id q u wt mt, async_update_cart_item item_id q u wt mt w = (Raise e, w'))
  /\ (forall item_id, async_remove_from_cart item_id w = (Raise e, w'))
  /\ (forall query limit, async_search_products query limit w = (Raise e, w')).
Proof.
  intros Ha Hl e w'. pose proof (ensure_failed w Ha Hl) as He.
  split; [reflexivity |].
  split; [exact (mbind_raise _ _ _ _ _ He) |].
  split; [intros pid q u wt mt; exact (mbind_raise _ _ _ _ _ He) |].
  split; [intros item_id q u wt mt; exact (mbind_raise _ _ _ _ _ He) |].
  split; [intros item_id; exact (mbind_raise _ _ _ _ _ He) |].
  intros query limit. exact (mbind_raise _ _ _ _ _ He).
Qed.

Lemma failed_login_blocks_the_call_witness :
  let w := mk_world (__init__ "user" "secret" "10151") (fun _ => Answer Spec.server_error)
                    [] None true in
  async_remove_from_cart "7" w
  = (Raise (ChedrauiRequestError (Some 500%Z)), Spec.login_exchange w)
  /\ List.map method (sent (Spec.login_exchange w)) = ["POST"].
Proof.
  intros w.
  destruct (failed_login_blocks_the_call w eq_refl eq_refl) as (_ & _ & _ & _ & H & _).
  split; [exact (H "7") | reflexivity].
Defined.

Lemma pair_inj {A B : Type} (a a' : A) (b b' : B) : (a, b) = (a', b') -> a = a' /\ b = b'.
Proof. intros H. injection H as H1 H2. split; assumption. Qed.

Lemma ensure_ok_authenticated (w w1 : world) :
  async_ensure_authenticated w = (Ok tt, w1) -> _is_authenticated (client w1) = true.
Proof.
  destruct (_is_authenticated (client w)) eqn:Ha.
  - rewrite (ensure_authenticated w Ha). intros H. apply pair_inj in H as [_ <-]. exact Ha.
  - rewrite (ensure_unauthenticated w Ha), async_login_run.
    destruct (Spec.login_succeeds _); [| discriminate].
    intros H. apply pair_inj in H as [_ <-]. reflexivity.
Qed.

Lemma _request_once_authenticated (m p : string) (ps : list (string * string))
    (j : option py_value) (w : world) :
  _is_authenticated (client (snd (_request_once m p ps j w))) = _is_authenticated (client w).
Proof. rewrite _request_once_run. cbn [snd]. apply exchange_authenticated. Qed.

Lemma _request_ok_authenticated (m p : string) (ps : list (string * string))
    (j : option py_value) (b : bool) (w w' : world) (v : py_value) :
  _request m p ps j b w = (Ok v, w') ->
  _is_authenticated (client w) = true ->
  _is_authenticated (client w') = true.
Proof.
  rewrite _request_run. intros H Ha.
  destruct (script w (length (sent w))) as [r | |]; [| discriminate | discriminate].
  destruct ((status r =? 401)%Z && b).
  - unfold mbind in H. rewrite async_login_run in H.
    destruct (Spec.login_succeeds _); [| discriminate].
    apply (f_equal snd) in H. cbn [snd] in H. rewrite <- H.
    rewrite _request_once_authenticated. reflexivity.
  - apply pair_inj in H as [_ <-]. rewrite exchange_authenticated. exact Ha.
Qed.


Lemma async_get_cart_ok_authenticated (w w' : world) (items : list CartItem.t) :
  async_get_cart w = (Ok items, w') -> _is_authenticated (client w') = true.
Proof.
  unfold async_get_cart. intros H. unfold mbind at 1 in H.
  destruct (async_ensure_authenticated w) as [[[] | e] w1] eqn:E1; [| discriminate].
  apply ensure_ok_authenticated in E1.
  cbv beta iota delta [mbind get_client lift] in H.
  destruct (_request _ _ _ _ _ w1) as [[data | e] w2] eqn:E2; [| discriminate].
  apply pair_inj in H as [_ <-]. exact (_request_ok_authenticated _ _ _ _ _ _ _ _ E2 E1).
Qed.

(** X10: a call of the client that returns leaves the client
    authenticated, whether it had to log in first, to log in again
    after a 401, or neither.  This holds of the five operations of the
    client and of the read of the coordinator. *)
Theorem returned_call_leaves_client_authenticated :
  (forall w w' items,
      async_get_cart w = (Ok items, w') -> _is_authenticated (client w') = true)
  /\ (forall w w' items,
        Coordinator._async_update_data w = (Ok items, w') ->
        _is_authenticated (client w') = true)
  /\ (forall pid q u wt mt w w' item,
        async_add_to_cart pid q u wt mt w = (Ok item, w') ->
        _is_authenticated (client w') = true)
  /\ (forall item_id q u wt mt w w' items,
        async_update_cart_item item_id q u wt mt w = (Ok items, w') ->
        _is_authenticated (client w') = true)
  /\ (forall item_id w w',
        async_remove_from_cart item_id w = (Ok tt, w') ->
        _is_authenticated (client w') = true)
  /\ (forall query limit w w' products,
        async_search_products query limit w = (Ok products, w') ->
        _is_authenticated (client w') = true).
Proof.
  split; [exact async_get_cart_ok_authenticated |].
  split; [exact async_get_cart_ok_authenticated |].
  split.
  { intros pid q u wt mt w w' item. unfold async_add_to_cart. intros H.
    unfold mbind at 1 in H.
    destruct (async_ensure_authenticated w) as [[[] | e] w1] eqn:E1; [| discriminate].
    apply ensure_ok_authenticated in E1.
    cbv beta iota delta [mbind get_client lift] in H.
    destruct (_request _ _ _ _ _ w1) as [[data | e] w2] eqn:E2; [| discriminate].
    destruct (_parse_cart_items data) as [items | e]; [| discriminate].
    destruct (last items); [| discriminate].
    apply pair_inj in H as [_ <-]. exact (_request_ok_authenticated _ _ _ _ _ _ _ _ E2 E1). }
  split.
  { intros item_id q u wt mt w w' items. unfold async_update_cart_item. intros H.
    unfold mbind at 1 in H.
    destruct (async_ensure_authenticated w) as [[[] | e] w1] eqn:E1; [| discriminate].
    apply ensure_ok_authenticated in E1.
    destruct (is_none q && is_none u && is_none wt && is_none mt).
    - exact (async_get_cart_ok_authenticated _ _ _ H).
    - cbv beta iota delta [mbind get_client lift] in H.
      destruct (_request _ _ _ _ _ w1) as [[data | e] w2] eqn:E2; [| discriminate].
      apply pair_inj in H as [_ <-].
      exact (_request_ok_authenticated _ _ _ _ _ _ _ _ E2 E1). }
  split.
  { intros item_id w w'. unfold async_remove_from_cart. intros H.
    unfold mbind at 1 in H.
    destruct (async_ensure_authenticated w) as [[[] | e] w1] eqn:E1; [| discriminate].
    apply ensure_ok_authenticated in E1.
    cbv beta iota delta [mbind get_client ret] in H.
    destruct (_request _ _ _ _ _ w1) as [[data | e] w2] eqn:E2; [| discriminate].
    apply pair_inj in H as [_ <-]. exact (_request_ok_authenticated _ _ _ _ _ _ _ _ E2 E1). }
  intros query limit w w' products. unfold async_search_products. intros H.
  unfold mbind at 1 in H.
  destruct (async_ensure_authenticated w) as [[[] | e] w1] eqn:E1; [| discriminate].
  apply ensure_ok_authenticated in E1.
  cbv beta iota delta [mbind get_client lift] in H.
  destruct (_request _ _ _ _ _ w1) as [[data | e] w2] eqn:E2; [| discriminate].
  apply pair_inj in H as [_ <-]. exact (_request_ok_authenticated _ _ _ _ _ _ _ _ E2 E1).
Qed.

Lemma returned_call_leaves_client_authenticated_witness :
  let w := mk_world (__init__ "user" "secret" "10151") (fun _ => Answer Spec.one_line_cart)
                    [] None true in
  _is_authenticated (client w) = false
  /\ _is_authenticated (client (snd (async_get_cart w))) = true.
Proof.
  intros w. split; [reflexivity |].
  destruct returned_call_leaves_client_authenticated as (H & _).
  destruct (async_get_cart w) as [r w'] eqn:E.
  assert (Hr : exists items, r = Ok items)
    by (apply (f_equal fst) in E; vm_compute in E; subst r; eauto).
  destruct Hr as [items ->]. exact (H w w' items E).
Defined.

Lemma _request_no_relogin (m p : string) (ps : list (string * string))
    (j : option py_value) (b : bool) (w : world) :
  Spec.no_relogin (script w (length (sent w))) = true ->
  _request m p ps j b w
  = (Spec.answer_result (script w (length (sent w))), Spec.exchange m p ps j w).
Proof.
  intros H. rewrite _request_run.
  destruct (script w (length (sent w))) as [r | |]; [| reflexivity | reflexivity].
  cbn [Spec.no_relogin] in H. apply negb_true_iff in H. rewrite H. reflexivity.
Qed.

(** X11: a call that fails for another reason than a 401 is not
    retried and triggers no login: one request is sent.  A transport
    error gives [ChedrauiRequestError] without status, a timeout
    [TimeoutError], a status from 400 up other than 401
    [ChedrauiRequestError] with that status; and a 401, when re-login
    is not allowed, [ChedrauiAuthError]. *)
Theorem failed_call_is_not_retried (w : world) (m p : string)
    (ps : list (string * string)) (j : option py_value) (b : bool) :
  let n := length (sent w) in
  let w' := Spec.exchange m p ps j w in
  sent w' = (sent w ++ [Spec.call_request (client w) m p ps j])%list
  /\ (script w n = ClientError ->
      _request m p ps j b w = (Raise (ChedrauiRequestError None), w'))
  /\ (script w n = Timeout -> _request m p ps j b w = (Raise TimeoutError, w'))
  /\ (forall r, script w n = Answer r -> (400 <= status r)%Z -> status r <> 401%Z ->
        _request m p ps j b w = (Raise (ChedrauiRequestError (Some (status r))), w'))
  /\ (forall r, script w n = Answer r -> status r = 401%Z -> b = false ->
        _request m p ps j b w = (Raise ChedrauiAuthError, w')).
Proof.
  intros n w'. split; [reflexivity |]. rewrite _request_run. fold n. fold w'.
  split; [intros ->; reflexivity |].
  split; [intros ->; reflexivity |].
  split.
  - intros r -> Hge Hne.
    destruct (Z.eqb_spec (status r) 401); [contradiction |]. cbn [andb].
    unfold conclude. destruct (Z.leb_spec 400 (status r)); [| lia].
    destruct (Z.eqb_spec (status r) 401); [contradiction | reflexivity].
  - intros r -> Hs ->. rewrite andb_false_r, (conclude_unauthorized r Hs). reflexivity.
Qed.

Lemma failed_call_is_not_retried_witness :
  let w := Spec.constant_world true Spec.server_error in
  _request "PUT" "/cart" [] None true w
  = (Raise (ChedrauiRequestError (Some 500%Z)), Spec.exchange "PUT" "/cart" [] None w)
  /\ List.map method (sent (Spec.exchange "PUT" "/cart" [] None w)) = ["PUT"].
Proof.
  intros w.
  destruct (failed_call_is_not_retried w "PUT" "/cart" [] None true) as (_ & _ & _ & H & _).
  split; [apply (H Spec.server_error); [reflexivity | vm_compute; discriminate | discriminate]
         | reflexivity].
Defined.

(** X12: a success answer whose content type is not
    [application/json] is never decoded and its text is never
    returned.  With an empty body the call returns [None]; with any
    other body it raises [AttributeError], because inside [_request]
    the name [json] is the keyword parameter, not the module. *)
Theorem success_without_json_content_type (w : world) (m p : string)
    (ps : list (string * string)) (j : option py_value) (b : bool) (r : response) :
  script w (length (sent w)) = Answer r ->
  (status r < 400)%Z ->
  content_type r <> "application/json" ->
  _request m p ps j b w
  = (if PyStr.is_empty (text r) then Ok PyNone else Raise AttributeError,
     Spec.exchange m p ps j w).
Proof.
  intros Hr Hs Hc. rewrite _request_run, Hr.
  destruct (Z.eqb_spec (status r) 401); [lia |]. cbn [andb].
  unfold conclude. destruct (Z.leb_spec 400 (status r)); [lia |].
  apply String.eqb_neq in Hc. rewrite Hc. reflexivity.
Qed.

Lemma success_without_json_content_type_witness :
  let r := mk_response 200 [] "text/plain" "{}" (Some (PyDict [])) in
  let w := Spec.constant_world true r in
  fst (_request "GET" "/cart" [] None true w) = Raise AttributeError.
Proof.
  intros r w.
  rewrite (success_without_json_content_type w "GET" "/cart" [] None true r eq_refl);
    [reflexivity | reflexivity | discriminate].
Defined.

(** X13: an update that names nothing to change sends no write: it is
    the read of the cart, with the same requests and the same result. *)
Theorem empty_update_reads_the_cart (item_id : string) (w : world) :
  async_update_cart_item item_id None None None None w = async_get_cart w.
Proof.
  unfold async_update_cart_item. cbn [is_none andb].
  unfold mbind at 1.
  destruct (_is_authenticated (client w)) eqn:Ha.
  - rewrite (ensure_authenticated w Ha). reflexivity.
  - unfold async_get_cart at 2. unfold mbind at 1.
    destruct (async_ensure_authenticated w) as [[[] | e] w1] eqn:E1; [| reflexivity].
    apply ensure_ok_authenticated in E1.
    unfold async_get_cart. unfold mbind at 1.
    rewrite (ensure_authenticated w1 E1). reflexivity.
Qed.

(** X14: what each operation of an authenticated client sends when the
    answer is no 401: one request, with the method, path, parameters
    and body of the operation, and the cookies of the client; and what
    it returns: the error of the answer, or its decoded content put
    through the normaliser of the operation. *)
Theorem one_call_one_request (w : world) :
  _is_authenticated (client w) = true ->
  Spec.no_relogin (script w (length (sent w))) = true ->
  let answer := Spec.answer_result (script w (length (sent w))) in
  let store := _store_id (client w) in
  async_get_cart w
  = (Exn.bind answer _parse_cart_items,
     Spec.exchange "GET" ("/wcs/resources/store/" +:+ store +:+ "/cart/@self") [] None w)
  /\ (forall pid q u wt mt,
        async_add_to_cart pid q u wt mt w
        = (Exn.bind answer (fun data => Exn.bind (_parse_cart_items data) Spec.last_item),
           Spec.exchange "POST" ("/wcs/resources/store/" +:+ store +:+ "/cart") []
                         (Some (add_payload pid q u wt mt)) w))
  /\ (forall item_id q u wt mt,
        is_none q && is_none u && is_none wt && is_none mt = false ->
        async_update_cart_item item_id q u wt mt w
        = (Exn.bind answer _parse_cart_items,
           Spec.exchange "PUT" ("/wcs/resources/store/" +:+ store +:+ "/cart") []
                         (Some (update_payload item_id q u wt mt)) w))
  /\ (forall item_id,
        async_remove_from_cart item_id w
        = (Exn.bind answer (fun _ => Ok tt),
           Spec.exchange "DELETE"
             ("/wcs/resources/store/" +:+ store +:+ "/cart/@self/" +:+ item_id) [] None w))
  /\ (forall query limit,
        async_search_products query limit w
        = (Exn.bind answer _parse_search_results,
           Spec.exchange "GET"
             ("/wcs/resources/store/" +:+ store +:+ "/productview/bySearchTerm/" +:+ query)
             (Spec.search_params limit) None w)).
Proof.
  intros Ha Hn answer store.
  assert (Hreq : forall m p ps j,
            _request m p ps j true w = (answer, Spec.exchange m p ps j w))
    by (intros; apply _request_no_relogin, Hn).
  split.
  { unfold async_get_cart. rewrite (mbind_ok _ _ _ _ _ (ensure_authenticated w Ha)).
    cbv beta iota delta [mbind get_client lift]. rewrite Hreq.
    destruct answer; reflexivity. }
  split.
  { intros pid q u wt mt. unfold async_add_to_cart.
    rewrite (mbind_ok _ _ _ _ _ (ensure_authenticated w Ha)).
    cbv beta iota delta [mbind get_client lift]. rewrite Hreq.
    destruct answer as [data | e]; [| reflexivity]. cbn [Exn.bind].
    destruct (_parse_cart_items data) as [items | e]; [| reflexivity].
    cbn [Exn.bind]. unfold Spec.last_item. destruct (last items); reflexivity. }
  split.
  { intros item_id q u wt mt Hq. unfold async_update_cart_item.
    rewrite (mbind_ok _ _ _ _ _ (ensure_authenticated w Ha)). rewrite Hq.
    cbv beta iota delta [mbind get_client lift]. rewrite Hreq.
    destruct answer; reflexivity. }
  split.
  { intros item_id. unfold async_remove_from_cart.
    rewrite (mbind_ok _ _ _ _ _ (ensure_authenticated w Ha)).
    cbv beta iota delta [mbind get_client ret]. rewrite Hreq.
    destruct answer; reflexivity. }
  intros query limit. unfold async_search_products.
  rewrite (mbind_ok _ _ _ _ _ (ensure_authenticated w Ha)).
  cbv beta iota delta [mbind get_client lift]. rewrite Hreq.
  destruct answer; reflexivity.
Qed.

Lemma one_call_one_request_witness :
  let w := Spec.constant_world true Spec.one_line_cart in
  List.map (fun rq => (method rq, path rq))
           (sent (snd (async_remove_from_cart "7" w)))
  = [("DELETE", "/wcs/resources/store/10151/cart/@self/7")]
  /\ fst (async_remove_from_cart "7" w) = Ok tt.
Proof.
  intros w.
  destruct (one_call_one_request w eq_refl eq_refl) as (_ & _ & _ & H & _).
  rewrite (H "7"). split; reflexivity.
Defined.

(** ** The unit a cart write sends *)

Lemma writes_unit_allows_login (m : string) (o : option string) :
  Spec.allows_login (Spec.writes_unit m o).
Proof. intros user password store_id ck H. discriminate H. Qed.

Lemma writes_unit_allows_read (m m' p : string) (ps : list (string * string))
    (o : option string) :
  Spec.allows_call (Spec.writes_unit m o) m' p ps None.
Proof. intros ck H. discriminate H. Qed.

Lemma only_sends_update_cart_item (P : request -> Prop) (item_id : string)
    (oq : option PyFloat.float) (u : option string) (wt : option PyFloat.float)
    (mt : option string) :
  Spec.allows_login P ->
  (forall p, Spec.allows_call P "GET" p [] None) ->
  (forall p, Spec.allows_call P "PUT" p [] (Some (update_payload item_id oq u wt mt))) ->
  Spec.only_sends P (async_update_cart_item item_id oq u wt mt).
Proof.
  intros Hl Hg Hp. unfold async_update_cart_item.
  apply only_sends_bind; [apply only_sends_ensure, Hl |]. intros _.
  destruct (is_none oq && is_none u && is_none wt && is_none mt).
  - apply only_sends_get_cart; assumption.
  - apply only_sends_bind; [apply only_sends_get_client |]. intros c.
    apply only_sends_bind; [apply only_sends_request; [exact Hl | apply Hp] |]. intros data.
    apply only_sends_lift.
Qed.

Lemma async_add_to_cart_exchange (pid : string) (q : PyFloat.float) (u : option string)
    (wt : option PyFloat.float) (mt : option string) (w : world) :
  _is_authenticated (client w) = true ->
  Spec.no_relogin (script w (length (sent w))) = true ->
  snd (async_add_to_cart pid q u wt mt w)
  = Spec.exchange "POST" (CART_PATH (_store_id (client w))) []
                  (Some (add_payload pid q u wt mt)) w.
Proof.
  intros Ha Hn. unfold async_add_to_cart.
  rewrite (mbind_ok _ _ _ _ _ (ensure_authenticated w Ha)).
  cbv beta iota delta [mbind get_client lift].
  rewrite (_request_no_relogin _ _ _ _ _ _ Hn).
  destruct (Spec.answer_result _) as [data | e]; [| reflexivity].
  destruct (_parse_cart_items data) as [items | e]; [| reflexivity].
  destruct (last items); reflexivity.
Qed.

Lemma async_update_cart_item_exchange (item_id : string) (oq : option PyFloat.float)
    (u : option string) (wt : option PyFloat.float) (mt : option string) (w : world) :
  _is_authenticated (client w) = true ->
  Spec.no_relogin (script w (length (sent w))) = true ->
  is_none oq && is_none u && is_none wt && is_none mt = false ->
  snd (async_update_cart_item item_id oq u wt mt w)
  = Spec.exchange "PUT" (CART_PATH (_store_id (client w))) []
                  (Some (update_payload item_id oq u wt mt)) w.
Proof.
  intros Ha Hn Hq. unfold async_update_cart_item.
  rewrite (mbind_ok _ _ _ _ _ (ensure_authenticated w Ha)). rewrite Hq.
  cbv beta iota delta [mbind get_client lift].
  rewrite (_request_no_relogin _ _ _ _ _ _ Hn).
  destruct (Spec.answer_result _); reflexivity.
Qed.

Lemma not_canonical_no_measurement (n : string) :
  n ∉ canonical_units -> UNIT_TO_MEASUREMENT_TYPE !! n = None.
Proof.
  intros Hc. destruct (UNIT_TO_MEASUREMENT_TYPE !! n) as [m |] eqn:E; [| reflexivity].
  exfalso. apply Hc. exact (measurement_keys_canonical _ _ E).
Qed.

(** C10 as stated fails for the empty unit.  The empty text is a
    unit string that resolves, by alias lookup else upper-casing, to
    the empty text, which is none of the six canonical codes; yet the
    write that [async_add_to_cart] or [async_update_cart_item] sends
    for it carries no [uom] at all, and [KGM], not [EA], when the
    measurement type weight comes along. *)
Lemma empty_unit_is_not_replaced :
  let w := Spec.constant_world true Spec.one_line_cart in
  let sent_by {A : Type} (call : M A) :=
    List.map (fun rq => (method rq, Spec.is_cart_write rq, Spec.uom_sent rq))
             (sent (snd (call w))) in
  alias_or_upper "" = ""
  /\ ("" ∉ canonical_units)
  /\ sent_by (async_add_to_cart "55" one (Some "") None None) = [("POST", true, None)]
  /\ sent_by (async_add_to_cart "55" one (Some "") None (Some "weight"))
     = [("POST", true, Some (PyStr "KGM"))]
  /\ sent_by (async_update_cart_item "1" None (Some "") None None) = [("PUT", true, None)].
Proof.
  cbv zeta. split; [vm_compute; reflexivity |]. split.
  - intros Hin. repeat (apply elem_of_cons in Hin as [Hin | Hin]; [discriminate Hin |]).
    apply elem_of_nil in Hin. exact Hin.
  - vm_compute. repeat split.
Qed.

(** C10 (amended): on the outgoing write path the [uom] of the cart
    line that [async_add_to_cart] posts and [async_update_cart_item]
    puts is the unit [_normalize_unit] returns, and there is none when
    it returns [None].  A non-empty unit that resolves, by alias
    lookup else upper-casing, to a code outside the six canonical codes
    is not passed through: the unit is the piece code [EA].  The empty
    unit counts as no unit: without unit the measurement types piece,
    weight and volume give [EA], [KGM] and [LTR], and no measurement
    type gives no unit. *)
Theorem write_path_unit_fallback :
  (forall u mt,
      u <> "" -> alias_or_upper u ∉ canonical_units ->
      Client._normalize_unit (Some u) mt = Some "EA")
  /\ (forall u,
        u = None \/ u = Some "" ->
        Client._normalize_unit u (Some "piece") = Some "EA"
        /\ Client._normalize_unit u (Some "weight") = Some "KGM"
        /\ Client._normalize_unit u (Some "volume") = Some "LTR"
        /\ Client._normalize_unit u None = None)
  /\ (forall pid q u wt mt w,
        Spec.sends (Spec.writes_unit "POST" (Client._normalize_unit u mt))
                   w (snd (async_add_to_cart pid q u wt mt w))
        /\ (_is_authenticated (client w) = true ->
            Spec.no_relogin (script w (length (sent w))) = true ->
            exists rq,
              sent (snd (async_add_to_cart pid q u wt mt w)) = (sent w ++ [rq])%list
              /\ Spec.is_cart_write rq = true
              /\ method rq = "POST"
              /\ Spec.uom_sent rq = PyStr <$> Client._normalize_unit u mt))
  /\ (forall item_id oq u wt mt w,
        Spec.sends (Spec.writes_unit "PUT" (Client._normalize_unit u mt))
                   w (snd (async_update_cart_item item_id oq u wt mt w))
        /\ (_is_authenticated (client w) = true ->
            Spec.no_relogin (script w (length (sent w))) = true ->
            is_none oq && is_none u && is_none wt && is_none mt = false ->
            exists rq,
              sent (snd (async_update_cart_item item_id oq u wt mt w)) = (sent w ++ [rq])%list
              /\ Spec.is_cart_write rq = true
              /\ method rq = "PUT"
              /\ Spec.uom_sent rq = PyStr <$> Client._normalize_unit u mt)).
Proof.
  split; [| split; [| split]].
  - intros u mt Hu Hc.
    exact (_normalize_unit_unknown u mt Hu (not_canonical_no_measurement _ Hc)).
  - intros u [-> | ->]; repeat split; vm_compute; reflexivity.
  - intros pid q u wt mt w. split.
    + apply only_sends_add_to_cart; [apply writes_unit_allows_login |].
      intros p ck _. split; [reflexivity | apply payload_uom_add].
    + intros Ha Hn. rewrite (async_add_to_cart_exchange _ _ _ _ _ _ Ha Hn).
      eexists. split; [apply exchange_sent |].
      split; [reflexivity |]. split; [reflexivity | apply payload_uom_add].
  - intros item_id oq u wt mt w. split.
    + apply only_sends_update_cart_item;
        [apply writes_unit_allows_login | intros p; apply writes_unit_allows_read |].
      intros p ck _. split; [reflexivity | apply payload_uom_update].
    + intros Ha Hn Hq. rewrite (async_update_cart_item_exchange _ _ _ _ _ _ Ha Hn Hq).
      eexists. split; [apply exchange_sent |].
      split; [reflexivity |]. split; [reflexivity | apply payload_uom_update].
Qed.

Lemma write_path_unit_fallback_witness :
  let w := Spec.constant_world true Spec.one_line_cart in
  exists rq,
    sent (snd (async_add_to_cart "55" Spec.three (Some "caja") None None w)) = [rq]
    /\ Spec.is_cart_write rq = true
    /\ method rq = "POST"
    /\ Spec.uom_sent rq = Some (PyStr "EA").
Proof.
  intros w. destruct write_path_unit_fallback as (H1 & _ & H3 & _).
  destruct (H3 "55" Spec.three (Some "caja") None None w) as [_ H].
  destruct (H eq_refl eq_refl) as (rq & Hs & Hw & Hm & Hu).
  exists rq. split; [exact Hs |]. split; [exact Hw |]. split; [exact Hm |].
  rewrite Hu, (H1 "caja" None); [reflexivity | discriminate |].
  assert (E : alias_or_upper "caja" = "CAJA") by (vm_compute; reflexivity).
  rewrite E. intros Hin.
  repeat (apply elem_of_cons in Hin as [Hin | Hin]; [discriminate Hin |]).
  apply elem_of_nil in Hin. exact Hin.
Defined.

(** ** The checklist *)

Lemma only_sends_remove (P : request -> Prop) (item_id : string) :
  Spec.allows_login P ->
  (forall p, Spec.allows_call P "DELETE" p [] None) ->
  Spec.only_sends P (async_remove_from_cart item_id).
Proof.
  intros Hl H. unfold async_remove_from_cart.
  apply only_sends_bind; [apply only_sends_ensure, Hl |]. intros _.
  apply only_sends_bind; [apply only_sends_get_client |]. intros c.
  apply only_sends_bind; [apply only_sends_request; [exact Hl | apply H] |]. intros data.
  apply only_sends_ret.
Qed.

Lemma no_write_allows_login : Spec.allows_login (fun rq => Spec.is_cart_write rq = false).
Proof. intros user password store_id ck. reflexivity. Qed.

Lemma async_delete_no_write (uid : string) :
  Spec.only_sends (fun rq => Spec.is_cart_write rq = false) (Todo.async_delete_todo_item uid).
Proof.
  unfold Todo.async_delete_todo_item.
  apply only_sends_bind.
  - apply only_sends_remove; [exact no_write_allows_login |]. intros p ck. reflexivity.
  - intros _. apply only_sends_refresh; [exact no_write_allows_login |].
    intros p ck. reflexivity.
Qed.

(** X15: an update without uid fails with [ValueError] and sends
    nothing.  An update of an item marked completed is the deletion of
    its uid: the same requests are sent, none of them a cart write,
    the client and the snapshot end in the same state, and the caller
    gets its item back, or the error of the deletion; the description
    and the tags of the item play no part. *)
Theorem completing_an_item_deletes_it :
  (forall item w,
      TodoItem.uid item = None ->
      Todo.async_update_todo_item item w = (Raise ValueError, w))
  /\ (forall item uid w,
        TodoItem.uid item = Some uid ->
        TodoItem.status item = Some COMPLETED ->
        snd (Todo.async_update_todo_item item w) = snd (Todo.async_delete_todo_item uid w)
        /\ fst (Todo.async_update_todo_item item w)
           = Exn.bind (fst (Todo.async_delete_todo_item uid w)) (fun _ => Ok item)
        /\ Spec.sends (fun rq => Spec.is_cart_write rq = false)
                      w (snd (Todo.async_update_todo_item item w))).
Proof.
  split.
  - intros item w Hu. unfold Todo.async_update_todo_item. rewrite Hu. reflexivity.
  - intros item uid w Hu Hs.
    assert (Hrun : Todo.async_update_todo_item item w
                   = (Exn.bind (fst (Todo.async_delete_todo_item uid w)) (fun _ => Ok item),
                      snd (Todo.async_delete_todo_item uid w))).
    { unfold Todo.async_update_todo_item, Todo.async_delete_todo_item.
      rewrite Hu, Hs. cbn [Todo.status_is_completed].
      cbv beta iota delta [mbind ret].
      destruct (async_remove_from_cart uid w) as [[[] | e] w1]; [| reflexivity].
      destruct (Todo.async_request_refresh w1) as [[[] | e] w2]; reflexivity. }
    rewrite Hrun. cbn [fst snd]. repeat split. apply async_delete_no_write.
Qed.

Lemma completing_an_item_deletes_it_witness :
  let w := Spec.constant_world true Spec.empty_object in
  let item := TodoItem.mk (Some "Leche") (Some "7") (Some COMPLETED) (Some "2 kg")
                          (Some [("quantity", PyInt (10 ^ 400))]) in
  fst (Todo.async_update_todo_item item w) = Ok item
  /\ List.map method (sent (snd (Todo.async_update_todo_item item w))) = ["DELETE"; "GET"].
Proof.
  intros w item.
  destruct completing_an_item_deletes_it as [_ H].
  destruct (H item "7" w eq_refl eq_refl) as (Hw & Hr & _).
  rewrite Hr, Hw. split; reflexivity.
Defined.

(** X16: when the tags or the description of a new checklist item
    give a product id, that product is added to the cart as it is:
    the summary is not looked at and no product search is sent. *)
Theorem known_product_is_not_searched (item : TodoItem.t) (pid : string)
    (q : PyFloat.float) (u mt : option string) (w : world) :
  Todo.create_fields item = Ok (Some pid, q, u, mt) ->
  Todo.async_create_todo_item item w = Spec.add_and_refresh pid q u mt w
  /\ Spec.sends (fun rq => Spec.is_search_call rq = false)
                w (snd (Todo.async_create_todo_item item w)).
Proof.
  intros Hf.
  assert (Hrun : Todo.async_create_todo_item item w = Spec.add_and_refresh pid q u mt w).
  { unfold Todo.async_create_todo_item, Spec.add_and_refresh. rewrite Hf.
    cbv beta iota delta [mbind lift ret]. reflexivity. }
  split; [exact Hrun |]. rewrite Hrun. apply add_and_refresh_no_search.
Qed.

Lemma known_product_is_not_searched_witness :
  let w := Spec.constant_world true Spec.one_line_cart in
  let item := TodoItem.mk None None None (Some "2 kg product_id=998877")
                          (Some [("product_id", PyStr "55")]) in
  List.map json (sent (snd (Todo.async_create_todo_item item w)))
  = [Some (add_payload "998877" (S754_finite false 4503599627370496 (-51))
                       (Some "KGM") None (Some "weight")); None].
Proof.
  intros w item.
  destruct (known_product_is_not_searched item "998877"
              (S754_finite false 4503599627370496 (-51)) (Some "KGM") (Some "weight") w)
    as [H _]; [vm_compute; reflexivity |].
  rewrite H. vm_compute. reflexivity.
Defined.

(** X17: when the answer to the write decodes to one item or more,
    [async_add_to_cart] returns the last of them. *)
Theorem add_returns_the_last_item (pid : string) (q : PyFloat.float) (u : option string)
    (wt : option PyFloat.float) (mt : option string) (w w1 : world) (data : py_value)
    (items : list CartItem.t) (item : CartItem.t) :
  Spec.post_to_cart pid q u wt mt w = (Ok data, w1) ->
  _parse_cart_items data = Ok (items ++ [item])%list ->
  async_add_to_cart pid q u wt mt w = (Ok item, w1).
Proof.
  unfold Spec.post_to_cart, async_add_to_cart. cbv beta iota delta [mbind lift].
  destruct (async_ensure_authenticated w) as [[[] | e] w0]; [| discriminate].
  destruct (get_client w0) as [[c | e] w0']; [| discriminate].
  destruct (_request _ _ _ _ _ w0') as [[data' | e] w2]; [| discriminate].
  intros H Hp. apply pair_inj in H as [H <-]. apply ok_inj in H. subst data'.
  rewrite Hp, last_snoc. reflexivity.
Qed.

Lemma add_returns_the_last_item_witness :
  let cart :=
    PyDict [("orderItem", PyList [PyDict [("orderItemId", PyStr "1")];
                                  PyDict [("orderItemId", PyStr "2")]])] in
  let w := Spec.constant_world true (mk_response 200 [] "application/json" "{...}" (Some cart)) in
  exists item w1,
    async_add_to_cart "55" one None None None w = (Ok item, w1)
    /\ CartItem.item_id item = "2".
Proof.
  intros cart w.
  assert (Hp : exists a b, _parse_cart_items cart = Ok ([a] ++ [b])%list
                            /\ CartItem.item_id b = "2")
    by (vm_compute; eexists _, _; split; reflexivity).
  destruct Hp as (a & b & Hp & Hb).
  exists b, (Spec.exchange "POST" "/wcs/resources/store/10151/cart" []
               (Some (add_payload "55" one None None None)) w).
  split; [| exact Hb].
  exact (add_returns_the_last_item "55" one None None None w _ cart [a] b eq_refl Hp).
Defined.

Lemma find_item_listed (data : list CartItem.t) (i : CartItem.t) :
  i ∈ data -> is_Some (Todo.find_item (CartItem.item_id i) (Some data)).
Proof.
  unfold Todo.find_item. cbn [default from_option id].
  induction data as [| x data IH]; intros H; [apply elem_of_nil in H; contradiction |].
  cbn [List.find]. destruct (String.eqb (CartItem.item_id x) (CartItem.item_id i)) eqn:E;
    [eexists; reflexivity |].
  apply elem_of_cons in H as [-> | H]; [| exact (IH H)].
  rewrite String.eqb_refl in E. discriminate.
Qed.

(** X18: [async_get_items] shows the snapshot of the coordinator and
    changes nothing: one checklist item for each cart item, in order,
    with the item id as uid, the name as summary and the status
    needs-action; an absent snapshot shows as the empty list.  Every
    uid shown is one an update can find again in the snapshot. *)
Theorem checklist_mirrors_the_snapshot (w : world) :
  let data := default [] (coordinator_data w) in
  exists shown,
    Todo.async_get_items w = (Ok shown, w)
    /\ List.map TodoItem.uid shown = List.map (fun i => Some (CartItem.item_id i)) data
    /\ List.map TodoItem.summary shown = List.map (fun i => Some (CartItem.name i)) data
    /\ Forall (fun t => TodoItem.status t = Some NEEDS_ACTION) shown
    /\ Forall (fun t => exists uid, TodoItem.uid t = Some uid
                          /\ is_Some (Todo.find_item uid (coordinator_data w))) shown.
Proof.
  intros data. eexists. split; [reflexivity |]. fold data.
  split; [rewrite List.map_map; reflexivity |].
  split; [rewrite List.map_map; reflexivity |].
  split.
  - apply Forall_forall. intros t Ht. apply list_elem_of_In, in_map_iff in Ht.
    destruct Ht as (i & <- & _). reflexivity.
  - apply Forall_forall. intros t Ht. apply list_elem_of_In, in_map_iff in Ht.
    destruct Ht as (i & <- & Hi). exists (CartItem.item_id i). split; [reflexivity |].
    apply list_elem_of_In in Hi. subst data.
    destruct (coordinator_data w) as [items |]; [| apply elem_of_nil in Hi; contradiction].
    exact (find_item_listed items i Hi).
Qed.

Lemma checklist_mirrors_the_snapshot_witness :
  let w := mk_world (__init__ "user" "secret" "10151") (fun _ => Timeout) []
                    (Some [CartItem.mk "7" "55" "Leche" one "LTR" "volume" None None]) true in
  exists shown,
    Todo.async_get_items w = (Ok shown, w)
    /\ List.map TodoItem.uid shown = [Some "7"].
Proof.
  intros w. destruct (checklist_mirrors_the_snapshot w) as (shown & H & Hu & _).
  exists shown. split; [exact H | exact Hu].
Defined.

(** X19: [ProductSummary.to_dict] has the eight keys of the record, in
    the order of its fields, and loses nothing: two products with the
    same dictionary are the same product. *)
Theorem product_dict_is_lossless :
  (forall p, List.map fst (ProductSummary.to_dict p)
             = ["product_id"; "sku"; "name"; "price"; "unit"; "measurement_type";
                "category"; "brand"])
  /\ (forall p q, ProductSummary.to_dict p = ProductSummary.to_dict q -> p = q).
Proof.
  split; [reflexivity |].
  intros [pid1 sku1 name1 price1 unit1 mt1 cat1 brand1]
         [pid2 sku2 name2 price2 unit2 mt2 cat2 brand2].
  unfold ProductSummary.to_dict.
  cbn [ProductSummary.product_id ProductSummary.sku ProductSummary.name ProductSummary.price
       ProductSummary.unit ProductSummary.measurement_type ProductSummary.category
       ProductSummary.brand].
  intros H. injection H as Hpid Hsku Hname Hprice Hunit Hmt Hcat Hbrand.
  assert (Hopt : forall (A : Type) (inj : A -> py_value) (a b : option A),
            (forall x, inj x <> PyNone) -> (forall x y, inj x = inj y -> x = y) ->
            ProductSummary.opt_value inj a = ProductSummary.opt_value inj b -> a = b).
  { intros A inj [a |] [b |] Hn Hi E; cbn [ProductSummary.opt_value] in E.
    - f_equal. exact (Hi _ _ E).
    - exfalso. exact (Hn _ E).
    - exfalso. symmetry in E. exact (Hn _ E).
    - reflexivity. }
  assert (Hs : forall a b : option string,
            ProductSummary.opt_value PyStr a = ProductSummary.opt_value PyStr b -> a = b).
  { intros a b. apply Hopt; [discriminate | intros x y E; injection E as E; exact E]. }
  assert (Hf : forall a b : option PyFloat.float,
            ProductSummary.opt_value PyFloat a = ProductSummary.opt_value PyFloat b -> a = b).
  { intros a b. apply Hopt; [discriminate | intros x y E; injection E as E; exact E]. }
  rewrite Hpid, (Hs _ _ Hsku), Hname, (Hf _ _ Hprice), (Hs _ _ Hunit), (Hs _ _ Hmt),
    (Hs _ _ Hcat), Hbrand. reflexivity.
Qed.


(** X20: the unit of a cart record and of a search record is resolved
    like the unit tag of a checklist item: the first non-empty text
    among the fields [uom], [unitOfMeasure], [unit] and [measure] gives
    its alias, whatever its letter case, or itself in upper case when
    it is no alias.  A cart record with no such text takes its unit
    from [measurementUnit], or from [measurement] when that one is
    missing or falsy: the alias of that text, whatever its letter case,
    and [EA] when the text is no alias or the field holds no text;
    either way one of the canonical units. *)
Theorem record_unit_is_resolved_like_a_tag (raw : py_dict) :
  match first_nonempty_str ["uom"; "unitOfMeasure"; "unit"; "measure"] raw with
  | Some value =>
      _extract_unit raw = alias_or_upper value
      /\ _extract_search_unit raw = Some (alias_or_upper value)
      /\ Todo._normalize_unit (PyStr value) = Some (alias_or_upper value)
  | None =>
      _extract_unit raw
      = match py_or (dict_get "measurementUnit" raw) (dict_get "measurement" raw) with
        | PyStr m => default "EA" (UNIT_ALIASES !! PyStr.lower m)
        | _ => "EA"
        end
      /\ _extract_unit raw ∈ canonical_units
  end.
Proof.
  assert (Hempty : default "EA" (UNIT_ALIASES !! PyStr.lower "") = "EA")
    by (vm_compute; reflexivity).
  assert (Hea : "EA" ∈ canonical_units) by repeat constructor.
  destruct (first_nonempty_str _ raw) as [value |] eqn:E.
  - unfold _extract_unit, _extract_search_unit. rewrite E, str_or_alias.
    split; [reflexivity |]. split; [reflexivity |].
    unfold Todo._normalize_unit. rewrite (first_nonempty_str_nonempty _ _ _ E). reflexivity.
  - unfold _extract_unit. rewrite E. cbv zeta.
    destruct (py_or _ _) as [| b | z | f | m | l | d]; cbn [nonempty_str];
      try (split; [reflexivity | exact Hea]).
    destruct (PyStr.is_empty m) eqn:Em.
    + destruct m; [| discriminate]. rewrite Hempty. split; [reflexivity | exact Hea].
    + unfold str_or. destruct (UNIT_ALIASES !! PyStr.lower m) as [u |] eqn:Ea;
        cbn [default]; [| split; [reflexivity | exact Hea]].
      rewrite (alias_values_nonempty _ _ Ea).
      split; [reflexivity | exact (alias_values_canonical _ _ Ea)].
Qed.

Lemma record_unit_is_resolved_like_a_tag_witness :
  _extract_unit [("uom", PyStr ""); ("unit", PyStr "Kilos")] = "KGM"
  /\ _extract_unit [("measurementUnit", PyStr ""); ("measurement", PyStr "Kilos")] = "KGM"
  /\ _extract_unit [("measurementUnit", PyStr "caja")] = "EA".
Proof.
  split; [| split].
  - destruct (record_unit_is_resolved_like_a_tag [("uom", PyStr ""); ("unit", PyStr "Kilos")])
      as (H & _). rewrite H. vm_compute. reflexivity.
  - destruct (record_unit_is_resolved_like_a_tag
                [("measurementUnit", PyStr ""); ("measurement", PyStr "Kilos")]) as (H & _).
    rewrite H. vm_compute. reflexivity.
  - destruct (record_unit_is_resolved_like_a_tag [("measurementUnit", PyStr "caja")])
      as (H & _). rewrite H. vm_compute. reflexivity.
Defined.
